(** * Gym membership pricing: a shallow embedding of [gym_membership.py]

    The development follows [GymMembershipManager]: the two catalogs, the
    three validation methods, the four stage calculators, their composition
    [calculate_total_cost] and the report [get_summary].

    Python's [float] is IEEE binary64.  The methods only add, subtract,
    multiply, compare and print amounts, so the embedding is written once
    over an interface [Arith] of exactly these operations and read at two
    instances: [Binary64] (Rocq's primitive floats, the arithmetic the
    interpreter performs) and [Exact] (canonical rationals, the decimal
    currency amounts the catalogs and the docstrings speak about).

    [GymMembershipApp], the console front end, is embedded over a list of
    input lines and a list of written items; its prompts are loops over the
    lines, and [run] threads the console through them. *)

From Stdlib Require Import ZArith QArith Qcanon String Ascii List Lia.
From Stdlib Require Import DecimalString Floats.
From stdpp Require Import gmap strings.
Import ListNotations.

Local Open Scope Z_scope.
Local Open Scope string_scope.

(** ** Text helpers: the pieces of [str] and of format specifications used *)

Module Text.

(** [c * n] for a one-character string [c]. *)
Fixpoint repeat_char (c : ascii) (n : nat) : string :=
  match n with
  | O => EmptyString
  | S k => String c (repeat_char c k)
  end.

(** [str(n)] for an [int] of at most 4300 digits; the interpreter may refuse
    to convert a longer one, and the properties that print an [int] are
    stated within that bound. *)
Definition str_of_int (z : Z) : string := NilZero.string_of_int (Z.to_int z).

(** [s.center(width)]: CPython pads with spaces, the left margin being
    [pad/2 + (pad & width & 1)]. *)
Definition center (s : string) (width : nat) : string :=
  let len := String.length s in
  if (width <=? len)%nat then s
  else
    let pad := (width - len)%nat in
    let left := (Nat.div2 pad + (if Nat.odd pad && Nat.odd width then 1 else 0))%nat in
    repeat_char " " left ++ s ++ repeat_char " " (pad - left).

(** Right alignment, the [>10] of a format specification. *)
Definition rjust (s : string) (width : nat) : string :=
  repeat_char " " (width - String.length s) ++ s.

Definition nl : string := String (ascii_of_nat 10) EmptyString.

(** Fixed notation with two fractional digits of the rational
    [(-1)^neg * num / den], rounded to nearest, ties to even: what
    [format(x, ".2f")] prints for a finite [x]. *)
Definition fixed2 (neg : bool) (num : Z) (den : Z) : string :=
  let scaled := (100 * num)%Z in
  let k := (scaled / den)%Z in
  let r := (scaled mod den)%Z in
  let k' := match (2 * r ?= den)%Z with
            | Gt => (k + 1)%Z
            | Eq => if Z.even k then k else (k + 1)%Z
            | Lt => k
            end in
  let frac := (k' mod 100)%Z in
  (if neg then "-" else "") ++ str_of_int (k' / 100)%Z ++ "."
    ++ (if (frac <? 10)%Z then "0" else "") ++ str_of_int frac.

End Text.

(** ** The arithmetic of amounts *)

(** The operations the methods apply to a [float]. *)
Class Arith (A : Type) := {
  (** the decimal literal [m * 10^-e], e.g. [29.99] is [lit 2999 2] *)
  lit : Z -> nat -> A;
  (** an [int] in a mixed [float]/[int] expression *)
  of_int : Z -> A;
  add : A -> A -> A;
  sub : A -> A -> A;
  mul : A -> A -> A;
  (** [x > y] *)
  gtb : A -> A -> bool;
  (** [format(x, ".2f")] *)
  fmt2f : A -> string
}.

(** Python floats. *)
Module Binary64.

(** The double nearest to an integer. *)
Definition of_Z (z : Z) : float := SF2Prim (binary_normalize prec emax z 0%Z false).

(** A decimal literal is read as the double nearest to its value; for the
    literals of this program numerator and power of ten are both exact
    doubles, so one correctly rounded division yields it. *)
Definition decimal (m : Z) (e : nat) : float :=
  PrimFloat.div (of_Z m) (of_Z (10 ^ Z.of_nat e)%Z).

Definition format2 (x : float) : string :=
  match Prim2SF x with
  | S754_zero s => Text.fixed2 s 0%Z 1%Z
  | S754_infinity s => if s then "-inf" else "inf"
  | S754_nan => "nan"
  | S754_finite s m e =>
      if (0 <=? e)%Z then Text.fixed2 s (Z.pos m * 2 ^ e)%Z 1%Z
      else Text.fixed2 s (Z.pos m) (2 ^ (- e))%Z
  end.

#[global] Instance arith : Arith float := {|
  lit := decimal;
  of_int := of_Z;
  add := PrimFloat.add;
  sub := PrimFloat.sub;
  mul := PrimFloat.mul;
  gtb := fun x y => PrimFloat.ltb y x;
  fmt2f := format2
|}.

End Binary64.

(** Exact decimal amounts. *)
Module Exact.

Definition decimal (m : Z) (e : nat) : Qc := Q2Qc (m # Pos.of_nat (10 ^ e)).

Definition of_Z (z : Z) : Qc := Q2Qc (inject_Z z).

Definition greater (x y : Qc) : bool :=
  match (y ?= x)%Qc with Lt => true | _ => false end.

Definition format2 (x : Qc) : string :=
  Text.fixed2 (Qnum x <? 0)%Z (Z.abs (Qnum x)) (Z.pos (Qden x)).

#[global] Instance arith : Arith Qc := {|
  lit := decimal;
  of_int := of_Z;
  add := Qcplus;
  sub := Qcminus;
  mul := Qcmult;
  gtb := greater;
  fmt2f := format2
|}.

End Exact.

(** ** Data model *)

(** [class PremiumFeatureLevel(Enum)]. *)
Inductive PremiumFeatureLevel := NONE | EXCLUSIVE_FACILITIES | SPECIALIZED_TRAINING.

Definition value (level : PremiumFeatureLevel) : string :=
  match level with
  | NONE => "None"
  | EXCLUSIVE_FACILITIES => "Exclusive Facilities"
  | SPECIALIZED_TRAINING => "Specialized Training"
  end.

Definition PremiumFeatureLevel_eqb (a b : PremiumFeatureLevel) : bool :=
  match a, b with
  | NONE, NONE | EXCLUSIVE_FACILITIES, EXCLUSIVE_FACILITIES
  | SPECIALIZED_TRAINING, SPECIALIZED_TRAINING => true
  | _, _ => false
  end.

(** [@dataclass class MembershipPlan]. *)
Module MembershipPlan.
Record t (A : Type) := make {
  name : string;
  base_cost : A;
  benefits : list string;
  available : bool
}.
Arguments make {A}.
Arguments name {A}.
Arguments base_cost {A}.
Arguments benefits {A}.
Arguments available {A}.
End MembershipPlan.

(** [@dataclass class AdditionalFeature]. *)
Module AdditionalFeature.
Record t (A : Type) := make {
  name : string;
  cost : A;
  available : bool
}.
Arguments make {A}.
Arguments name {A}.
Arguments cost {A}.
Arguments available {A}.
End AdditionalFeature.

(** The instance attributes of a [GymMembershipManager]: its two [dict]s. *)
Record GymMembershipManager (A : Type) := {
  membership_plans : gmap string (MembershipPlan.t A);
  additional_features : gmap string (AdditionalFeature.t A)
}.
Arguments membership_plans {A}.
Arguments additional_features {A}.

(** The [dict] literal that [calculate_total_cost] returns, one field per key. *)
Record Breakdown (A : Type) := {
  bd_base_cost : A;
  bd_features_cost : A;
  bd_subtotal : A;
  bd_group_discount : A;
  bd_after_group_discount : A;
  bd_special_offer_discount : A;
  bd_after_special_discount : A;
  bd_premium_surcharge : A;
  bd_total_cost : A
}.
Arguments bd_base_cost {A}.
Arguments bd_features_cost {A}.
Arguments bd_subtotal {A}.
Arguments bd_group_discount {A}.
Arguments bd_after_group_discount {A}.
Arguments bd_special_offer_discount {A}.
Arguments bd_after_special_discount {A}.
Arguments bd_premium_surcharge {A}.
Arguments bd_total_cost {A}.

(** The validators test the run-time type of their argument, so they are
    modelled on the Python values a caller can pass.  The elements of a list
    or tuple are strings, as the annotation [List[str]] has them. *)
Inductive PyValue :=
| PyNone
| PyBool (b : bool)
| PyInt (z : Z)
| PyFloat (f : float)
| PyStr (s : string)
| PyList (l : list string)
| PyTuple (l : list string).

(** [isinstance(v, list)]. *)
Definition isinstance_list (v : PyValue) : option (list string) :=
  match v with
  | PyList l => Some l
  | _ => None
  end.

(** [isinstance(v, int)]; [bool] is a subclass of [int], [True] being 1. *)
Definition isinstance_int (v : PyValue) : option Z :=
  match v with
  | PyInt z => Some z
  | PyBool b => Some (Z.b2z b)
  | _ => None
  end.

(** ** Methods: computations that read [self] and may raise *)

Inductive Exn := KeyError (key : string).

Inductive Outcome (X : Type) :=
| Returns (x : X)
| Raises (e : Exn).
Arguments Returns {X}.
Arguments Raises {X}.

Definition Method (S X : Type) : Type := S -> Outcome X * S.

Definition ret {S X} (x : X) : Method S X := fun self => (Returns x, self).

Definition raise {S X} (e : Exn) : Method S X := fun self => (Raises e, self).

Definition bind {S X Y} (c : Method S X) (k : X -> Method S Y) : Method S Y :=
  fun self =>
    match c self with
    | (Returns x, self') => k x self'
    | (Raises e, self') => (Raises e, self')
    end.

(** [self.attribute]. *)
Definition attr {S X} (field : S -> X) : Method S X := fun self => (Returns (field self), self).

Notation "x <- c ;; k" := (bind c (fun x => k))
  (at level 100, c at next level, right associativity).

(** [key in d] and [d[key]] on a [dict]. *)
Definition contains {V} (d : gmap string V) (key : string) : bool :=
  match d !! key with
  | Some _ => true
  | None => false
  end.

Definition getitem {S V} (d : gmap string V) (key : string) : Method S V :=
  match d !! key with
  | Some v => ret v
  | None => raise (KeyError key)
  end.

(** ** [class GymMembershipManager] *)

Section Manager.

Context {A : Type} `{Arith A}.

Local Abbreviation Self := (GymMembershipManager A).
Local Abbreviation M := (Method Self).

(** *** Class attributes *)

Definition MEMBERSHIP_PLANS : gmap string (MembershipPlan.t A) :=
  <["Basic" := MembershipPlan.make "Basic" (lit 2999 2)
      ["Access to gym equipment"; "Basic locker room access"] true]>
  (<["Premium" := MembershipPlan.make "Premium" (lit 5999 2)
      ["Access to gym equipment"; "Premium locker room"; "Sauna access"] true]>
  (<["Family" := MembershipPlan.make "Family" (lit 9999 2)
      ["Up to 4 family members"; "All Premium benefits"; "Family lounge access"] true]>
   ∅)).

Definition ADDITIONAL_FEATURES : gmap string (AdditionalFeature.t A) :=
  <["Personal Training" := AdditionalFeature.make "Personal Training" (lit 5000 2) true]>
  (<["Group Classes" := AdditionalFeature.make "Group Classes" (lit 3000 2) true]>
  (<["Nutritional Consulting" :=
       AdditionalFeature.make "Nutritional Consulting" (lit 4000 2) true]>
   ∅)).

(** [(threshold, discount)] pairs of [int]s, in the order of the source. *)
Definition SPECIAL_OFFER_DISCOUNTS : list (Z * Z) := [(200, 20); (400, 50)]%Z.

Definition GROUP_DISCOUNT_THRESHOLD : Z := 2.
Definition GROUP_DISCOUNT_PERCENTAGE : A := lit 10 2.
Definition PREMIUM_SURCHARGE_PERCENTAGE : A := lit 15 2.

(** [__init__]: both catalogs start as copies of the class tables. *)
Definition init : Self :=
  {| membership_plans := MEMBERSHIP_PLANS;
     additional_features := ADDITIONAL_FEATURES |}.

(** *** Validation *)

Definition validate_membership_plan (plan_name : string) : M (bool * option string) :=
  plans <- attr membership_plans ;;
  if negb (contains plans plan_name) then
    ret (false, Some ("Membership plan '" ++ plan_name ++ "' does not exist."))
  else
    plan <- getitem plans plan_name ;;
    if negb (MembershipPlan.available plan) then
      ret (false, Some ("Membership plan '" ++ plan_name ++ "' is currently unavailable."))
    else ret (true, None).

(** The [for] loop of [validate_features], with the [return True, None]
    that follows it as the exit of the loop. *)
Fixpoint validate_features_loop (feature_names : list string) : M (bool * option string) :=
  match feature_names with
  | [] => ret (true, None)
  | feature_name :: rest =>
      features <- attr additional_features ;;
      if negb (contains features feature_name) then
        ret (false, Some ("Additional feature '" ++ feature_name ++ "' does not exist."))
      else
        feature <- getitem features feature_name ;;
        if negb (AdditionalFeature.available feature) then
          ret (false,
               Some ("Additional feature '" ++ feature_name ++ "' is currently unavailable."))
        else validate_features_loop rest
  end.

Definition validate_features (feature_names : PyValue) : M (bool * option string) :=
  match isinstance_list feature_names with
  | None => ret (false, Some "Features must be provided as a list.")
  | Some names => validate_features_loop names
  end.

Definition validate_num_members (num_members : PyValue) : M (bool * option string) :=
  match isinstance_int num_members with
  | None => ret (false, Some "Number of members must be an integer.")
  | Some n =>
      if (n <? 1)%Z then ret (false, Some "Number of members must be at least 1.")
      else if (n >? 10)%Z then ret (false, Some "Number of members cannot exceed 10.")
      else ret (true, None)
  end.

(** *** Stage calculators *)

Definition calculate_base_cost (plan_name : string) : M A :=
  plans <- attr membership_plans ;;
  plan <- getitem plans plan_name ;;
  ret (MembershipPlan.base_cost plan).

Fixpoint calculate_features_cost_loop (total : A) (feature_names : list string) : M A :=
  match feature_names with
  | [] => ret total
  | feature_name :: rest =>
      features <- attr additional_features ;;
      feature <- getitem features feature_name ;;
      calculate_features_cost_loop (add total (AdditionalFeature.cost feature)) rest
  end.

Definition calculate_features_cost (feature_names : list string) : M A :=
  calculate_features_cost_loop (lit 0 1) feature_names.

(** Returns [(discounted_cost, discount_amount)]. *)
Definition calculate_group_discount (base_total : A) (num_members : Z) : M (A * A) :=
  if (num_members <? GROUP_DISCOUNT_THRESHOLD)%Z then ret (base_total, lit 0 1)
  else
    let discount_amount := mul base_total GROUP_DISCOUNT_PERCENTAGE in
    let discounted_cost := sub base_total discount_amount in
    ret (discounted_cost, discount_amount).

(** [sorted(pairs, reverse=True)]: tuples compare lexicographically, the
    largest first; equal tuples keep their order. *)
Definition tuple_ltb (a b : Z * Z) : bool :=
  (fst a <? fst b)%Z || ((fst a =? fst b)%Z && (snd a <? snd b)%Z).

Fixpoint insert_desc (x : Z * Z) (l : list (Z * Z)) : list (Z * Z) :=
  match l with
  | [] => [x]
  | y :: rest => if tuple_ltb x y then y :: insert_desc x rest else x :: l
  end.

Definition sorted_reverse (l : list (Z * Z)) : list (Z * Z) :=
  fold_right insert_desc [] l.

(** The [for ... break] loop over the sorted tiers.  Thresholds and discounts
    are [int]s in the source; compared with or subtracted from a [float]
    they stand for the same number. *)
Fixpoint special_offer_loop (cost : A) (tiers : list (Z * Z)) (discount_amount : A) : A :=
  match tiers with
  | [] => discount_amount
  | (threshold, discount) :: rest =>
      if gtb cost (of_int threshold) then of_int discount
      else special_offer_loop cost rest discount_amount
  end.

(** Returns [(discounted_cost, discount_amount)]. *)
Definition calculate_special_offer_discount (cost : A) : M (A * A) :=
  let discount_amount :=
    special_offer_loop cost (sorted_reverse SPECIAL_OFFER_DISCOUNTS) (lit 0 1) in
  let discounted_cost := sub cost discount_amount in
  ret (discounted_cost, discount_amount).

(** Returns [(total_with_surcharge, surcharge_amount)]. *)
Definition calculate_premium_surcharge (cost : A) (premium_level : PremiumFeatureLevel)
  : M (A * A) :=
  if PremiumFeatureLevel_eqb premium_level NONE then ret (cost, lit 0 1)
  else
    let surcharge_amount := mul cost PREMIUM_SURCHARGE_PERCENTAGE in
    let total_with_surcharge := add cost surcharge_amount in
    ret (total_with_surcharge, surcharge_amount).

(** *** Composition *)

Definition calculate_total_cost (plan_name : string) (feature_names : list string)
    (num_members : Z) (premium_level : PremiumFeatureLevel) : M (A * Breakdown A) :=
  base_cost <- calculate_base_cost plan_name ;;
  features_cost <- calculate_features_cost feature_names ;;
  let subtotal := add base_cost features_cost in
  g <- calculate_group_discount subtotal num_members ;;
  let '(after_group, group_discount) := g in
  s <- calculate_special_offer_discount after_group ;;
  let '(after_special, special_discount) := s in
  p <- calculate_premium_surcharge after_special premium_level ;;
  let '(total_with_surcharge, surcharge) := p in
  let breakdown :=
    {| bd_base_cost := base_cost;
       bd_features_cost := features_cost;
       bd_subtotal := subtotal;
       bd_group_discount := group_discount;
       bd_after_group_discount := after_group;
       bd_special_offer_discount := special_discount;
       bd_after_special_discount := after_special;
       bd_premium_surcharge := surcharge;
       bd_total_cost := total_with_surcharge |} in
  ret (total_with_surcharge, breakdown).

(** *** Report *)

(** [f"{x:>10.2f}"]. *)
Definition money (x : A) : string := Text.rjust (fmt2f x) 10.

(** [summary.append(line)]. *)
Definition push (summary : list string) (line : string) : list string :=
  (summary ++ [line])%list.

(** The loop that appends one line per selected feature. *)
Fixpoint feature_lines_loop (summary : list string) (feature_names : list string)
  : M (list string) :=
  match feature_names with
  | [] => ret summary
  | feature :: rest =>
      features <- attr additional_features ;;
      entry <- getitem features feature ;;
      let cost := AdditionalFeature.cost entry in
      feature_lines_loop (push summary ("  - " ++ feature ++ ": $" ++ fmt2f cost)) rest
  end.

(** The list [summary] as it stands before the final [join]. *)
Definition summary_lines (plan_name : string) (feature_names : list string)
    (num_members : Z) (premium_level : PremiumFeatureLevel) : M (list string) :=
  r <- calculate_total_cost plan_name feature_names num_members premium_level ;;
  let '(total_cost, breakdown) := r in
  let summary := [] in
  let summary := push summary (Text.nl ++ Text.repeat_char "=" 60) in
  let summary := push summary (Text.center "MEMBERSHIP SUMMARY" 60) in
  let summary := push summary (Text.repeat_char "=" 60) in
  let summary := push summary (Text.nl ++ "Membership Plan: " ++ plan_name) in
  let summary := push summary ("Number of Members: " ++ Text.str_of_int num_members) in
  summary <- match feature_names with
             | _ :: _ => feature_lines_loop (push summary "Additional Features:") feature_names
             | [] => ret (push summary "Additional Features: None")
             end ;;
  let summary :=
    if negb (PremiumFeatureLevel_eqb premium_level NONE)
    then push summary ("Premium Level: " ++ value premium_level)
    else summary in
  let summary := push summary (Text.nl ++ Text.repeat_char "-" 60) in
  let summary := push summary (Text.center "COST BREAKDOWN" 60) in
  let summary := push summary (Text.repeat_char "-" 60) in
  let summary :=
    push summary ("Base Membership Cost:        $" ++ money (bd_base_cost breakdown)) in
  let summary :=
    if gtb (bd_features_cost breakdown) (of_int 0)
    then push (push summary
                 ("Additional Features Cost:    $" ++ money (bd_features_cost breakdown)))
              ("Subtotal:                    $" ++ money (bd_subtotal breakdown))
    else summary in
  let summary :=
    if gtb (bd_group_discount breakdown) (of_int 0)
    then push (push summary
                 ("Group Discount (10%):       -$" ++ money (bd_group_discount breakdown)))
              ("After Group Discount:        $" ++ money (bd_after_group_discount breakdown))
    else summary in
  let summary :=
    if gtb (bd_special_offer_discount breakdown) (of_int 0)
    then push (push summary
                 ("Special Offer Discount:     -$"
                    ++ money (bd_special_offer_discount breakdown)))
              ("After Special Discount:      $" ++ money (bd_after_special_discount breakdown))
    else summary in
  let summary :=
    if gtb (bd_premium_surcharge breakdown) (of_int 0)
    then push summary ("Premium Surcharge (15%):     $" ++ money (bd_premium_surcharge breakdown))
    else summary in
  let summary := push summary (Text.repeat_char "-" 60) in
  let summary := push summary ("TOTAL COST:                  $" ++ money (bd_total_cost breakdown)) in
  let summary := push summary (Text.repeat_char "=" 60 ++ Text.nl) in
  ret summary.

Definition get_summary (plan_name : string) (feature_names : list string)
    (num_members : Z) (premium_level : PremiumFeatureLevel) : M string :=
  summary <- summary_lines plan_name feature_names num_members premium_level ;;
  ret (String.concat Text.nl summary).

End Manager.

(** * Vocabulary of the properties *)

(** Every name of [names] is a key of [d], [entries] being the values found,
    one per occurrence. *)
Definition all_found {V} (d : gmap string V) (names : list string) (entries : list V) : Prop :=
  Forall2 (fun name entry => d !! name = Some entry) names entries.

(** The call returns, leaves [self] as it was, and its total and breakdown
    satisfy [P]. *)
Definition scenario {A : Type} `{Arith A} (plan_name : string) (feature_names : list string)
    (num_members : Z) (premium_level : PremiumFeatureLevel)
    (P : A -> Breakdown A -> Prop) : Prop :=
  exists (total : A) (bd : Breakdown A),
    calculate_total_cost plan_name feature_names num_members premium_level init
    = (Returns (total, bd), init)
    /\ P total bd.

(** The three features of the seed catalog. *)
Definition all_features : list string :=
  ["Personal Training"; "Group Classes"; "Nutritional Consulting"].

(** The validators report a failure as a message; the four kinds of failure
    are told apart by it. *)
Inductive ErrorKind := NotFound | Unavailable | InvalidInput | OutOfRange.

(** The kind of each message the validators can return. *)
Inductive has_kind : ErrorKind -> string -> Prop :=
| plan_not_found name :
    has_kind NotFound ("Membership plan '" ++ name ++ "' does not exist.")
| feature_not_found name :
    has_kind NotFound ("Additional feature '" ++ name ++ "' does not exist.")
| plan_unavailable name :
    has_kind Unavailable ("Membership plan '" ++ name ++ "' is currently unavailable.")
| feature_unavailable name :
    has_kind Unavailable ("Additional feature '" ++ name ++ "' is currently unavailable.")
| not_a_list : has_kind InvalidInput "Features must be provided as a list."
| not_an_integer : has_kind InvalidInput "Number of members must be an integer."
| below_range : has_kind OutOfRange "Number of members must be at least 1."
| above_range : has_kind OutOfRange "Number of members cannot exceed 10.".

(** The last character but one, which tells "...exist." from "...unavailable.". *)
Fixpoint penultimate (s : string) : option ascii :=
  match s with
  | EmptyString => None
  | String c rest =>
      match rest with
      | String _ EmptyString => Some c
      | _ => penultimate rest
      end
  end.

(** Python's sequence types among the modelled values. *)
Definition is_sequence (v : PyValue) : bool :=
  match v with
  | PyStr _ | PyList _ | PyTuple _ => true
  | _ => false
  end.

(** The name is a key of the feature catalog and its entry is available. *)
Definition feature_enabled {A : Type} (self : GymMembershipManager A) (name : string) : bool :=
  match additional_features self !! name with
  | Some entry => AdditionalFeature.available entry
  | None => false
  end.

(** A manager whose "Group Classes" feature has been switched off, as the
    tests do by assigning [available = False]. *)
Definition without_group_classes {A : Type} `{Arith A} : GymMembershipManager A :=
  {| membership_plans := MEMBERSHIP_PLANS;
     additional_features :=
       <["Group Classes" := AdditionalFeature.make "Group Classes" (lit 3000 2) false]>
         ADDITIONAL_FEATURES |}.

(** A method that hands back [self] as it received it, so that calling it
    again gives the same outcome. *)
Definition repeatable {S X : Type} (c : Method S X) : Prop :=
  forall self : S, snd (c self) = self /\ fst (c (snd (c self))) = fst (c self).

(** The report as the specification describes it: four sections, laid out
    from the selection, the catalog entries of the selected features and a
    breakdown.  The properties compare [summary_lines] with them. *)
Definition rule (c : ascii) : string := Text.repeat_char c 60.

(** Header, plan name and member count. *)
Definition header_section (plan_name : string) (num_members : Z) : list string :=
  [Text.nl ++ rule "="; Text.center "MEMBERSHIP SUMMARY" 60; rule "=";
   Text.nl ++ "Membership Plan: " ++ plan_name;
   "Number of Members: " ++ Text.str_of_int num_members].

(** One selected feature with the cost of its catalog entry. *)
Definition feature_line {A : Type} `{Arith A} (name : string) (entry : AdditionalFeature.t A)
  : string :=
  "  - " ++ name ++ ": $" ++ fmt2f (AdditionalFeature.cost entry).

(** The selected features, or the "None" marker. *)
Definition feature_section {A : Type} `{Arith A} (feature_names : list string)
    (entries : list (AdditionalFeature.t A)) : list string :=
  match feature_names with
  | [] => ["Additional Features: None"]
  | _ :: _ => "Additional Features:" :: zip_with feature_line feature_names entries
  end.

(** The tier, unless it is [NONE]. *)
Definition premium_section (premium_level : PremiumFeatureLevel) : list string :=
  match premium_level with
  | NONE => []
  | _ => ["Premium Level: " ++ value premium_level]
  end.

(** The cost lines: an optional group of lines is present when its amount
    is greater than zero. *)
Definition breakdown_section {A : Type} `{Arith A} (bd : Breakdown A) : list string :=
  List.concat
    [ [Text.nl ++ rule "-"; Text.center "COST BREAKDOWN" 60; rule "-";
       "Base Membership Cost:        $" ++ money (bd_base_cost bd)];
      if gtb (bd_features_cost bd) (of_int 0)
      then ["Additional Features Cost:    $" ++ money (bd_features_cost bd);
            "Subtotal:                    $" ++ money (bd_subtotal bd)]
      else [];
      if gtb (bd_group_discount bd) (of_int 0)
      then ["Group Discount (10%):       -$" ++ money (bd_group_discount bd);
            "After Group Discount:        $" ++ money (bd_after_group_discount bd)]
      else [];
      if gtb (bd_special_offer_discount bd) (of_int 0)
      then ["Special Offer Discount:     -$" ++ money (bd_special_offer_discount bd);
            "After Special Discount:      $" ++ money (bd_after_special_discount bd)]
      else [];
      if gtb (bd_premium_surcharge bd) (of_int 0)
      then ["Premium Surcharge (15%):     $" ++ money (bd_premium_surcharge bd)]
      else [];
      [rule "-";
       "TOTAL COST:                  $" ++ money (bd_total_cost bd);
       rule "=" ++ Text.nl] ].



(** A manager in which the prices of two features are exchanged. *)
Definition exchanged_prices {A : Type} `{Arith A} : GymMembershipManager A :=
  {| membership_plans := MEMBERSHIP_PLANS;
     additional_features :=
       <["Personal Training" := AdditionalFeature.make "Personal Training" (lit 3000 2) true]>
         (<["Group Classes" := AdditionalFeature.make "Group Classes" (lit 5000 2) true]>
            ADDITIONAL_FEATURES) |}.

(** * The rest of the manager *)

(** ** Catalogs in insertion order *)

(** A Python [dict] iterates in insertion order, which [get_available_*]
    observe.  The items of both catalogs are kept as lists in that order;
    [manager_of] is the same pair of dicts seen as maps. *)
Record OrderedCatalogs (A : Type) := {
  plan_items : list (string * MembershipPlan.t A);
  feature_items : list (string * AdditionalFeature.t A)
}.
Arguments plan_items {A}.
Arguments feature_items {A}.

Definition manager_of {A : Type} (c : OrderedCatalogs A) : GymMembershipManager A :=
  {| membership_plans := list_to_map (plan_items c);
     additional_features := list_to_map (feature_items c) |}.

(** The keys of a [dict] are distinct. *)
Definition keys_unique {A : Type} (c : OrderedCatalogs A) : Prop :=
  NoDup (map fst (plan_items c)) /\ NoDup (map fst (feature_items c)).

(** Every entry is stored under its own name, as in the class tables. *)
Definition keyed_by_name {A : Type} (c : OrderedCatalogs A) : Prop :=
  Forall (fun item => MembershipPlan.name (snd item) = fst item) (plan_items c)
  /\ Forall (fun item => AdditionalFeature.name (snd item) = fst item) (feature_items c).

Section Listing.

Context {A : Type} `{Arith A}.

(** The class tables, item by item in source order. *)
Definition MEMBERSHIP_PLANS_items : list (string * MembershipPlan.t A) :=
  [("Basic", MembershipPlan.make "Basic" (lit 2999 2)
      ["Access to gym equipment"; "Basic locker room access"] true);
   ("Premium", MembershipPlan.make "Premium" (lit 5999 2)
      ["Access to gym equipment"; "Premium locker room"; "Sauna access"] true);
   ("Family", MembershipPlan.make "Family" (lit 9999 2)
      ["Up to 4 family members"; "All Premium benefits"; "Family lounge access"] true)].

Definition ADDITIONAL_FEATURES_items : list (string * AdditionalFeature.t A) :=
  [("Personal Training", AdditionalFeature.make "Personal Training" (lit 5000 2) true);
   ("Group Classes", AdditionalFeature.make "Group Classes" (lit 3000 2) true);
   ("Nutritional Consulting",
    AdditionalFeature.make "Nutritional Consulting" (lit 4000 2) true)].

(** What [GymMembershipManager()] holds. *)
Definition init_catalogs : OrderedCatalogs A :=
  {| plan_items := MEMBERSHIP_PLANS_items; feature_items := ADDITIONAL_FEATURES_items |}.

(** The catalogs after [membership_plans["Basic"].available = False], as the
    tests set them up. *)
Definition basic_switched_off : OrderedCatalogs A :=
  {| plan_items :=
       [("Basic", MembershipPlan.make "Basic" (lit 2999 2)
           ["Access to gym equipment"; "Basic locker room access"] false);
        ("Premium", MembershipPlan.make "Premium" (lit 5999 2)
           ["Access to gym equipment"; "Premium locker room"; "Sauna access"] true);
        ("Family", MembershipPlan.make "Family" (lit 9999 2)
           ["Up to 4 family members"; "All Premium benefits"; "Family lounge access"] true)];
     feature_items := ADDITIONAL_FEATURES_items |}.

(** [[plan for plan in self.membership_plans.values() if plan.available]]. *)
Definition get_available_membership_plans (c : OrderedCatalogs A)
  : list (MembershipPlan.t A) :=
  List.filter MembershipPlan.available (map snd (plan_items c)).

(** [[feature for feature in self.additional_features.values() if feature.available]]. *)
Definition get_available_features (c : OrderedCatalogs A) : list (AdditionalFeature.t A) :=
  List.filter AdditionalFeature.available (map snd (feature_items c)).

End Listing.

(** ** Catalogs with other prices, and the value of a double *)

(** A manager that offers one more plan, priced 100.00. *)
Definition round_price {A : Type} `{Arith A} : GymMembershipManager A :=
  {| membership_plans :=
       <["Round" := MembershipPlan.make "Round" (lit 10000 2)
           ["Access to gym equipment"] true]> MEMBERSHIP_PLANS;
     additional_features := ADDITIONAL_FEATURES |}.



(** A manager whose features are priced 40.27, 68.09 and 31.65. *)
Definition uneven_prices {A : Type} `{Arith A} : GymMembershipManager A :=
  {| membership_plans := MEMBERSHIP_PLANS;
     additional_features :=
       <["Personal Training" := AdditionalFeature.make "Personal Training" (lit 4027 2) true]>
       (<["Group Classes" := AdditionalFeature.make "Group Classes" (lit 6809 2) true]>
       (<["Nutritional Consulting" :=
            AdditionalFeature.make "Nutritional Consulting" (lit 3165 2) true]>
        ∅)) |}.

(** The rational number that a finite double stands for (0 for the others). *)
Definition exact_value (x : float) : Qc :=
  match Prim2SF x with
  | S754_finite s m e =>
      let mantissa := inject_Z (if s then Z.neg m else Z.pos m) in
      Q2Qc (if (0 <=? e)%Z then mantissa * inject_Z (2 ^ e)
            else mantissa / inject_Z (2 ^ (- e)))
  | _ => 0%Qc
  end.

(** The closed formula of the total, evaluated in the arithmetic of the
    amounts. *)
Definition closed_formula {A : Type} `{Arith A} (subtotal special_discount : A)
    (num_members : Z) (premium_level : PremiumFeatureLevel) : A :=
  mul (sub (mul subtotal (if (num_members <? 2)%Z then of_int 1 else lit 9 1))
         special_discount)
      (add (of_int 1)
         (if PremiumFeatureLevel_eqb premium_level NONE then of_int 0 else lit 15 2)).

(** An [int] of at most 4300 digits: [str] and [format] print it whatever
    the interpreter's limit on the digits of an [int] is. *)
Definition printable (n : Z) : Prop := (Z.abs n < 10 ^ 4300)%Z.

(** * The command-line application *)

(** ** The [str] methods applied to a line of input

    Strings are sequences of bytes; the definitions below are those of
    Python on ASCII text. *)
Module Str.

(** Whitespace in the sense of [str.strip()]. *)
Definition is_space (a : ascii) : bool :=
  let n := nat_of_ascii a in
  ((9 <=? n) && (n <=? 13) || (28 <=? n) && (n <=? 32))%nat.

Fixpoint lstrip (s : string) : string :=
  match s with
  | EmptyString => EmptyString
  | String a rest => if is_space a then lstrip rest else s
  end.

Fixpoint rstrip (s : string) : string :=
  match s with
  | EmptyString => EmptyString
  | String a rest =>
      match rstrip rest with
      | EmptyString => if is_space a then EmptyString else String a EmptyString
      | kept => String a kept
      end
  end.

Definition strip (s : string) : string := rstrip (lstrip s).

Definition lower_char (a : ascii) : ascii :=
  let n := nat_of_ascii a in
  if ((65 <=? n) && (n <=? 90))%nat then ascii_of_nat (n + 32) else a.

Fixpoint lower (s : string) : string :=
  match s with
  | EmptyString => EmptyString
  | String a rest => String (lower_char a) (lower rest)
  end.

Definition is_digit (a : ascii) : bool :=
  let n := nat_of_ascii a in
  ((48 <=? n) && (n <=? 57))%nat.

Fixpoint all_digits (s : string) : bool :=
  match s with
  | EmptyString => true
  | String a rest => is_digit a && all_digits rest
  end.

(** [s.isdigit()]: at least one character, all of them digits. *)
Definition isdigit (s : string) : bool :=
  match s with
  | EmptyString => false
  | _ => all_digits s
  end.

Fixpoint parse_int_from (acc : Z) (s : string) : Z :=
  match s with
  | EmptyString => acc
  | String a rest => parse_int_from (10 * acc + Z.of_nat (nat_of_ascii a - 48))%Z rest
  end.

(** [int(s)] for a string of decimal digits. *)
Definition parse_int (s : string) : Z := parse_int_from 0%Z s.

(** [x in l] and [l.remove(x)] on a list of strings. *)
Definition mem (x : string) (l : list string) : bool := existsb (String.eqb x) l.

Fixpoint remove (x : string) (l : list string) : list string :=
  match l with
  | [] => []
  | y :: rest => if String.eqb y x then rest else y :: remove x rest
  end.

Fixpoint has_char (a : ascii) (s : string) : bool :=
  match s with
  | EmptyString => false
  | String b rest => Ascii.eqb a b || has_char a rest
  end.

Definition single_quote : ascii := ascii_of_nat 39.
Definition double_quote : ascii := ascii_of_nat 34.
Definition backslash : ascii := ascii_of_nat 92.

Definition hex_digit (n : nat) : ascii :=
  ascii_of_nat (if (n <? 10)%nat then 48 + n else 87 + n).

Definition escape (quote : ascii) (a : ascii) : string :=
  let n := nat_of_ascii a in
  if Ascii.eqb a quote || Ascii.eqb a backslash then String backslash (String a EmptyString)
  else if (n =? 9)%nat then String backslash "t"
  else if (n =? 10)%nat then String backslash "n"
  else if (n =? 13)%nat then String backslash "r"
  else if ((n <? 32) || (n =? 127))%nat then
    String backslash
      (String "x" (String (hex_digit (n / 16)) (String (hex_digit (n mod 16)) EmptyString)))
  else String a EmptyString.

Fixpoint escape_all (quote : ascii) (s : string) : string :=
  match s with
  | EmptyString => EmptyString
  | String a rest => escape quote a ++ escape_all quote rest
  end.

(** [repr(s)]: single quotes, unless the text has a single quote and no
    double quote. *)
Definition repr (s : string) : string :=
  let quote :=
    if has_char single_quote s && negb (has_char double_quote s) then double_quote
    else single_quote in
  String quote (escape_all quote s ++ String quote EmptyString).

(** [repr(l)] for a list of strings. *)
Definition repr_list (l : list string) : string :=
  "[" ++ String.concat ", " (map repr l) ++ "]".

(** [enumerate(l, start)]. *)
Fixpoint enumerate {X : Type} (start : Z) (l : list X) : list (Z * X) :=
  match l with
  | [] => []
  | x :: rest => (start, x) :: enumerate (start + 1)%Z rest
  end.

Definition is_ascii (a : ascii) : bool := (nat_of_ascii a <? 128)%nat.

Fixpoint all_ascii (s : string) : bool :=
  match s with
  | EmptyString => true
  | String a rest => is_ascii a && all_ascii rest
  end.

(** The text a line of input is taken to be: ASCII, and no longer than
    the 4300 digits that [int] accepts in a decimal string by default. *)
Definition typed (line : string) : bool :=
  all_ascii line && (String.length line <=? 4300)%nat.

End Str.

(** ** Console, exceptions and the computations of the application *)

(** What the program writes: [print(text)], the text and a newline, and the
    prompt of [input(text)]. *)
Inductive Output :=
| Print (text : string)
| Prompt (text : string).

(** The lines still to be read from standard input, each without its
    newline, and what has been written so far. *)
Record Console := {
  stdin : list string;
  stdout : list Output
}.

Inductive Raised :=
| EOFError
| FromManager (e : Exn)
| OverflowError
| ValueError
| RecursionError.

Inductive Result (X : Type) :=
| Ok (x : X)
| Err (e : Raised).
Arguments Ok {X}.
Arguments Err {X}.

Definition IO (X : Type) : Type := Console -> Result X * Console.

Definition io_ret {X} (x : X) : IO X := fun con => (Ok x, con).

Definition io_raise {X} (e : Raised) : IO X := fun con => (Err e, con).

Definition io_bind {X Y} (c : IO X) (k : X -> IO Y) : IO Y :=
  fun con =>
    match c con with
    | (Ok x, con') => k x con'
    | (Err e, con') => (Err e, con')
    end.

Notation "x <~ c ;; k" := (io_bind c (fun x => k))
  (at level 100, c at next level, right associativity).

Definition print (text : string) : IO unit :=
  fun con => (Ok tt, {| stdin := stdin con; stdout := (stdout con ++ [Print text])%list |}).

(** [input(prompt)]: the prompt is written, then a line is read; at the end
    of the input [EOFError] is raised. *)
Definition input (prompt : string) : IO string :=
  fun con =>
    let written := (stdout con ++ [Prompt prompt])%list in
    match stdin con with
    | [] => (Err EOFError, {| stdin := []; stdout := written |})
    | line :: rest => (Ok line, {| stdin := rest; stdout := written |})
    end.

(** One round of a [while True:] loop whose body reads a line first: the
    body goes round again, returns from the function, or raises, having
    printed some lines. *)
Inductive Step (S X : Type) :=
| Again (s : S) (printed : list string)
| Leave (x : X) (printed : list string)
| Fail (e : Raised).
Arguments Again {S X}.
Arguments Leave {S X}.
Arguments Fail {S X}.

(** [while True:] with the loop's variables [s]; each round prints
    [before s], reads a line with [input(prompt)] and runs [body]. *)
Fixpoint prompt_loop_on {S X : Type} (before : S -> list string) (prompt : string)
    (body : S -> string -> Step S X) (s : S) (lines : list string) (out : list Output)
  : Result X * Console :=
  let written := (out ++ map Print (before s) ++ [Prompt prompt])%list in
  match lines with
  | [] => (Err EOFError, {| stdin := []; stdout := written |})
  | line :: rest =>
      match body s line with
      | Again s' printed =>
          prompt_loop_on before prompt body s' rest (written ++ map Print printed)%list
      | Leave x printed =>
          (Ok x, {| stdin := rest; stdout := (written ++ map Print printed)%list |})
      | Fail e => (Err e, {| stdin := rest; stdout := written |})
      end
  end.

Definition prompt_loop {S X : Type} (before : S -> list string) (prompt : string)
    (body : S -> string -> Step S X) (s : S) : IO X :=
  fun con => prompt_loop_on before prompt body s (stdin con) (stdout con).

(** [int(x)] on an amount: the amount truncated towards zero, unless it
    is an infinity, for which [int] raises [OverflowError], or a NaN, for
    which it raises [ValueError]. *)
Inductive Truncated :=
| Whole (z : Z)
| Infinite
| NotANumber.

Class ToInt (A : Type) := {
  py_int : A -> Truncated
}.

Definition Binary64_py_int (x : float) : Truncated :=
  match Prim2SF x with
  | S754_zero _ => Whole 0%Z
  | S754_infinity _ => Infinite
  | S754_nan => NotANumber
  | S754_finite s m e =>
      let magnitude :=
        if (0 <=? e)%Z then (Z.pos m * 2 ^ e)%Z else (Z.pos m / 2 ^ (- e))%Z in
      Whole (if s then (- magnitude)%Z else magnitude)
  end.

#[global] Instance Binary64_to_int : ToInt float := {| py_int := Binary64_py_int |}.

#[global] Instance Exact_to_int : ToInt Qc :=
  {| py_int := fun x : Qc => Whole (Z.quot (Qnum (this x)) (Z.pos (Qden (this x)))) |}.

(** ** [class GymMembershipApp] *)

Section App.

Context {A : Type} `{Arith A} `{ToInt A}.

(** [self.manager], with its catalogs in insertion order.  The methods of
    the manager leave it as it is, so the application holds the same
    catalogs throughout and a call only yields the method's outcome. *)
Definition call {X : Type} (m : Method (GymMembershipManager A) X) (c : OrderedCatalogs A)
  : Result X :=
  match fst (m (manager_of c)) with
  | Returns x => Ok x
  | Raises e => Err (FromManager e)
  end.

Definition io_call {X : Type} (m : Method (GymMembershipManager A) X) (c : OrderedCatalogs A)
  : IO X :=
  fun con => (call m c, con).

(** [MembershipPlan.__repr__] and [AdditionalFeature.__repr__]. *)
Definition MembershipPlan_repr (plan : MembershipPlan.t A) : string :=
  let benefits_str := String.concat ", " (MembershipPlan.benefits plan) in
  MembershipPlan.name plan ++ " ($" ++ fmt2f (MembershipPlan.base_cost plan)
    ++ ") - Benefits: " ++ benefits_str.

Definition AdditionalFeature_repr (feature : AdditionalFeature.t A) : string :=
  AdditionalFeature.name feature ++ " ($" ++ fmt2f (AdditionalFeature.cost feature) ++ ")".

(** [for i, item in enumerate(items, 1): print(f"{i}. {item}")]. *)
Fixpoint print_numbered (items : list (Z * string)) : IO unit :=
  match items with
  | [] => io_ret tt
  | (i, item) :: rest =>
      _ <~ print (Text.str_of_int i ++ ". " ++ item) ;;
      print_numbered rest
  end.

Definition display_welcome : IO unit :=
  _ <~ print (Text.nl ++ Text.repeat_char "=" 60) ;;
  _ <~ print (Text.center "WELCOME TO GYM MEMBERSHIP MANAGEMENT SYSTEM" 60) ;;
  print (Text.repeat_char "=" 60 ++ Text.nl).

Definition display_membership_plans (c : OrderedCatalogs A) : IO unit :=
  _ <~ print (Text.nl ++ "Available Membership Plans:") ;;
  _ <~ print (Text.repeat_char "-" 60) ;;
  let plans := get_available_membership_plans c in
  _ <~ print_numbered (Str.enumerate 1 (map MembershipPlan_repr plans)) ;;
  print "".

Definition display_additional_features (c : OrderedCatalogs A) : IO unit :=
  _ <~ print (Text.nl ++ "Available Additional Features:") ;;
  _ <~ print (Text.repeat_char "-" 60) ;;
  let features := get_available_features c in
  _ <~ print_numbered (Str.enumerate 1 (map AdditionalFeature_repr features)) ;;
  print "".

(** The body of the loop of [select_membership_plan]. *)
Definition select_membership_plan_body (plan_names : list string) (_ : unit) (line : string)
  : Step unit (option string) :=
  let user_input := Str.strip line in
  if String.eqb (Str.lower user_input) "cancel" then Leave None []
  else if Str.isdigit user_input then
    let index := (Str.parse_int user_input - 1)%Z in
    if ((0 <=? index) && (index <? Z.of_nat (length plan_names)))%Z then
      Leave (Some (nth (Z.to_nat index) plan_names "")) []
    else
      Again tt ["Invalid selection. Please enter a number between 1 and "
                  ++ Text.str_of_int (Z.of_nat (length plan_names)) ++ "." ++ Text.nl]
  else if Str.mem user_input plan_names then Leave (Some user_input) []
  else
    Again tt ["Invalid membership plan. Please select from: "
                ++ String.concat ", " plan_names ++ Text.nl].

Definition select_membership_plan (c : OrderedCatalogs A) : IO (option string) :=
  _ <~ display_membership_plans c ;;
  let available_plans := get_available_membership_plans c in
  let plan_names := map MembershipPlan.name available_plans in
  prompt_loop (fun _ => [])
    "Enter membership plan name or number (or 'cancel' to exit): "
    (select_membership_plan_body plan_names) tt.

(** The body of the loop of [select_additional_features]; the loop's
    variable is [selected_features]. *)
Definition select_additional_features_body (feature_names : list string)
    (selected_features : list string) (line : string)
  : Step (list string) (option (list string)) :=
  let user_input := Str.lower (Str.strip line) in
  if String.eqb user_input "done" then Leave (Some selected_features) []
  else if String.eqb user_input "cancel" then Leave None []
  else
    let toggle (feature_name : string) :=
      if Str.mem feature_name selected_features then
        Again (Str.remove feature_name selected_features)
          ["Removed: " ++ feature_name ++ Text.nl]
      else
        Again (selected_features ++ [feature_name])%list
          ["Added: " ++ feature_name ++ Text.nl] in
    if Str.isdigit user_input then
      let index := (Str.parse_int user_input - 1)%Z in
      if ((0 <=? index) && (index <? Z.of_nat (length feature_names)))%Z then
        toggle (nth (Z.to_nat index) feature_names "")
      else
        Again selected_features
          ["Invalid selection. Please enter a number between 1 and "
             ++ Text.str_of_int (Z.of_nat (length feature_names)) ++ "." ++ Text.nl]
    else if Str.mem user_input feature_names then toggle user_input
    else
      Again selected_features
        ["Invalid feature. Please select from: "
           ++ String.concat ", " feature_names ++ Text.nl].

Definition currently_selected (selected_features : list string) : list string :=
  ["Currently selected features: "
     ++ match selected_features with
        | [] => "None"
        | _ => Str.repr_list selected_features
        end].

Definition select_additional_features (c : OrderedCatalogs A) : IO (option (list string)) :=
  _ <~ display_additional_features c ;;
  let available_features := get_available_features c in
  let feature_names := map AdditionalFeature.name available_features in
  prompt_loop currently_selected
    "Enter feature name/number to add/remove, or 'done' to continue: "
    (select_additional_features_body feature_names) [].

(** [f"{error_msg}"] for an [Optional[str]]. *)
Definition format_optional (error_msg : option string) : string :=
  match error_msg with
  | Some text => text
  | None => "None"
  end.

(** The body of the loop of [select_num_members]. *)
Definition select_num_members_body (c : OrderedCatalogs A) (_ : unit) (line : string)
  : Step unit (option Z) :=
  let user_input := Str.strip line in
  if String.eqb (Str.lower user_input) "cancel" then Leave None []
  else if Str.isdigit user_input then
    let num_members := Str.parse_int user_input in
    match call (validate_num_members (PyInt num_members)) c with
    | Ok (is_valid, error_msg) =>
        if is_valid then Leave (Some num_members) []
        else Again tt ["Error: " ++ format_optional error_msg ++ Text.nl]
    | Err e => Fail e
    end
  else Again tt ["Please enter a valid number." ++ Text.nl].

Definition select_num_members (c : OrderedCatalogs A) : IO (option Z) :=
  prompt_loop (fun _ => [])
    "Enter number of members (1-10) or 'cancel' to exit: "
    (select_num_members_body c) tt.

(** The body of the loop of [select_premium_level]. *)
Definition select_premium_level_body (_ : unit) (line : string)
  : Step unit (option PremiumFeatureLevel) :=
  let user_input := Str.lower (Str.strip line) in
  if Str.mem user_input ["none"; "0"] then Leave (Some NONE) []
  else if String.eqb user_input "1" then Leave (Some NONE) []
  else if String.eqb user_input "2" then Leave (Some EXCLUSIVE_FACILITIES) []
  else if String.eqb user_input "3" then Leave (Some SPECIALIZED_TRAINING) []
  else Again tt ["Invalid selection. Please enter 1, 2, 3, or 'none'." ++ Text.nl].

Definition select_premium_level : IO (option PremiumFeatureLevel) :=
  _ <~ print (Text.nl ++ "Premium Feature Levels:") ;;
  _ <~ print (Text.repeat_char "-" 60) ;;
  _ <~ print "1. None" ;;
  _ <~ print "2. Exclusive Facilities Access (+15% surcharge)" ;;
  _ <~ print "3. Specialized Training Programs (+15% surcharge)" ;;
  _ <~ print "" ;;
  prompt_loop (fun _ => [])
    "Select premium level (1-3) or 'none' for no premium: "
    select_premium_level_body tt.

Definition display_potential_savings (c : OrderedCatalogs A) (plan_name : string)
    (num_members : Z) : IO unit :=
  if (num_members >=? GROUP_DISCOUNT_THRESHOLD)%Z then
    _ <~ io_call (calculate_total_cost plan_name [] (num_members - 1) NONE) c ;;
    priced <~ io_call (calculate_total_cost plan_name [] num_members NONE) c ;;
    let breakdown := snd priced in
    let savings := bd_group_discount breakdown in
    print (Text.nl ++ "💰 GROUP SAVINGS: Save $" ++ fmt2f savings ++ " with "
             ++ Text.str_of_int num_members ++ " members (10% discount)!" ++ Text.nl)
  else io_ret tt.

(** The body of the loop of [confirm_membership]. *)
Definition confirm_membership_body (_ : unit) (line : string) : Step unit bool :=
  let user_input := Str.lower (Str.strip line) in
  if Str.mem user_input ["yes"; "y"] then Leave true []
  else if Str.mem user_input ["no"; "n"] then Leave false []
  else Again tt ["Please enter 'yes' or 'no'." ++ Text.nl].

Definition confirm_membership (summary : string) : IO bool :=
  _ <~ print summary ;;
  prompt_loop (fun _ => [])
    "Do you want to confirm this membership? (yes/no): "
    confirm_membership_body tt.

Definition canceled : IO Z :=
  _ <~ print ("Membership selection canceled." ++ Text.nl) ;;
  io_ret (-1)%Z.

Definition rejected (error_msg : option string) : IO Z :=
  _ <~ print ("Error: " ++ format_optional error_msg ++ Text.nl) ;;
  io_ret (-1)%Z.

(** [run]; starting over is a nested call [self.run()], and [depth] is the
    number of nested calls the interpreter's recursion limit leaves room
    for. *)
Fixpoint run (depth : nat) (c : OrderedCatalogs A) : IO Z :=
  match depth with
  | O => io_raise RecursionError
  | S depth' =>
      _ <~ display_welcome ;;
      plan_name <~ select_membership_plan c ;;
      match plan_name with
      | None => canceled
      | Some plan_name =>
      checked <~ io_call (validate_membership_plan plan_name) c ;;
      if negb (fst checked) then rejected (snd checked)
      else
      num_members <~ select_num_members c ;;
      match num_members with
      | None => canceled
      | Some num_members =>
      feature_names <~ select_additional_features c ;;
      match feature_names with
      | None => canceled
      | Some feature_names =>
      checked <~ io_call (validate_features (PyList feature_names)) c ;;
      if negb (fst checked) then rejected (snd checked)
      else
      _ <~ display_potential_savings c plan_name num_members ;;
      premium_level <~ select_premium_level ;;
      match premium_level with
      | None => canceled
      | Some premium_level =>
      summary <~ io_call (get_summary plan_name feature_names num_members premium_level) c ;;
      confirmed <~ confirm_membership summary ;;
      if negb confirmed then
        _ <~ print ("Membership selection canceled. Starting over..." ++ Text.nl) ;;
        run depth' c
      else
        priced <~ io_call
          (calculate_total_cost plan_name feature_names num_members premium_level) c ;;
        let total_cost := fst priced in
        match py_int total_cost with
        | Infinite => io_raise OverflowError
        | NotANumber => io_raise ValueError
        | Whole final_cost =>
            _ <~ print (Text.nl ++ "Membership confirmed! Total cost: $"
                          ++ fmt2f total_cost ++ Text.nl) ;;
            io_ret final_cost
        end
      end end end end
  end.

(** [main]: a new application, hence a new manager, is run. *)
Definition main (depth : nat) : IO Z := run depth init_catalogs.

End App.

(** ** Vocabulary of the application's properties *)

(** The lines typed at the console: ASCII text, at most 4300 characters
    each. *)
Definition keyboard (lines : list string) : Prop :=
  Forall (fun line => Str.typed line = true) lines.

(** [c], started on [con], either returns a value and a console that meet
    [P] or raises an exception that meets [E]. *)
Definition ensures {X : Type} (c : IO X) (con : Console)
    (P : X -> Console -> Prop) (E : Raised -> Prop) : Prop :=
  match c con with
  | (Ok x, con') => P x con'
  | (Err e, _) => E e
  end.

(** The total of a selection that the application lets through to the end:
    plan and features pass validation, no feature is listed twice, the
    members are between 1 and 10, and [priced] is [int] of the total. *)
Definition confirmed_total {A : Type} `{Arith A} `{ToInt A} (c : OrderedCatalogs A)
    (priced : Truncated) : Prop :=
  exists (plan_name : string) (feature_names : list string) (num_members : Z)
         (premium_level : PremiumFeatureLevel) (total_cost : A) (breakdown : Breakdown A),
    validate_membership_plan plan_name (manager_of c) = (Returns (true, None), manager_of c)
    /\ validate_features (PyList feature_names) (manager_of c)
       = (Returns (true, None), manager_of c)
    /\ List.NoDup feature_names
    /\ (1 <= num_members <= 10)%Z
    /\ calculate_total_cost plan_name feature_names num_members premium_level (manager_of c)
       = (Returns (total_cost, breakdown), manager_of c)
    /\ py_int total_cost = priced.

(** What a prompt hands back, for typed lines: a value that meets [P], with
    at least one line read, or [EOFError]. *)
Definition asked {X : Type} (c : IO X) (P : X -> Prop) : Prop :=
  forall con : Console,
    keyboard (stdin con) ->
    ensures c con
      (fun x con' =>
         P x /\ keyboard (stdin con') /\ (length (stdin con') < length (stdin con))%nat)
      (fun e => e = EOFError).

(** * Properties *)

(** ** Constants of the exact arithmetic *)

Lemma exact_zero : lit (A:=Qc) 0 1 = 0%Qc.
Proof. apply Qc_is_canon. reflexivity. Qed.

Lemma exact_of_int_0 : of_int (A:=Qc) 0 = 0%Qc.
Proof. apply Qc_is_canon. reflexivity. Qed.

Lemma exact_group_factor : (1 - lit 10 2 = lit 9 1)%Qc.
Proof. apply Qc_is_canon. reflexivity. Qed.

Lemma exact_group_discounted (s : Qc) : sub s (mul s (lit 10 2)) = mul s (lit 9 1).
Proof.
  cbn [sub mul Exact.arith]. rewrite <- exact_group_factor. ring.
Qed.

(** ** Group discount *)

Lemma calculate_group_discount_below {A : Type} `{Arith A}
    (self : GymMembershipManager A) (s : A) (n : Z) :
  (n < 2)%Z -> calculate_group_discount s n self = (Returns (s, lit 0 1), self).
Proof.
  intros Hn. unfold calculate_group_discount, GROUP_DISCOUNT_THRESHOLD.
  apply Z.ltb_lt in Hn. rewrite Hn. reflexivity.
Qed.

Lemma calculate_group_discount_from {A : Type} `{Arith A}
    (self : GymMembershipManager A) (s : A) (n : Z) :
  (2 <= n)%Z ->
  calculate_group_discount s n self
  = (Returns (sub s (mul s (lit 10 2)), mul s (lit 10 2)), self).
Proof.
  intros Hn. unfold calculate_group_discount, GROUP_DISCOUNT_THRESHOLD.
  apply Z.ltb_ge in Hn. rewrite Hn. reflexivity.
Qed.

Lemma exact_group_discount_below (self : GymMembershipManager Qc) (s : Qc) (n : Z) :
  (n < 2)%Z -> calculate_group_discount s n self = (Returns (s, 0%Qc), self).
Proof.
  intros Hn. rewrite (calculate_group_discount_below self s n Hn), exact_zero. reflexivity.
Qed.

Lemma exact_group_discount_from (self : GymMembershipManager Qc) (s : Qc) (n : Z) :
  (2 <= n)%Z ->
  calculate_group_discount s n self
  = (Returns ((s * lit 9 1)%Qc, (s * lit 10 2)%Qc), self).
Proof.
  intros Hn. rewrite (calculate_group_discount_from self s n Hn), exact_group_discounted.
  reflexivity.
Qed.

(** C3.  [calculate_group_discount s n] returns [s] and a discount of zero when
    [n < 2]; when [n >= 2] the discount is [s * 0.10] and the discounted cost
    is [s - s * 0.10].  This holds in every arithmetic, binary64 included;
    over exact amounts the discounted cost is [s * 0.9]. *)
Theorem group_discount_cases :
  (forall (A : Type) (ar : Arith A) (self : GymMembershipManager A) (s : A) (n : Z),
      ((n < 2)%Z -> calculate_group_discount s n self = (Returns (s, lit 0 1), self)) /\
      ((2 <= n)%Z ->
       calculate_group_discount s n self
       = (Returns (sub s (mul s (lit 10 2)), mul s (lit 10 2)), self)))
  /\
  (forall (self : GymMembershipManager Qc) (s : Qc) (n : Z),
      ((n < 2)%Z -> calculate_group_discount s n self = (Returns (s, 0%Qc), self)) /\
      ((2 <= n)%Z ->
       calculate_group_discount s n self
       = (Returns ((s * lit 9 1)%Qc, (s * lit 10 2)%Qc), self))).
Proof.
  split.
  - intros A ar self s n. split.
    + apply calculate_group_discount_below.
    + apply calculate_group_discount_from.
  - intros self s n. split.
    + apply exact_group_discount_below.
    + apply exact_group_discount_from.
Qed.

Lemma group_discount_cases_witness :
  calculate_group_discount (A:=Qc) (lit 2999 2) 1 init = (Returns (lit 2999 2, 0%Qc), init)
  /\ calculate_group_discount (A:=Qc) (lit 2999 2) 2 init
     = (Returns ((lit 2999 2 * lit 9 1)%Qc, (lit 2999 2 * lit 10 2)%Qc), init).
Proof.
  destruct group_discount_cases as [_ Hexact].
  destruct (Hexact init (lit 2999 2) 1%Z) as [Hlt _].
  destruct (Hexact init (lit 2999 2) 2%Z) as [_ Hge].
  split; [apply Hlt | apply Hge]; lia.
Defined.

(** ** Premium surcharge *)

(** C4.  [calculate_premium_surcharge c t] returns [c] and a surcharge of zero
    for [NONE]; for either other tier the surcharge is [c * 0.15] and the
    total is [c + c * 0.15], the two tiers being treated alike. *)
Theorem premium_surcharge_cases :
  forall (A : Type) (ar : Arith A) (self : GymMembershipManager A) (c : A),
    calculate_premium_surcharge c NONE self = (Returns (c, lit 0 1), self)
    /\ calculate_premium_surcharge c EXCLUSIVE_FACILITIES self
       = (Returns (add c (mul c (lit 15 2)), mul c (lit 15 2)), self)
    /\ calculate_premium_surcharge c SPECIALIZED_TRAINING self
       = (Returns (add c (mul c (lit 15 2)), mul c (lit 15 2)), self)
    /\ calculate_premium_surcharge c SPECIALIZED_TRAINING self
       = calculate_premium_surcharge c EXCLUSIVE_FACILITIES self.
Proof.
  intros A ar self c. repeat split; reflexivity.
Qed.

(** ** Special-offer discount *)

Lemma sorted_tiers : sorted_reverse SPECIAL_OFFER_DISCOUNTS = [(400, 50); (200, 20)]%Z.
Proof. reflexivity. Qed.

(** In every arithmetic the discount is decided by the two comparisons, the
    higher threshold first. *)
Lemma special_offer_by_comparisons {A : Type} `{Arith A}
    (self : GymMembershipManager A) (x : A) :
  calculate_special_offer_discount x self
  = (Returns (if gtb x (of_int 400) then (sub x (of_int 50), of_int 50)
              else if gtb x (of_int 200) then (sub x (of_int 20), of_int 20)
              else (sub x (lit 0 1), lit 0 1)), self).
Proof.
  unfold calculate_special_offer_discount. rewrite sorted_tiers.
  cbn [special_offer_loop].
  destruct (gtb x (of_int 400)); [reflexivity|].
  destruct (gtb x (of_int 200)); reflexivity.
Qed.

Lemma exact_gtb_true (x y : Qc) : gtb x y = true <-> (y < x)%Qc.
Proof.
  cbn [gtb Exact.arith]. unfold Exact.greater. rewrite Qclt_alt.
  destruct (y ?= x)%Qc; split; congruence.
Qed.

Lemma exact_gtb_false (x y : Qc) : gtb x y = false <-> (x <= y)%Qc.
Proof.
  rewrite <- Bool.not_true_iff_false, exact_gtb_true. split.
  - apply Qcnot_lt_le.
  - apply Qcle_not_lt.
Qed.

Lemma exact_200_lt_400 : (of_int (A:=Qc) 200 < of_int 400)%Qc.
Proof. reflexivity. Qed.

(** *** Order facts of binary64 used at the thresholds *)

Lemma SFcompare_antisym (a b : spec_float) :
  SFcompare b a = option_map CompOpp (SFcompare a b).
Proof.
  destruct a as [sa|sa| |sa ma ea], b as [sb|sb| |sb mb eb]; cbn;
    try reflexivity; try (destruct sa; reflexivity); try (destruct sb; reflexivity);
    try (destruct sa, sb; reflexivity).
  destruct sa, sb; cbn; try reflexivity;
    rewrite (Z.compare_antisym ea eb); destruct (ea ?= eb)%Z; cbn; try reflexivity;
    rewrite (Pos.compare_cont_antisym ma mb Eq); cbn;
    destruct (Pos.compare_cont Eq ma mb); reflexivity.
Qed.

Lemma b64_leb_not_gtb (x y : float) :
  PrimFloat.leb x y = true -> gtb x y = false.
Proof.
  cbn [gtb Binary64.arith]. rewrite leb_spec, ltb_spec. unfold SFleb, SFltb.
  rewrite (SFcompare_antisym (Prim2SF x) (Prim2SF y)).
  destruct (SFcompare (Prim2SF x) (Prim2SF y)) as [[| |]|]; cbn; congruence.
Qed.

Lemma b64_of_int_200 : of_int (A:=float) 200 = 200%float.
Proof. vm_compute. reflexivity. Qed.

Lemma b64_of_int_400 : of_int (A:=float) 400 = 400%float.
Proof. vm_compute. reflexivity. Qed.

Lemma b64_of_int_20 : of_int (A:=float) 20 = 20%float.
Proof. vm_compute. reflexivity. Qed.

Lemma b64_of_int_50 : of_int (A:=float) 50 = 50%float.
Proof. vm_compute. reflexivity. Qed.

Lemma b64_zero : lit (A:=float) 0 1 = 0%float.
Proof. vm_compute. reflexivity. Qed.

Lemma Prim2SF_200 : Prim2SF 200 = S754_finite false 7036874417766400 (-45).
Proof. vm_compute. reflexivity. Qed.

Lemma Prim2SF_400 : Prim2SF 400 = S754_finite false 7036874417766400 (-44).
Proof. vm_compute. reflexivity. Qed.

Lemma b64_leb_200_not_gtb_400 (x : float) :
  PrimFloat.leb x 200 = true -> gtb x 400%float = false.
Proof.
  cbn [gtb Binary64.arith]. rewrite leb_spec, ltb_spec. unfold SFleb, SFltb.
  rewrite Prim2SF_200, Prim2SF_400.
  destruct (Prim2SF x) as [s|s| |s m e].
  - destruct s; cbn [SFcompare]; congruence.
  - destruct s; cbn [SFcompare]; congruence.
  - cbn [SFcompare]; congruence.
  - destruct s; cbn [SFcompare]; [congruence|].
    destruct (Z.compare_spec e (-45)) as [He|He|He]; intros Hle; try congruence.
    + subst e. reflexivity.
    + assert (Hc : (-44 ?= e)%Z = Gt) by (apply Z.compare_gt_iff; lia).
      rewrite Hc. reflexivity.
Qed.

(** C2.  The special-offer discount is a step function with strict
    thresholds: 0 up to and including 200, 20 above 200 up to and including
    400, 50 above 400; the discounted cost is the cost minus that one
    discount.  Stated for every exact amount and for every binary64 value
    (no sign condition is needed). *)
Theorem special_offer_step :
  (forall (self : GymMembershipManager Qc) (x : Qc),
      ((x <= of_int 200)%Qc ->
       calculate_special_offer_discount x self = (Returns (x, 0%Qc), self))
      /\ ((of_int 200 < x)%Qc -> (x <= of_int 400)%Qc ->
          calculate_special_offer_discount x self
          = (Returns ((x - of_int 20)%Qc, of_int 20), self))
      /\ ((of_int 400 < x)%Qc ->
          calculate_special_offer_discount x self
          = (Returns ((x - of_int 50)%Qc, of_int 50), self)))
  /\
  (forall (self : GymMembershipManager float) (x : float),
      (PrimFloat.leb x 200 = true ->
       calculate_special_offer_discount x self
       = (Returns (PrimFloat.sub x 0, 0%float), self))
      /\ (PrimFloat.ltb 200 x = true -> PrimFloat.leb x 400 = true ->
          calculate_special_offer_discount x self
          = (Returns (PrimFloat.sub x 20, 20%float), self))
      /\ (PrimFloat.ltb 400 x = true ->
          calculate_special_offer_discount x self
          = (Returns (PrimFloat.sub x 50, 50%float), self))).
Proof.
  split.
  - intros self x. rewrite special_offer_by_comparisons.
    split; [|split].
    + intros Hle.
      assert (H4 : gtb x (of_int 400) = false).
      { apply exact_gtb_false. apply Qcle_trans with (of_int 200); [exact Hle|].
        apply Qclt_le_weak, exact_200_lt_400. }
      apply exact_gtb_false in Hle. rewrite H4, Hle, exact_zero.
      cbn [sub Exact.arith]. do 3 f_equal. ring.
    + intros Hlt Hle. apply exact_gtb_true in Hlt. apply exact_gtb_false in Hle.
      rewrite Hle, Hlt. reflexivity.
    + intros Hlt. apply exact_gtb_true in Hlt. rewrite Hlt. reflexivity.
  - intros self x. rewrite special_offer_by_comparisons.
    rewrite b64_of_int_200, b64_of_int_400, b64_of_int_20, b64_of_int_50, b64_zero.
    split; [|split].
    + intros Hle. rewrite (b64_leb_200_not_gtb_400 x Hle), (b64_leb_not_gtb x 200 Hle).
      reflexivity.
    + intros Hlt Hle. rewrite (b64_leb_not_gtb x 400 Hle).
      cbn [gtb Binary64.arith]. rewrite Hlt. reflexivity.
    + intros Hlt. cbn [gtb Binary64.arith]. rewrite Hlt. reflexivity.
Qed.

Lemma special_offer_step_witness :
  calculate_special_offer_discount (A:=Qc) (of_int 200) init
  = (Returns (of_int 200, 0%Qc), init)
  /\ calculate_special_offer_discount (A:=Qc) (of_int 400) init
     = (Returns ((of_int 400 - of_int 20)%Qc, of_int 20), init)
  /\ calculate_special_offer_discount (A:=Qc) (lit 40001 2) init
     = (Returns ((lit 40001 2 - of_int 50)%Qc, of_int 50), init)
  /\ calculate_special_offer_discount (A:=float) 200%float init
     = (Returns (PrimFloat.sub 200 0, 0%float), init)
  /\ calculate_special_offer_discount (A:=float) 400%float init
     = (Returns (PrimFloat.sub 400 20, 20%float), init)
  /\ calculate_special_offer_discount (A:=float) (lit 40001 2) init
     = (Returns (PrimFloat.sub (lit 40001 2) 50, 50%float), init).
Proof.
  destruct special_offer_step as [Hexact Hb64].
  destruct (Hexact init (of_int 200)) as [H1 _].
  destruct (Hexact init (of_int 400)) as [_ [H2 _]].
  destruct (Hexact init (lit 40001 2)) as [_ [_ H3]].
  destruct (Hb64 init 200%float) as [H4 _].
  destruct (Hb64 init 400%float) as [_ [H5 _]].
  destruct (Hb64 init (lit 40001 2)) as [_ [_ H6]].
  split; [apply H1; vm_compute; discriminate|].
  split; [apply H2; [reflexivity | vm_compute; discriminate]|].
  split; [apply H3; reflexivity|].
  split; [apply H4; reflexivity|].
  split; [apply H5; reflexivity|].
  apply H6; reflexivity.
Defined.

(** The boundary amounts of the tests, evaluated in binary64: 200.00 earns
    nothing, 200.01 and 400.00 earn 20, 400.01 earns 50. *)
Example special_offer_boundaries_binary64 :
  fst (calculate_special_offer_discount (A:=float) (lit 20000 2) init)
  = Returns (200%float, 0%float)
  /\ fst (calculate_special_offer_discount (A:=float) (lit 20001 2) init)
     = Returns (lit 18001 2, 20%float)
  /\ fst (calculate_special_offer_discount (A:=float) (lit 40000 2) init)
     = Returns (380%float, 20%float)
  /\ fst (calculate_special_offer_discount (A:=float) (lit 40001 2) init)
     = Returns (lit 35001 2, 50%float).
Proof. repeat split; vm_compute; reflexivity. Qed.

(** ** Composition of the stages *)

Lemma bind_returns {S X Y} (c : Method S X) (k : X -> Method S Y) (self self' : S) (x : X) :
  c self = (Returns x, self') -> bind c k self = k x self'.
Proof. intros Hc. unfold bind. rewrite Hc. reflexivity. Qed.

Lemma getitem_some {S V} (d : gmap string V) (key : string) (v : V) (self : S) :
  d !! key = Some v -> getitem d key self = (Returns v, self).
Proof. intros Hd. unfold getitem. rewrite Hd. reflexivity. Qed.

Lemma calculate_base_cost_found {A : Type} `{Arith A}
    (self : GymMembershipManager A) (plan_name : string) (plan : MembershipPlan.t A) :
  membership_plans self !! plan_name = Some plan ->
  calculate_base_cost plan_name self = (Returns (MembershipPlan.base_cost plan), self).
Proof.
  intros Hp. unfold calculate_base_cost.
  rewrite (bind_returns _ _ self self (membership_plans self)) by reflexivity.
  rewrite (bind_returns _ _ self self plan) by (apply getitem_some; exact Hp).
  reflexivity.
Qed.

Lemma calculate_features_cost_loop_found {A : Type} `{Arith A}
    (self : GymMembershipManager A) (names : list string)
    (entries : list (AdditionalFeature.t A)) :
  all_found (additional_features self) names entries ->
  forall total,
    calculate_features_cost_loop total names self
    = (Returns (fold_left add (map AdditionalFeature.cost entries) total), self).
Proof.
  induction 1 as [|name entry names entries Hname _ IH]; intros total.
  - reflexivity.
  - cbn [calculate_features_cost_loop map fold_left].
    rewrite (bind_returns _ _ self self (additional_features self)) by reflexivity.
    rewrite (bind_returns _ _ self self entry) by (apply getitem_some; exact Hname).
    apply IH.
Qed.

(** The stages in the order of the source, in any arithmetic. *)
Lemma calculate_total_cost_stages {A : Type} `{Arith A}
    (self : GymMembershipManager A) (plan_name : string) (feature_names : list string)
    (num_members : Z) (premium_level : PremiumFeatureLevel)
    (plan : MembershipPlan.t A) (entries : list (AdditionalFeature.t A)) :
  membership_plans self !! plan_name = Some plan ->
  all_found (additional_features self) feature_names entries ->
  exists bd : Breakdown A,
    calculate_total_cost plan_name feature_names num_members premium_level self
    = (Returns (bd_total_cost bd, bd), self)
    /\ bd_base_cost bd = MembershipPlan.base_cost plan
    /\ bd_features_cost bd = fold_left add (map AdditionalFeature.cost entries) (lit 0 1)
    /\ bd_subtotal bd = add (bd_base_cost bd) (bd_features_cost bd)
    /\ calculate_group_discount (bd_subtotal bd) num_members self
       = (Returns (bd_after_group_discount bd, bd_group_discount bd), self)
    /\ calculate_special_offer_discount (bd_after_group_discount bd) self
       = (Returns (bd_after_special_discount bd, bd_special_offer_discount bd), self)
    /\ calculate_premium_surcharge (bd_after_special_discount bd) premium_level self
       = (Returns (bd_total_cost bd, bd_premium_surcharge bd), self).
Proof.
  intros Hplan Hfeat.
  pose (base := MembershipPlan.base_cost plan).
  pose (fcost := fold_left add (map AdditionalFeature.cost entries) (lit 0 1)).
  destruct (calculate_group_discount (add base fcost) num_members self)
    as [og sg] eqn:Hg.
  assert (Hsg : sg = self /\ exists ag gd, og = Returns (ag, gd)).
  { unfold calculate_group_discount in Hg.
    destruct (num_members <? GROUP_DISCOUNT_THRESHOLD)%Z; inversion Hg; eauto. }
  destruct Hsg as [-> (ag & gd & ->)].
  destruct (calculate_special_offer_discount ag self) as [os ss] eqn:Hs.
  assert (Hss : ss = self /\ exists asp sd, os = Returns (asp, sd)).
  { unfold calculate_special_offer_discount in Hs. inversion Hs; eauto. }
  destruct Hss as [-> (asp & sd & ->)].
  destruct (calculate_premium_surcharge asp premium_level self) as [op sp] eqn:Hp.
  assert (Hsp : sp = self /\ exists tot su, op = Returns (tot, su)).
  { unfold calculate_premium_surcharge in Hp.
    destruct (PremiumFeatureLevel_eqb premium_level NONE); inversion Hp; eauto. }
  destruct Hsp as [-> (tot & su & ->)].
  exists {| bd_base_cost := base; bd_features_cost := fcost;
            bd_subtotal := add base fcost; bd_group_discount := gd;
            bd_after_group_discount := ag; bd_special_offer_discount := sd;
            bd_after_special_discount := asp; bd_premium_surcharge := su;
            bd_total_cost := tot |}.
  cbn [bd_base_cost bd_features_cost bd_subtotal bd_group_discount
       bd_after_group_discount bd_special_offer_discount bd_after_special_discount
       bd_premium_surcharge bd_total_cost].
  repeat split; try assumption; try reflexivity.
  unfold calculate_total_cost.
  rewrite (bind_returns _ _ self self base)
    by (apply calculate_base_cost_found; exact Hplan).
  rewrite (bind_returns _ _ self self fcost)
    by (apply calculate_features_cost_loop_found; exact Hfeat).
  rewrite (bind_returns _ _ self self (ag, gd)) by exact Hg.
  rewrite (bind_returns _ _ self self (asp, sd)) by exact Hs.
  rewrite (bind_returns _ _ self self (tot, su)) by exact Hp.
  reflexivity.
Qed.

Lemma exact_fold_left_sum (l : list Qc) (total : Qc) :
  fold_left add l total = (total + fold_right Qcplus 0 l)%Qc.
Proof.
  revert total. induction l as [|c l IH]; intros total; cbn [fold_left fold_right].
  - ring.
  - rewrite IH. cbn [add Exact.arith]. ring.
Qed.

(** *** Zero in binary64 *)

Lemma b64_sub_zero (x : float) : sub x (lit 0 1) = x.
Proof.
  rewrite b64_zero. cbn [sub Binary64.arith]. apply Prim2SF_inj. rewrite sub_spec.
  change (Prim2SF 0) with (S754_zero false).
  destruct (Prim2SF x) as [[|]|[|]| |s m e]; reflexivity.
Qed.

Lemma b64_add_zero (x : float) : x <> neg_zero -> add x (lit 0 1) = x.
Proof.
  intros Hx. rewrite b64_zero. cbn [add Binary64.arith]. apply Prim2SF_inj.
  rewrite add_spec. change (Prim2SF 0) with (S754_zero false).
  destruct (Prim2SF x) as [[|]|[|]| |s m e] eqn:Hsf; try reflexivity.
  exfalso. apply Hx. apply Prim2SF_inj. rewrite Hsf. reflexivity.
Qed.

(** The amounts after each stage, written with the operations of the
    arithmetic in the order the code applies them. *)
Lemma staged_amounts {A : Type} `{Arith A} (self : GymMembershipManager A)
    (subtotal ag gd asp sd tot su : A) (n : Z) (t : PremiumFeatureLevel) :
  calculate_group_discount subtotal n self = (Returns (ag, gd), self) ->
  calculate_special_offer_discount ag self = (Returns (asp, sd), self) ->
  calculate_premium_surcharge asp t self = (Returns (tot, su), self) ->
  (ag = if (n <? 2)%Z then subtotal else sub subtotal (mul subtotal (lit 10 2)))
  /\ (gd = if (n <? 2)%Z then lit 0 1 else mul subtotal (lit 10 2))
  /\ asp = sub ag sd
  /\ (tot = if PremiumFeatureLevel_eqb t NONE then asp else add asp (mul asp (lit 15 2)))
  /\ (su = if PremiumFeatureLevel_eqb t NONE then lit 0 1 else mul asp (lit 15 2)).
Proof.
  intros Hg Hs Hp.
  unfold calculate_group_discount, GROUP_DISCOUNT_THRESHOLD, GROUP_DISCOUNT_PERCENTAGE in Hg.
  unfold calculate_special_offer_discount in Hs.
  unfold calculate_premium_surcharge, PREMIUM_SURCHARGE_PERCENTAGE in Hp.
  injection Hs as Hasp Hsd. rewrite Hsd in Hasp. clear Hsd.
  destruct (n <? 2)%Z; destruct (PremiumFeatureLevel_eqb t NONE);
    injection Hg as Hag Hgd; injection Hp as Htot Hsu; subst;
    repeat apply conj; reflexivity.
Qed.

(** C1, as the code has it.  With the plan and every feature name found in
    the catalogs, [calculate_total_cost] returns, and its stages are composed
    in the fixed order: the features cost adds the cost of every occurrence
    of a name, the subtotal is base plus features, the group discount is
    computed on the subtotal, the special-offer discount on the amount after
    the group discount, and the surcharge on the amount after the
    special-offer discount; the total is the outcome of these operations,
    each one carried out (and in binary64 rounded) in turn (first part, any
    arithmetic).  In binary64 the breakdown is consistent: the amount after
    the group discount is the subtotal less the group discount, the amount
    after the special offer is that less the special-offer discount, and
    the total is that plus the surcharge, except that for the tier [NONE] a
    total of -0.0 stays -0.0 (second part).  Over exact amounts the total is
    the closed formula
    [((subtotal * groupFactor) - specialDiscount) * (1 + surchargeFactor)]
    with factors 1 or 0.9 and 0 or 0.15 (third part). *)
Theorem total_cost_composition :
  (forall (A : Type) (ar : Arith A) (self : GymMembershipManager A)
          (plan_name : string) (feature_names : list string) (num_members : Z)
          (premium_level : PremiumFeatureLevel)
          (plan : MembershipPlan.t A) (entries : list (AdditionalFeature.t A)),
      membership_plans self !! plan_name = Some plan ->
      all_found (additional_features self) feature_names entries ->
      exists bd : Breakdown A,
        calculate_total_cost plan_name feature_names num_members premium_level self
        = (Returns (bd_total_cost bd, bd), self)
        /\ bd_base_cost bd = MembershipPlan.base_cost plan
        /\ bd_features_cost bd
           = fold_left add (map AdditionalFeature.cost entries) (lit 0 1)
        /\ bd_subtotal bd = add (bd_base_cost bd) (bd_features_cost bd)
        /\ calculate_group_discount (bd_subtotal bd) num_members self
           = (Returns (bd_after_group_discount bd, bd_group_discount bd), self)
        /\ calculate_special_offer_discount (bd_after_group_discount bd) self
           = (Returns (bd_after_special_discount bd, bd_special_offer_discount bd), self)
        /\ calculate_premium_surcharge (bd_after_special_discount bd) premium_level self
           = (Returns (bd_total_cost bd, bd_premium_surcharge bd), self)
        /\ bd_after_group_discount bd
           = (if (num_members <? 2)%Z then bd_subtotal bd
              else sub (bd_subtotal bd) (mul (bd_subtotal bd) (lit 10 2)))
        /\ bd_after_special_discount bd
           = sub (bd_after_group_discount bd) (bd_special_offer_discount bd)
        /\ bd_total_cost bd
           = (if PremiumFeatureLevel_eqb premium_level NONE
              then bd_after_special_discount bd
              else add (bd_after_special_discount bd)
                     (mul (bd_after_special_discount bd) (lit 15 2))))
  /\
  (forall (self : GymMembershipManager float)
          (plan_name : string) (feature_names : list string) (num_members : Z)
          (premium_level : PremiumFeatureLevel)
          (plan : MembershipPlan.t float) (entries : list (AdditionalFeature.t float)),
      membership_plans self !! plan_name = Some plan ->
      all_found (additional_features self) feature_names entries ->
      exists bd : Breakdown float,
        calculate_total_cost plan_name feature_names num_members premium_level self
        = (Returns (bd_total_cost bd, bd), self)
        /\ bd_subtotal bd
           = PrimFloat.add (MembershipPlan.base_cost plan) (bd_features_cost bd)
        /\ bd_after_group_discount bd
           = PrimFloat.sub (bd_subtotal bd) (bd_group_discount bd)
        /\ bd_after_special_discount bd
           = PrimFloat.sub (bd_after_group_discount bd) (bd_special_offer_discount bd)
        /\ (premium_level <> NONE \/ bd_after_special_discount bd <> neg_zero ->
            bd_total_cost bd
            = PrimFloat.add (bd_after_special_discount bd) (bd_premium_surcharge bd))
        /\ (premium_level = NONE ->
            bd_total_cost bd = bd_after_special_discount bd
            /\ bd_premium_surcharge bd = 0%float))
  /\
  (forall (self : GymMembershipManager Qc)
          (plan_name : string) (feature_names : list string) (num_members : Z)
          (premium_level : PremiumFeatureLevel)
          (plan : MembershipPlan.t Qc) (entries : list (AdditionalFeature.t Qc)),
      membership_plans self !! plan_name = Some plan ->
      all_found (additional_features self) feature_names entries ->
      exists bd : Breakdown Qc,
        calculate_total_cost plan_name feature_names num_members premium_level self
        = (Returns (bd_total_cost bd, bd), self)
        /\ bd_features_cost bd = fold_right Qcplus 0%Qc (map AdditionalFeature.cost entries)
        /\ bd_subtotal bd = (MembershipPlan.base_cost plan + bd_features_cost bd)%Qc
        /\ bd_after_group_discount bd = (bd_subtotal bd - bd_group_discount bd)%Qc
        /\ bd_after_special_discount bd
           = (bd_after_group_discount bd - bd_special_offer_discount bd)%Qc
        /\ bd_total_cost bd = (bd_after_special_discount bd + bd_premium_surcharge bd)%Qc
        /\ bd_total_cost bd
           = ((bd_subtotal bd * (if (num_members <? 2)%Z then 1 else lit 9 1)
               - bd_special_offer_discount bd)
              * (1 + (if PremiumFeatureLevel_eqb premium_level NONE
                      then 0 else lit 15 2)))%Qc).
Proof.
  split; [|split].
  - intros A ar self plan_name feature_names num_members premium_level plan entries
      Hplan Hfeat.
    destruct (calculate_total_cost_stages self plan_name feature_names num_members
                premium_level plan entries Hplan Hfeat)
      as (bd & Hcall & Hbase & Hfc & Hsub & Hg & Hs & Hp).
    destruct (staged_amounts self _ _ _ _ _ _ _ _ _ Hg Hs Hp)
      as (Hag & _ & Hasp & Htot & _).
    exists bd. repeat apply conj; assumption.
  - intros self plan_name feature_names num_members premium_level plan entries Hplan Hfeat.
    destruct (calculate_total_cost_stages self plan_name feature_names num_members
                premium_level plan entries Hplan Hfeat)
      as (bd & Hcall & Hbase & Hfc & Hsub & Hg & Hs & Hp).
    destruct (staged_amounts self _ _ _ _ _ _ _ _ _ Hg Hs Hp)
      as (Hag & Hgd & Hasp & Htot & Hsu).
    exists bd. split; [exact Hcall|].
    split; [rewrite Hsub, Hbase; reflexivity|].
    split.
    { rewrite Hag, Hgd. destruct (num_members <? 2)%Z; [|reflexivity].
      symmetry. apply b64_sub_zero. }
    split; [exact Hasp|].
    split.
    { intros Hcase. rewrite Htot, Hsu.
      destruct premium_level; cbn [PremiumFeatureLevel_eqb]; try reflexivity.
      destruct Hcase as [Hcase|Hcase]; [contradiction|].
      symmetry. apply b64_add_zero. exact Hcase. }
    intros ->. rewrite Htot, Hsu. cbn [PremiumFeatureLevel_eqb].
    split; [reflexivity | exact b64_zero].
  - intros self plan_name feature_names num_members premium_level plan entries Hplan Hfeat.
    destruct (calculate_total_cost_stages self plan_name feature_names num_members
                premium_level plan entries Hplan Hfeat)
      as (bd & Hcall & Hbase & Hfc & Hsub & Hg & Hs & Hp).
    exists bd. split; [exact Hcall|].
    assert (Hfc' : bd_features_cost bd
                   = fold_right Qcplus 0%Qc (map AdditionalFeature.cost entries)).
    { rewrite Hfc, exact_fold_left_sum, exact_zero. ring. }
    split; [exact Hfc'|].
    assert (Hsub' : bd_subtotal bd = (MembershipPlan.base_cost plan + bd_features_cost bd)%Qc).
    { rewrite Hsub, Hbase. reflexivity. }
    split; [exact Hsub'|].
    assert (Hgroup : bd_after_group_discount bd
                     = (bd_subtotal bd * (if (num_members <? 2)%Z then 1 else lit 9 1))%Qc
                     /\ bd_after_group_discount bd
                        = (bd_subtotal bd - bd_group_discount bd)%Qc).
    { pose proof (exact_group_discount_below self (bd_subtotal bd) num_members) as Hlt.
      pose proof (exact_group_discount_from self (bd_subtotal bd) num_members) as Hge.
      destruct (Z.ltb_spec num_members 2) as [Hn|Hn].
      - rewrite (Hlt Hn) in Hg. injection Hg as Ha Hd. rewrite <- Ha, <- Hd. split; ring.
      - rewrite (Hge Hn) in Hg. injection Hg as Ha Hd. rewrite <- Ha, <- Hd.
        split; [reflexivity|].
        pose proof exact_group_factor as Hf. cbn [lit Exact.arith] in Hf.
        rewrite <- Hf. ring. }
    destruct Hgroup as [Hag Hag'].
    assert (Hspecial : bd_after_special_discount bd
                       = (bd_after_group_discount bd - bd_special_offer_discount bd)%Qc).
    { rewrite special_offer_by_comparisons in Hs.
      destruct (gtb (bd_after_group_discount bd) (of_int 400));
        [|destruct (gtb (bd_after_group_discount bd) (of_int 200))];
        injection Hs as Ha Hd; rewrite <- Ha, <- Hd; reflexivity. }
    assert (Hprem : bd_total_cost bd
                    = (bd_after_special_discount bd
                       * (1 + (if PremiumFeatureLevel_eqb premium_level NONE
                               then 0 else lit 15 2)))%Qc
                    /\ bd_total_cost bd
                       = (bd_after_special_discount bd + bd_premium_surcharge bd)%Qc).
    { unfold calculate_premium_surcharge, PREMIUM_SURCHARGE_PERCENTAGE in Hp.
      destruct premium_level; cbn [PremiumFeatureLevel_eqb] in *;
        injection Hp as Ht Hu; rewrite <- Ht, <- Hu.
      - pose proof exact_zero as Hz. cbn [lit Exact.arith] in Hz. rewrite Hz.
        split; ring.
      - cbn [add mul lit Exact.arith]. split; ring.
      - cbn [add mul lit Exact.arith]. split; ring. }
    destruct Hprem as [Htot Htot'].
    split; [exact Hag'|]. split; [exact Hspecial|]. split; [exact Htot'|].
    rewrite Htot, Hspecial, Hag. reflexivity.
Qed.

Lemma total_cost_composition_witness :
  (exists bd : Breakdown float,
      calculate_total_cost "Basic" ["Personal Training"; "Personal Training"] 2
        EXCLUSIVE_FACILITIES init
      = (Returns (bd_total_cost bd, bd), init)
      /\ bd_after_group_discount bd
         = PrimFloat.sub (bd_subtotal bd) (bd_group_discount bd)
      /\ bd_after_special_discount bd
         = PrimFloat.sub (bd_after_group_discount bd) (bd_special_offer_discount bd)
      /\ bd_total_cost bd
         = PrimFloat.add (bd_after_special_discount bd) (bd_premium_surcharge bd))
  /\
  (exists bd : Breakdown Qc,
      calculate_total_cost "Basic" ["Personal Training"; "Personal Training"] 1 NONE init
      = (Returns (bd_total_cost bd, bd), init)
      /\ bd_features_cost bd = lit 10000 2
      /\ bd_total_cost bd
         = ((bd_subtotal bd * 1 - bd_special_offer_discount bd) * (1 + 0))%Qc).
Proof.
  destruct total_cost_composition as (_ & Hbinary64 & Hexact). split.
  - destruct (Hbinary64 init "Basic" ["Personal Training"; "Personal Training"] 2%Z
                EXCLUSIVE_FACILITIES
                (MembershipPlan.make "Basic" (lit 2999 2)
                   ["Access to gym equipment"; "Basic locker room access"] true)
                [AdditionalFeature.make "Personal Training" (lit 5000 2) true;
                 AdditionalFeature.make "Personal Training" (lit 5000 2) true])
      as (bd & Hcall & _ & Hgroup & Hspecial & Htotal & _).
    + reflexivity.
    + repeat constructor.
    + exists bd. split; [exact Hcall|]. split; [exact Hgroup|]. split; [exact Hspecial|].
      apply Htotal. left. discriminate.
  - destruct (Hexact init "Basic" ["Personal Training"; "Personal Training"] 1%Z NONE
                (MembershipPlan.make "Basic" (lit 2999 2)
                   ["Access to gym equipment"; "Basic locker room access"] true)
                [AdditionalFeature.make "Personal Training" (lit 5000 2) true;
                 AdditionalFeature.make "Personal Training" (lit 5000 2) true])
      as (bd & Hcall & Hfc & _ & _ & _ & _ & Htotal).
    + reflexivity.
    + repeat constructor.
    + exists bd. split; [exact Hcall|]. split; [|exact Htotal].
      rewrite Hfc. apply Qc_is_canon. reflexivity.
Defined.

(** C1 as worded does not hold in binary64, the arithmetic of the code: the
    closed formula is not what the stages return.  On the class tables, for
    "Basic" with one member and a premium tier, the total differs from the
    formula, whether the formula is evaluated in binary64 or exactly on the
    values of the subtotal and the discount.  With a plan priced 100.00 the
    difference shows: the stages return 115.0, the formula evaluates to the
    double below it, and [int] gives 115 for the one and 114 for the
    other. *)
Lemma closed_formula_fails_in_binary64 :
  (exists (total : float) (bd : Breakdown float),
      calculate_total_cost "Basic" [] 1 EXCLUSIVE_FACILITIES init
      = (Returns (total, bd), init)
      /\ total
         <> closed_formula (bd_subtotal bd) (bd_special_offer_discount bd) 1
              EXCLUSIVE_FACILITIES
      /\ exact_value total
         <> closed_formula (exact_value (bd_subtotal bd))
              (exact_value (bd_special_offer_discount bd)) 1 EXCLUSIVE_FACILITIES)
  /\
  (exists (total : float) (bd : Breakdown float),
      calculate_total_cost "Round" [] 1 EXCLUSIVE_FACILITIES round_price
      = (Returns (total, bd), round_price)
      /\ total = of_int 115
      /\ py_int total = Whole 115
      /\ py_int (closed_formula (bd_subtotal bd) (bd_special_offer_discount bd) 1
                   EXCLUSIVE_FACILITIES)
         = Whole 114).
Proof.
  split.
  - do 2 eexists. split; [vm_compute; reflexivity|]. split.
    + intros Heq.
      apply (f_equal (fun x => PrimFloat.eqb x (lit 344885 4))) in Heq.
      vm_compute in Heq. discriminate Heq.
    + intros Heq. apply (f_equal this) in Heq. vm_compute in Heq. discriminate Heq.
  - do 2 eexists. split; [vm_compute; reflexivity|].
    repeat apply conj; vm_compute; reflexivity.
Qed.

(** ** End-to-end scenarios on the seed catalogs *)

Ltac run_scenario :=
  unfold scenario; do 2 eexists; split; [vm_compute; reflexivity|].

Ltac exact_amount := apply Qc_is_canon; vm_compute; reflexivity.

(** C5.  The six end-to-end scenarios.  Over exact amounts every stated value
    is met exactly, the last total being 227.68965, printed 227.69.  In
    binary64 every stated value is met by the double nearest to it, and the
    last total prints as 227.69. *)
Theorem end_to_end_scenarios :
  (scenario (A:=Qc) "Basic" [] 1 NONE (fun total bd => total = lit 2999 2)
   /\ scenario (A:=Qc) "Basic" ["Personal Training"] 1 NONE
        (fun total bd => bd_subtotal bd = lit 7999 2 /\ total = lit 7999 2)
   /\ scenario (A:=Qc) "Basic" [] 2 NONE
        (fun total bd =>
           bd_group_discount bd = lit 2999 3
           /\ bd_after_group_discount bd = lit 26991 3
           /\ total = lit 26991 3)
   /\ scenario (A:=Qc) "Family" all_features 1 NONE
        (fun total bd =>
           bd_subtotal bd = lit 21999 2
           /\ bd_special_offer_discount bd = of_int 20
           /\ total = lit 19999 2)
   /\ scenario (A:=Qc) "Premium" [] 1 EXCLUSIVE_FACILITIES
        (fun total bd =>
           bd_base_cost bd = lit 5999 2
           /\ bd_premium_surcharge bd = lit 89985 4
           /\ total = lit 689885 4)
   /\ scenario (A:=Qc) "Family" all_features 2 EXCLUSIVE_FACILITIES
        (fun total bd =>
           bd_subtotal bd = lit 21999 2
           /\ bd_after_group_discount bd = lit 197991 3
           /\ bd_special_offer_discount bd = of_int 0
           /\ bd_premium_surcharge bd = lit 2969865 5
           /\ total = lit 22768965 5
           /\ fmt2f total = "227.69"))
  /\
  (scenario (A:=float) "Basic" [] 1 NONE (fun total bd => total = lit 2999 2)
   /\ scenario (A:=float) "Basic" ["Personal Training"] 1 NONE
        (fun total bd => bd_subtotal bd = lit 7999 2 /\ total = lit 7999 2)
   /\ scenario (A:=float) "Basic" [] 2 NONE
        (fun total bd =>
           bd_group_discount bd = lit 2999 3
           /\ bd_after_group_discount bd = lit 26991 3
           /\ total = lit 26991 3)
   /\ scenario (A:=float) "Family" all_features 1 NONE
        (fun total bd =>
           bd_subtotal bd = lit 21999 2
           /\ bd_special_offer_discount bd = of_int 20
           /\ total = lit 19999 2)
   /\ scenario (A:=float) "Premium" [] 1 EXCLUSIVE_FACILITIES
        (fun total bd =>
           bd_base_cost bd = lit 5999 2
           /\ bd_premium_surcharge bd = lit 89985 4
           /\ total = lit 689885 4)
   /\ scenario (A:=float) "Family" all_features 2 EXCLUSIVE_FACILITIES
        (fun total bd =>
           bd_subtotal bd = lit 21999 2
           /\ bd_after_group_discount bd = lit 197991 3
           /\ bd_special_offer_discount bd = of_int 0
           /\ bd_premium_surcharge bd = lit 2969865 5
           /\ fmt2f total = "227.69")).
Proof.
  split.
  - repeat (apply conj; [run_scenario; repeat apply conj; exact_amount|]).
    run_scenario. repeat apply conj; try exact_amount. vm_compute. reflexivity.
  - repeat (apply conj; [run_scenario; repeat apply conj; vm_compute; reflexivity|]).
    run_scenario. repeat apply conj; vm_compute; reflexivity.
Qed.

(** ** Validation results *)

Lemma length_append (s1 s2 : string) :
  String.length (s1 ++ s2) = (String.length s1 + String.length s2)%nat.
Proof.
  induction s1 as [|c s1 IH]; [reflexivity|].
  change (S (String.length (s1 ++ s2)) = S (String.length s1 + String.length s2)).
  rewrite IH. reflexivity.
Qed.

Lemma penultimate_append (s1 s2 : string) :
  (2 <= String.length s2)%nat -> penultimate (s1 ++ s2) = penultimate s2.
Proof.
  intros Hlen. induction s1 as [|c s1 IH]; [reflexivity|].
  change (String c s1 ++ s2) with (String c (s1 ++ s2)).
  pose proof (length_append s1 s2) as Hl.
  destruct (s1 ++ s2) as [|c1 [|c2 rest]] eqn:Happ; cbn in Hl; try lia.
  exact IH.
Qed.

Lemma penultimate_not_found (prefix name : string) :
  penultimate (prefix ++ name ++ "' does not exist.") = Some "t"%char.
Proof.
  rewrite penultimate_append by (rewrite length_append; cbn; lia).
  rewrite penultimate_append by (cbn; lia). reflexivity.
Qed.

Lemma penultimate_unavailable (prefix name : string) :
  penultimate (prefix ++ name ++ "' is currently unavailable.") = Some "e"%char.
Proof.
  rewrite penultimate_append by (rewrite length_append; cbn; lia).
  rewrite penultimate_append by (cbn; lia). reflexivity.
Qed.

(** A message has one kind only. *)
Lemma has_kind_functional (k1 k2 : ErrorKind) (msg : string) :
  has_kind k1 msg -> has_kind k2 msg -> k1 = k2.
Proof.
  intros H1 H2.
  destruct H1; inversion H2; subst; try reflexivity; try discriminate;
    match goal with
    | Heq : _ = _ |- _ =>
        apply (f_equal penultimate) in Heq;
        rewrite ?penultimate_not_found, ?penultimate_unavailable in Heq;
        discriminate
    end.
Qed.

(** C7.  [validate_num_members] fails with the InvalidInput message when its
    argument is not an [int], with an OutOfRange message when the integer is
    below 1 or above 10, and succeeds otherwise.  The three messages differ
    from one another and from every NotFound message. *)
Theorem member_count_validation :
  forall (A : Type) (ar : Arith A) (self : GymMembershipManager A) (v : PyValue),
    (isinstance_int v = None ->
     validate_num_members v self
     = (Returns (false, Some "Number of members must be an integer."), self))
    /\ (forall n : Z, isinstance_int v = Some n -> (n < 1)%Z ->
        validate_num_members v self
        = (Returns (false, Some "Number of members must be at least 1."), self))
    /\ (forall n : Z, isinstance_int v = Some n -> (10 < n)%Z ->
        validate_num_members v self
        = (Returns (false, Some "Number of members cannot exceed 10."), self))
    /\ (forall n : Z, isinstance_int v = Some n -> (1 <= n <= 10)%Z ->
        validate_num_members v self = (Returns (true, None), self))
    /\ has_kind InvalidInput "Number of members must be an integer."
    /\ has_kind OutOfRange "Number of members must be at least 1."
    /\ has_kind OutOfRange "Number of members cannot exceed 10."
    /\ "Number of members must be an integer." <> "Number of members must be at least 1."
    /\ "Number of members must be an integer." <> "Number of members cannot exceed 10."
    /\ "Number of members must be at least 1." <> "Number of members cannot exceed 10."
    /\ (forall msg other : string,
          has_kind NotFound other ->
          In msg ["Number of members must be an integer.";
                  "Number of members must be at least 1.";
                  "Number of members cannot exceed 10."] ->
          msg <> other).
Proof.
  intros A ar self v. unfold validate_num_members.
  split; [intros Hv; rewrite Hv; reflexivity|].
  split.
  { intros n Hv Hn. rewrite Hv. apply Z.ltb_lt in Hn. rewrite Hn. reflexivity. }
  split.
  { intros n Hv Hn. rewrite Hv.
    assert (H1 : (n <? 1)%Z = false) by (apply Z.ltb_ge; lia).
    assert (H2 : (n >? 10)%Z = true) by (apply Z.gtb_lt; lia).
    rewrite H1, H2. reflexivity. }
  split.
  { intros n Hv Hn. rewrite Hv.
    assert (H1 : (n <? 1)%Z = false) by (apply Z.ltb_ge; lia).
    assert (H2 : (n >? 10)%Z = false) by (rewrite Z.gtb_ltb; apply Z.ltb_ge; lia).
    rewrite H1, H2. reflexivity. }
  split; [constructor|]. split; [constructor|]. split; [constructor|].
  split; [discriminate|]. split; [discriminate|]. split; [discriminate|].
  intros msg other Hother Hin Heq. subst other.
  assert (Hk : has_kind InvalidInput msg \/ has_kind OutOfRange msg).
  { cbn [In] in Hin. destruct Hin as [<-|[<-|[<-|[]]]];
      [left | right | right]; constructor. }
  destruct Hk as [Hk|Hk];
    pose proof (has_kind_functional _ _ _ Hother Hk); discriminate.
Qed.

Lemma member_count_validation_witness :
  validate_num_members (A:=float) (PyFloat 5.5) init
  = (Returns (false, Some "Number of members must be an integer."), init)
  /\ validate_num_members (A:=float) (PyInt 0) init
     = (Returns (false, Some "Number of members must be at least 1."), init)
  /\ validate_num_members (A:=float) (PyInt 11) init
     = (Returns (false, Some "Number of members cannot exceed 10."), init)
  /\ validate_num_members (A:=float) (PyInt 10) init = (Returns (true, None), init)
  /\ validate_num_members (A:=float) (PyBool true) init = (Returns (true, None), init).
Proof.
  split.
  { apply (member_count_validation float _ init (PyFloat 5.5)). reflexivity. }
  split.
  { apply (member_count_validation float _ init (PyInt 0)) with (n := 0%Z);
      [reflexivity | lia]. }
  split.
  { apply (member_count_validation float _ init (PyInt 11)) with (n := 11%Z);
      [reflexivity | lia]. }
  split.
  { apply (member_count_validation float _ init (PyInt 10)) with (n := 10%Z);
      [reflexivity | lia]. }
  apply (member_count_validation float _ init (PyBool true)) with (n := 1%Z);
    [reflexivity | lia].
Defined.

(** ** Feature lists *)

Lemma validate_features_loop_step {A : Type} `{Arith A}
    (self : GymMembershipManager A) (name : string) (rest : list string) :
  validate_features_loop (name :: rest) self
  = match additional_features self !! name with
    | None =>
        (Returns (false, Some ("Additional feature '" ++ name ++ "' does not exist.")), self)
    | Some entry =>
        if AdditionalFeature.available entry then validate_features_loop rest self
        else (Returns (false,
                Some ("Additional feature '" ++ name ++ "' is currently unavailable.")), self)
    end.
Proof.
  cbn [validate_features_loop].
  rewrite (bind_returns _ _ self self (additional_features self)) by reflexivity.
  unfold contains, getitem.
  destruct (additional_features self !! name) as [entry|]; [|reflexivity].
  cbn [negb]. rewrite (bind_returns _ _ self self entry) by reflexivity.
  destruct (AdditionalFeature.available entry); reflexivity.
Qed.

Lemma validate_features_loop_skip {A : Type} `{Arith A}
    (self : GymMembershipManager A) (pre rest : list string) :
  forallb (feature_enabled self) pre = true ->
  validate_features_loop (pre ++ rest)%list self = validate_features_loop rest self.
Proof.
  induction pre as [|name pre IH]; intros Hpre; [reflexivity|].
  cbn [forallb] in Hpre. apply andb_prop in Hpre as [Hname Hpre].
  change ((name :: pre) ++ rest)%list with (name :: (pre ++ rest))%list.
  rewrite validate_features_loop_step. unfold feature_enabled in Hname.
  destruct (additional_features self !! name) as [entry|]; [|discriminate].
  rewrite Hname. apply IH. exact Hpre.
Qed.

Lemma validate_features_loop_not_invalid_input {A : Type} `{Arith A}
    (self : GymMembershipManager A) (names : list string) :
  validate_features_loop names self
  <> (Returns (false, Some "Features must be provided as a list."), self).
Proof.
  induction names as [|name names IH]; [discriminate|].
  rewrite validate_features_loop_step.
  destruct (additional_features self !! name) as [entry|]; [|discriminate].
  destruct (AdditionalFeature.available entry); [exact IH | discriminate].
Qed.

Lemma validate_features_loop_success {A : Type} `{Arith A}
    (self : GymMembershipManager A) (names : list string) :
  validate_features_loop names self = (Returns (true, None), self) ->
  exists entries, all_found (additional_features self) names entries.
Proof.
  induction names as [|name names IH]; intros Hok.
  - exists []. constructor.
  - rewrite validate_features_loop_step in Hok.
    destruct (additional_features self !! name) as [entry|] eqn:Hname; [|discriminate].
    destruct (AdditionalFeature.available entry); [|discriminate].
    destruct (IH Hok) as [entries Hentries].
    exists (entry :: entries). constructor; assumption.
Qed.

(** C6, as the code has it.  [validate_features] fails with the InvalidInput
    message exactly when its argument is not a [list].  On a list it fails at
    the first name that is unknown (NotFound) or known but disabled
    (Unavailable), and succeeds when every name is known and enabled, so
    always on the empty list. *)
Theorem feature_list_validation :
  forall (A : Type) (ar : Arith A) (self : GymMembershipManager A) (v : PyValue),
    (isinstance_list v = None ->
     validate_features v self
     = (Returns (false, Some "Features must be provided as a list."), self))
    /\ (forall names : list string, v = PyList names ->
        validate_features v self
        <> (Returns (false, Some "Features must be provided as a list."), self)
        /\ (forallb (feature_enabled self) names = true ->
            validate_features v self = (Returns (true, None), self))
        /\ (forall (pre : list string) (name : string) (post : list string),
              names = (pre ++ name :: post)%list ->
              forallb (feature_enabled self) pre = true ->
              additional_features self !! name = None ->
              validate_features v self
              = (Returns (false,
                   Some ("Additional feature '" ++ name ++ "' does not exist.")), self))
        /\ (forall (pre : list string) (name : string) (post : list string)
                   (entry : AdditionalFeature.t A),
              names = (pre ++ name :: post)%list ->
              forallb (feature_enabled self) pre = true ->
              additional_features self !! name = Some entry ->
              AdditionalFeature.available entry = false ->
              validate_features v self
              = (Returns (false,
                   Some ("Additional feature '" ++ name ++ "' is currently unavailable.")),
                 self)))
    /\ validate_features (PyList []) self = (Returns (true, None), self).
Proof.
  intros A ar self v. split; [|split; [|reflexivity]].
  - intros Hv. unfold validate_features. rewrite Hv. reflexivity.
  - intros names ->. unfold validate_features. cbn [isinstance_list].
    split; [apply validate_features_loop_not_invalid_input|].
    split.
    { intros Hall. rewrite <- (app_nil_r names).
      rewrite validate_features_loop_skip by exact Hall. reflexivity. }
    split.
    { intros pre name post -> Hpre Hname.
      rewrite validate_features_loop_skip by exact Hpre.
      rewrite validate_features_loop_step, Hname. reflexivity. }
    intros pre name post entry -> Hpre Hname Havail.
    rewrite validate_features_loop_skip by exact Hpre.
    rewrite validate_features_loop_step, Hname, Havail. reflexivity.
Qed.

Lemma feature_list_validation_witness :
  validate_features (A:=float) (PyStr "PersonalTraining") init
  = (Returns (false, Some "Features must be provided as a list."), init)
  /\ validate_features (A:=float) (PyList all_features) init = (Returns (true, None), init)
  /\ validate_features (A:=float) (PyList ["Personal Training"; "Yoga"; "Sauna"]) init
     = (Returns (false, Some "Additional feature 'Yoga' does not exist."), init)
  /\ validate_features (A:=float) (PyList ["Personal Training"; "Group Classes"])
       without_group_classes
     = (Returns (false, Some "Additional feature 'Group Classes' is currently unavailable."),
        without_group_classes).
Proof.
  destruct (feature_list_validation float _ init (PyStr "PersonalTraining")) as [Hstr _].
  destruct (feature_list_validation float _ init (PyList all_features))
    as [_ [Hall _]].
  destruct (Hall all_features eq_refl) as [_ [Hvalid _]].
  destruct (feature_list_validation float _ init (PyList ["Personal Training"; "Yoga"; "Sauna"]))
    as [_ [Hyoga _]].
  destruct (Hyoga ["Personal Training"; "Yoga"; "Sauna"] eq_refl) as [_ [_ [Hmissing _]]].
  destruct (feature_list_validation float _ without_group_classes
              (PyList ["Personal Training"; "Group Classes"])) as [_ [Hgc _]].
  destruct (Hgc ["Personal Training"; "Group Classes"] eq_refl) as [_ [_ [_ Hoff]]].
  split; [apply Hstr; reflexivity|].
  split; [apply Hvalid; reflexivity|].
  split; [apply (Hmissing ["Personal Training"] "Yoga" ["Sauna"]); reflexivity|].
  apply (Hoff ["Personal Training"] "Group Classes" []
           (AdditionalFeature.make "Group Classes" (lit 3000 2) false)); reflexivity.
Defined.

(** C6 as the specification words it does not hold: a tuple is a sequence,
    yet a tuple of valid names, and the empty tuple, are rejected with the
    InvalidInput message. *)
Lemma tuple_of_features_rejected :
  is_sequence (PyTuple ["Personal Training"]) = true
  /\ validate_features (A:=float) (PyTuple ["Personal Training"]) init
     = (Returns (false, Some "Features must be provided as a list."), init)
  /\ is_sequence (PyTuple []) = true
  /\ validate_features (A:=float) (PyTuple []) init
     = (Returns (false, Some "Features must be provided as a list."), init)
  /\ validate_features (A:=float) (PyList ["Personal Training"]) init
     = (Returns (true, None), init).
Proof. repeat apply conj; reflexivity. Qed.

(** ** Validation guards the calculation *)

Lemma validate_membership_plan_success {A : Type} `{Arith A}
    (self : GymMembershipManager A) (plan_name : string) :
  validate_membership_plan plan_name self = (Returns (true, None), self) ->
  exists plan, membership_plans self !! plan_name = Some plan
               /\ MembershipPlan.available plan = true.
Proof.
  unfold validate_membership_plan.
  rewrite (bind_returns _ _ self self (membership_plans self)) by reflexivity.
  unfold contains, getitem.
  destruct (membership_plans self !! plan_name) as [plan|]; [|discriminate].
  cbn [negb]. rewrite (bind_returns _ _ self self plan) by reflexivity.
  destruct (MembershipPlan.available plan) eqn:Havail; [|discriminate].
  intros _. exists plan. split; [reflexivity | exact Havail].
Qed.

(** C9.  When the plan and the feature argument have both passed
    validation, the argument is a list and [calculate_total_cost] returns a
    total and a breakdown for every member count and tier: no lookup of the
    calculators raises [KeyError]. *)
Theorem validated_selection_is_priced :
  forall (A : Type) (ar : Arith A) (self : GymMembershipManager A)
         (plan_name : string) (feature_names : PyValue),
    validate_membership_plan plan_name self = (Returns (true, None), self) ->
    validate_features feature_names self = (Returns (true, None), self) ->
    exists names : list string,
      feature_names = PyList names
      /\ forall (num_members : Z) (premium_level : PremiumFeatureLevel),
           exists (total : A) (bd : Breakdown A),
             calculate_total_cost plan_name names num_members premium_level self
             = (Returns (total, bd), self).
Proof.
  intros A ar self plan_name feature_names Hplan Hfeat.
  destruct (validate_membership_plan_success self plan_name Hplan) as (plan & Hlookup & _).
  unfold validate_features in Hfeat.
  destruct feature_names as [| | | | |names|]; cbn [isinstance_list] in Hfeat;
    try discriminate.
  exists names. split; [reflexivity|].
  destruct (validate_features_loop_success self names Hfeat) as [entries Hentries].
  intros num_members premium_level.
  destruct (calculate_total_cost_stages self plan_name names num_members premium_level
              plan entries Hlookup Hentries) as (bd & Hcall & _).
  exists (bd_total_cost bd), bd. exact Hcall.
Qed.

Lemma validated_selection_is_priced_witness :
  exists names : list string,
    PyList all_features = PyList names
    /\ forall (num_members : Z) (premium_level : PremiumFeatureLevel),
         exists (total : float) (bd : Breakdown float),
           calculate_total_cost "Family" names num_members premium_level init
           = (Returns (total, bd), init).
Proof.
  apply (validated_selection_is_priced float _ init "Family" (PyList all_features));
    reflexivity.
Defined.

(** ** The catalogs are only read *)

Lemma repeatable_intro {S X : Type} (c : Method S X) :
  (forall self, snd (c self) = self) -> repeatable c.
Proof. intros Hc self. split; [apply Hc | rewrite Hc; reflexivity]. Qed.

Lemma unchanged_bind {S X Y : Type} (c : Method S X) (k : X -> Method S Y) :
  (forall self, snd (c self) = self) ->
  (forall x self, snd (k x self) = self) ->
  forall self, snd (bind c k self) = self.
Proof.
  intros Hc Hk self. unfold bind. specialize (Hc self).
  destruct (c self) as [[x|e] self']; cbn [snd] in *; [subst self'; apply Hk | exact Hc].
Qed.

Lemma unchanged_getitem {S V : Type} (d : gmap string V) (key : string) (self : S) :
  snd (getitem d key self) = self.
Proof. unfold getitem. destruct (d !! key); reflexivity. Qed.

Ltac unchanged :=
  repeat first
    [ progress intros
    | reflexivity
    | apply unchanged_getitem
    | apply unchanged_bind
    | match goal with
      | |- snd ((if ?b then _ else _) _) = _ => destruct b
      | |- snd ((let '(_, _) := ?p in _) _) = _ => destruct p
      | |- snd ((match ?o with Some _ => _ | None => _ end) _) = _ => destruct o
      end ].

Section Unchanged.

Context {A : Type} `{Arith A}.

Lemma unchanged_validate_membership_plan plan_name (self : GymMembershipManager A) :
  snd (validate_membership_plan plan_name self) = self.
Proof. revert self. unfold validate_membership_plan. unchanged. Qed.

Lemma unchanged_validate_features_loop names (self : GymMembershipManager A) :
  snd (validate_features_loop names self) = self.
Proof.
  revert self. induction names as [|name names IH]; cbn [validate_features_loop]; unchanged.
  apply IH.
Qed.

Lemma unchanged_validate_features v (self : GymMembershipManager A) :
  snd (validate_features v self) = self.
Proof.
  unfold validate_features. destruct (isinstance_list v); [|reflexivity].
  apply unchanged_validate_features_loop.
Qed.

Lemma unchanged_validate_num_members v (self : GymMembershipManager A) :
  snd (validate_num_members v self) = self.
Proof. revert self. unfold validate_num_members. unchanged. Qed.

Lemma unchanged_calculate_base_cost plan_name (self : GymMembershipManager A) :
  snd (calculate_base_cost plan_name self) = self.
Proof. revert self. unfold calculate_base_cost. unchanged. Qed.

Lemma unchanged_calculate_features_cost_loop names total (self : GymMembershipManager A) :
  snd (calculate_features_cost_loop total names self) = self.
Proof.
  revert total self.
  induction names as [|name names IH]; cbn [calculate_features_cost_loop]; unchanged.
  apply IH.
Qed.

Lemma unchanged_calculate_features_cost names (self : GymMembershipManager A) :
  snd (calculate_features_cost names self) = self.
Proof. apply unchanged_calculate_features_cost_loop. Qed.

Lemma unchanged_calculate_group_discount s n (self : GymMembershipManager A) :
  snd (calculate_group_discount s n self) = self.
Proof. revert self. unfold calculate_group_discount. unchanged. Qed.

Lemma unchanged_calculate_special_offer_discount x (self : GymMembershipManager A) :
  snd (calculate_special_offer_discount x self) = self.
Proof. reflexivity. Qed.

Lemma unchanged_calculate_premium_surcharge c t (self : GymMembershipManager A) :
  snd (calculate_premium_surcharge c t self) = self.
Proof. revert self. unfold calculate_premium_surcharge. unchanged. Qed.

Lemma unchanged_calculate_total_cost plan_name names n t (self : GymMembershipManager A) :
  snd (calculate_total_cost plan_name names n t self) = self.
Proof.
  revert self. unfold calculate_total_cost.
  apply unchanged_bind; [apply unchanged_calculate_base_cost|]. intros base.
  apply unchanged_bind; [apply unchanged_calculate_features_cost|]. intros fcost.
  apply unchanged_bind; [apply unchanged_calculate_group_discount|]. intros [ag gd].
  apply unchanged_bind; [apply unchanged_calculate_special_offer_discount|]. intros [asp sd].
  apply unchanged_bind; [apply unchanged_calculate_premium_surcharge|]. intros [tot su].
  reflexivity.
Qed.

Lemma unchanged_feature_lines_loop names summary (self : GymMembershipManager A) :
  snd (feature_lines_loop summary names self) = self.
Proof.
  revert summary self.
  induction names as [|name names IH]; cbn [feature_lines_loop]; unchanged.
  apply IH.
Qed.

Lemma unchanged_summary_lines plan_name names n t (self : GymMembershipManager A) :
  snd (summary_lines plan_name names n t self) = self.
Proof.
  revert self. unfold summary_lines.
  apply unchanged_bind; [apply unchanged_calculate_total_cost|]. intros [total bd].
  apply unchanged_bind; [|reflexivity].
  destruct names; [reflexivity | apply unchanged_feature_lines_loop].
Qed.

Lemma unchanged_get_summary plan_name names n t (self : GymMembershipManager A) :
  snd (get_summary plan_name names n t self) = self.
Proof.
  revert self. unfold get_summary.
  apply unchanged_bind; [apply unchanged_summary_lines | reflexivity].
Qed.

End Unchanged.

(** C10.  Every validator, every calculator, [calculate_total_cost] and
    [get_summary] hand back the manager with both catalogs as they were, and
    a second call with the same arguments has the same outcome. *)
Theorem catalogs_unchanged :
  forall (A : Type) (ar : Arith A),
    (forall plan_name, repeatable (S:=GymMembershipManager A)
                         (validate_membership_plan plan_name))
    /\ (forall v, repeatable (S:=GymMembershipManager A) (validate_features v))
    /\ (forall v, repeatable (S:=GymMembershipManager A) (validate_num_members v))
    /\ (forall plan_name, repeatable (S:=GymMembershipManager A)
                            (calculate_base_cost plan_name))
    /\ (forall names, repeatable (S:=GymMembershipManager A) (calculate_features_cost names))
    /\ (forall s n, repeatable (S:=GymMembershipManager A) (calculate_group_discount s n))
    /\ (forall x, repeatable (S:=GymMembershipManager A) (calculate_special_offer_discount x))
    /\ (forall c t, repeatable (S:=GymMembershipManager A) (calculate_premium_surcharge c t))
    /\ (forall plan_name names n t,
          repeatable (S:=GymMembershipManager A) (calculate_total_cost plan_name names n t))
    /\ (forall plan_name names n t,
          repeatable (S:=GymMembershipManager A) (get_summary plan_name names n t)).
Proof.
  intros A ar. repeat apply conj; intros; apply repeatable_intro; intros self.
  - apply unchanged_validate_membership_plan.
  - apply unchanged_validate_features.
  - apply unchanged_validate_num_members.
  - apply unchanged_calculate_base_cost.
  - apply unchanged_calculate_features_cost.
  - apply unchanged_calculate_group_discount.
  - apply unchanged_calculate_special_offer_discount.
  - apply unchanged_calculate_premium_surcharge.
  - apply unchanged_calculate_total_cost.
  - apply unchanged_get_summary.
Qed.

(** ** The report *)

Lemma feature_lines_loop_found {A : Type} `{Arith A}
    (self : GymMembershipManager A) (names : list string)
    (entries : list (AdditionalFeature.t A)) :
  all_found (additional_features self) names entries ->
  forall summary,
    feature_lines_loop summary names self
    = (Returns (summary ++ zip_with feature_line names entries)%list, self).
Proof.
  induction 1 as [|name entry names entries Hname _ IH]; intros summary.
  - cbn [feature_lines_loop zip_with]. rewrite app_nil_r. reflexivity.
  - cbn [feature_lines_loop zip_with].
    rewrite (bind_returns _ _ self self (additional_features self)) by reflexivity.
    rewrite (bind_returns _ _ self self entry) by (apply getitem_some; exact Hname).
    rewrite IH. unfold push. rewrite <- app_assoc. reflexivity.
Qed.

Lemma summary_lines_layout {A : Type} `{Arith A}
    (self : GymMembershipManager A) (plan_name : string) (feature_names : list string)
    (num_members : Z) (premium_level : PremiumFeatureLevel)
    (entries : list (AdditionalFeature.t A)) (total : A) (bd : Breakdown A) :
  all_found (additional_features self) feature_names entries ->
  calculate_total_cost plan_name feature_names num_members premium_level self
  = (Returns (total, bd), self) ->
  summary_lines plan_name feature_names num_members premium_level self
  = (Returns (header_section plan_name num_members
              ++ feature_section feature_names entries
              ++ premium_section premium_level
              ++ breakdown_section bd)%list, self).
Proof.
  intros Hfound Hcall. unfold summary_lines.
  rewrite (bind_returns _ _ self self (total, bd)) by exact Hcall.
  cbv beta iota zeta.
  match goal with
  | |- bind ?c ?k self = _ =>
      rewrite (bind_returns c k self self
                 (header_section plan_name num_members
                  ++ feature_section feature_names entries)%list)
  end.
  - unfold ret, push, breakdown_section, premium_section.
    destruct premium_level; cbn [PremiumFeatureLevel_eqb negb];
      destruct (gtb (bd_features_cost bd) (of_int 0));
      destruct (gtb (bd_group_discount bd) (of_int 0));
      destruct (gtb (bd_special_offer_discount bd) (of_int 0));
      destruct (gtb (bd_premium_surcharge bd) (of_int 0));
      cbn [app List.concat]; rewrite <- ?app_assoc; reflexivity.
  - destruct Hfound as [|name entry names entries' Hname Hrest].
    + reflexivity.
    + rewrite (feature_lines_loop_found self (name :: names) (entry :: entries'))
        by (constructor; assumption).
      unfold push, header_section, feature_section. cbn [app].
      reflexivity.
Qed.











Ltac in_list := cbn [In]; repeat first [left; reflexivity | right].







(** *** Amounts greater than zero *)






(** The amounts on the feature lines are read from the catalog, which the
    breakdown does not hold: for the same valid selection two managers
    return the same total and breakdown, yet their reports differ, one
    printing 50.00 and the other 30.00 for "Personal Training". *)
Example feature_amounts_come_from_catalog :
  fst (validate_features (A:=float) (PyList ["Personal Training"; "Group Classes"]) init)
  = Returns (true, None)
  /\ fst (validate_features (A:=float) (PyList ["Personal Training"; "Group Classes"])
            exchanged_prices)
     = Returns (true, None)
  /\ fst (calculate_total_cost (A:=float) "Basic" ["Personal Training"; "Group Classes"]
            1 NONE init)
     = fst (calculate_total_cost (A:=float) "Basic" ["Personal Training"; "Group Classes"]
              1 NONE exchanged_prices)
  /\ fst (get_summary (A:=float) "Basic" ["Personal Training"; "Group Classes"] 1 NONE init)
     <> fst (get_summary (A:=float) "Basic" ["Personal Training"; "Group Classes"] 1 NONE
               exchanged_prices)
  /\ (exists lines,
        fst (summary_lines (A:=float) "Basic" ["Personal Training"; "Group Classes"] 1 NONE
               init) = Returns lines
        /\ In "  - Personal Training: $50.00" lines)
  /\ (exists lines,
        fst (summary_lines (A:=float) "Basic" ["Personal Training"; "Group Classes"] 1 NONE
               exchanged_prices) = Returns lines
        /\ In "  - Personal Training: $30.00" lines).
Proof.
  split; [vm_compute; reflexivity|]. split; [vm_compute; reflexivity|].
  split; [vm_compute; reflexivity|].
  split; [vm_compute; discriminate|].
  split; eexists; (split; [vm_compute; reflexivity | in_list]).
Qed.

(** * Further properties of the manager *)

Lemma manager_of_init_catalogs {A : Type} `{Arith A} : manager_of init_catalogs = init.
Proof. reflexivity. Qed.

(** ** Plan validation *)

Lemma validate_membership_plan_by_lookup {A : Type} `{Arith A}
    (self : GymMembershipManager A) (plan_name : string) :
  validate_membership_plan plan_name self
  = match membership_plans self !! plan_name with
    | None =>
        (Returns (false, Some ("Membership plan '" ++ plan_name ++ "' does not exist.")),
         self)
    | Some plan =>
        if MembershipPlan.available plan then (Returns (true, None), self)
        else (Returns (false,
                Some ("Membership plan '" ++ plan_name ++ "' is currently unavailable.")),
              self)
    end.
Proof.
  unfold validate_membership_plan.
  rewrite (bind_returns _ _ self self (membership_plans self)) by reflexivity.
  unfold contains, getitem.
  destruct (membership_plans self !! plan_name) as [plan|]; [|reflexivity].
  cbn [negb]. rewrite (bind_returns _ _ self self plan) by reflexivity.
  destruct (MembershipPlan.available plan); reflexivity.
Qed.

Lemma validate_membership_plan_success_iff {A : Type} `{Arith A}
    (self : GymMembershipManager A) (plan_name : string) :
  validate_membership_plan plan_name self = (Returns (true, None), self)
  <-> exists plan : MembershipPlan.t A,
        membership_plans self !! plan_name = Some plan
        /\ MembershipPlan.available plan = true.
Proof.
  rewrite validate_membership_plan_by_lookup. split.
  - destruct (membership_plans self !! plan_name) as [plan|]; [|discriminate].
    destruct (MembershipPlan.available plan) eqn:Havail; [|discriminate].
    intros _. exists plan. split; [reflexivity | exact Havail].
  - intros (plan & -> & ->). reflexivity.
Qed.

(** X1.  [validate_membership_plan] answers in one of three ways, decided by
    the catalog alone: a name that is no key gets the "does not exist"
    message, a key whose plan is switched off gets the "currently
    unavailable" message, and a key whose plan is available succeeds.  So it
    succeeds exactly for the keys of available plans. *)
Theorem plan_validation_outcomes :
  forall (A : Type) (ar : Arith A) (self : GymMembershipManager A) (plan_name : string),
    (membership_plans self !! plan_name = None ->
     validate_membership_plan plan_name self
     = (Returns (false, Some ("Membership plan '" ++ plan_name ++ "' does not exist.")),
        self))
    /\ (forall plan : MembershipPlan.t A,
          membership_plans self !! plan_name = Some plan ->
          MembershipPlan.available plan = false ->
          validate_membership_plan plan_name self
          = (Returns (false,
               Some ("Membership plan '" ++ plan_name ++ "' is currently unavailable.")),
             self))
    /\ (validate_membership_plan plan_name self = (Returns (true, None), self)
        <-> exists plan : MembershipPlan.t A,
              membership_plans self !! plan_name = Some plan
              /\ MembershipPlan.available plan = true).
Proof.
  intros A ar self plan_name. split; [|split].
  - intros Hnone. rewrite validate_membership_plan_by_lookup, Hnone. reflexivity.
  - intros plan Hsome Hoff. rewrite validate_membership_plan_by_lookup, Hsome, Hoff.
    reflexivity.
  - apply validate_membership_plan_success_iff.
Qed.

Lemma plan_validation_outcomes_witness :
  validate_membership_plan (A:=float) "Gold" init
  = (Returns (false, Some "Membership plan 'Gold' does not exist."), init)
  /\ validate_membership_plan (A:=float) "Basic" (manager_of basic_switched_off)
     = (Returns (false, Some "Membership plan 'Basic' is currently unavailable."),
        manager_of basic_switched_off)
  /\ validate_membership_plan (A:=float) "Basic" init = (Returns (true, None), init).
Proof.
  destruct (plan_validation_outcomes float _ init "Gold") as [Hmissing _].
  destruct (plan_validation_outcomes float _ (manager_of basic_switched_off) "Basic")
    as [_ [Hoff _]].
  destruct (plan_validation_outcomes float _ init "Basic") as [_ [_ Hok]].
  split; [apply Hmissing; reflexivity|].
  split; [eapply Hoff; reflexivity|].
  apply Hok. eexists. split; reflexivity.
Defined.

(** ** Listing and validation agree *)

Lemma lookup_items {V : Type} (items : list (string * V)) (key : string) (v : V) :
  NoDup (map fst items) ->
  (list_to_map items : gmap string V) !! key = Some v <-> In (key, v) items.
Proof.
  intros Hnodup. rewrite <- list_elem_of_In. symmetry.
  apply elem_of_list_to_map. exact Hnodup.
Qed.

(** X2.  In a catalog whose plans are stored under their own names, the names
    that [get_available_membership_plans] lists are exactly the names that
    [validate_membership_plan] accepts. *)
Theorem listed_plans_are_the_valid_ones :
  forall (A : Type) (ar : Arith A) (c : OrderedCatalogs A) (plan_name : string),
    keys_unique c ->
    keyed_by_name c ->
    In plan_name (map MembershipPlan.name (get_available_membership_plans c))
    <-> validate_membership_plan plan_name (manager_of c)
        = (Returns (true, None), manager_of c).
Proof.
  intros A ar c plan_name [Hnodup _] [Hkeyed _].
  rewrite validate_membership_plan_success_iff. cbn [manager_of membership_plans].
  unfold get_available_membership_plans.
  rewrite in_map_iff. split.
  - intros (plan & Hname & Hin). apply filter_In in Hin as [Hin Havail].
    apply in_map_iff in Hin as ([key plan'] & Hsnd & Hin). cbn [snd] in Hsnd. subst plan'.
    exists plan. split; [|exact Havail].
    apply lookup_items; [exact Hnodup|].
    rewrite List.Forall_forall in Hkeyed. specialize (Hkeyed _ Hin). cbn [fst snd] in Hkeyed.
    rewrite <- Hname, Hkeyed. exact Hin.
  - intros (plan & Hlookup & Havail).
    apply lookup_items in Hlookup; [|exact Hnodup].
    exists plan. split.
    + rewrite List.Forall_forall in Hkeyed. exact (Hkeyed _ Hlookup).
    + apply filter_In. split; [|exact Havail].
      apply in_map_iff. exists (plan_name, plan). split; [reflexivity | exact Hlookup].
Qed.

Lemma keys_unique_init_catalogs {A : Type} `{Arith A} : keys_unique (init_catalogs (A:=A)).
Proof.
  split; cbn;
    repeat (constructor;
            [intros Hin;
             repeat (apply elem_of_cons in Hin as [Hin|Hin]; [discriminate Hin|]);
             apply elem_of_nil in Hin; exact Hin|]);
    constructor.
Qed.

Lemma keyed_by_name_init_catalogs {A : Type} `{Arith A} :
  keyed_by_name (init_catalogs (A:=A)).
Proof. split; repeat constructor. Qed.

Lemma listed_plans_are_the_valid_ones_witness :
  In "Premium" (map MembershipPlan.name
                  (get_available_membership_plans (A:=float) init_catalogs))
  <-> validate_membership_plan "Premium" (manager_of (A:=float) init_catalogs)
      = (Returns (true, None), manager_of init_catalogs).
Proof.
  apply (listed_plans_are_the_valid_ones float _ init_catalogs "Premium").
  - exact keys_unique_init_catalogs.
  - exact keyed_by_name_init_catalogs.
Defined.

Lemma validate_features_loop_success_iff {A : Type} `{Arith A}
    (self : GymMembershipManager A) (names : list string) :
  validate_features_loop names self = (Returns (true, None), self)
  <-> forallb (feature_enabled self) names = true.
Proof.
  induction names as [|name names IH]; [split; reflexivity|].
  rewrite validate_features_loop_step. cbn [forallb]. unfold feature_enabled at 1.
  destruct (additional_features self !! name) as [entry|]; [|split; discriminate].
  destruct (AdditionalFeature.available entry); [exact IH | split; discriminate].
Qed.

(** X3.  In a catalog whose features are stored under their own names,
    [validate_features] accepts a list exactly when each of its names is the
    name of a feature that [get_available_features] lists. *)
Theorem listed_features_are_the_valid_ones :
  forall (A : Type) (ar : Arith A) (c : OrderedCatalogs A) (names : list string),
    keys_unique c ->
    keyed_by_name c ->
    validate_features (PyList names) (manager_of c) = (Returns (true, None), manager_of c)
    <-> Forall (fun name => In name (map AdditionalFeature.name (get_available_features c)))
          names.
Proof.
  intros A ar c names [_ Hnodup] [_ Hkeyed]. rewrite List.Forall_forall in Hkeyed.
  unfold validate_features. cbn [isinstance_list].
  rewrite validate_features_loop_success_iff, forallb_forall, List.Forall_forall.
  assert (Hname : forall name,
            feature_enabled (manager_of c) name = true
            <-> In name (map AdditionalFeature.name (get_available_features c))).
  { intros name. unfold feature_enabled, get_available_features.
    cbn [manager_of additional_features]. rewrite in_map_iff. split.
    - destruct (list_to_map (feature_items c) !! name) as [entry|] eqn:Hlookup;
        [|discriminate].
      intros Havail. apply lookup_items in Hlookup; [|exact Hnodup].
      exists entry. split; [exact (Hkeyed _ Hlookup)|].
      apply filter_In. split; [|exact Havail].
      apply in_map_iff. exists (name, entry). split; [reflexivity | exact Hlookup].
    - intros (entry & Hentry & Hin). apply filter_In in Hin as [Hin Havail].
      apply in_map_iff in Hin as ([key entry'] & Hsnd & Hin). cbn [snd] in Hsnd.
      subst entry'. pose proof (Hkeyed _ Hin) as Hkey. cbn [fst snd] in Hkey.
      rewrite Hentry in Hkey. subst key.
      apply lookup_items in Hin; [|exact Hnodup]. rewrite Hin. exact Havail. }
  split; intros Hall name Hin; apply Hname; apply Hall; exact Hin.
Qed.

Lemma listed_features_are_the_valid_ones_witness :
  validate_features (PyList ["Group Classes"; "Personal Training"])
    (manager_of (A:=float) init_catalogs)
  = (Returns (true, None), manager_of init_catalogs)
  <-> Forall (fun name =>
                In name (map AdditionalFeature.name
                           (get_available_features (A:=float) init_catalogs)))
        ["Group Classes"; "Personal Training"].
Proof.
  apply (listed_features_are_the_valid_ones float _ init_catalogs).
  - exact keys_unique_init_catalogs.
  - exact keyed_by_name_init_catalogs.
Defined.

(** ** Unknown names *)

Lemma bind_raises {S X Y} (c : Method S X) (k : X -> Method S Y) (self self' : S) (e : Exn) :
  c self = (Raises e, self') -> bind c k self = (Raises e, self').
Proof. intros Hc. unfold bind. rewrite Hc. reflexivity. Qed.

Lemma getitem_none {S V} (d : gmap string V) (key : string) (self : S) :
  d !! key = None -> getitem d key self = (Raises (KeyError key), self).
Proof. intros Hd. unfold getitem. rewrite Hd. reflexivity. Qed.

Lemma calculate_base_cost_missing {A : Type} `{Arith A}
    (self : GymMembershipManager A) (plan_name : string) :
  membership_plans self !! plan_name = None ->
  calculate_base_cost plan_name self = (Raises (KeyError plan_name), self).
Proof.
  intros Hp. unfold calculate_base_cost.
  rewrite (bind_returns _ _ self self (membership_plans self)) by reflexivity.
  apply bind_raises. apply getitem_none. exact Hp.
Qed.

Lemma calculate_features_cost_loop_missing {A : Type} `{Arith A}
    (self : GymMembershipManager A) (pre : list string)
    (entries : list (AdditionalFeature.t A)) (name : string) (post : list string) :
  all_found (additional_features self) pre entries ->
  additional_features self !! name = None ->
  forall total,
    calculate_features_cost_loop total (pre ++ name :: post)%list self
    = (Raises (KeyError name), self).
Proof.
  intros Hpre Hname.
  induction Hpre as [|n entry pre entries Hn _ IH]; intros total.
  - cbn [app calculate_features_cost_loop].
    rewrite (bind_returns _ _ self self (additional_features self)) by reflexivity.
    apply bind_raises. apply getitem_none. exact Hname.
  - change ((n :: pre) ++ name :: post)%list with (n :: (pre ++ name :: post))%list.
    cbn [calculate_features_cost_loop].
    rewrite (bind_returns _ _ self self (additional_features self)) by reflexivity.
    rewrite (bind_returns _ _ self self entry) by (apply getitem_some; exact Hn).
    apply IH.
Qed.

(** Either every name is a key, or there is a first one that is not. *)
Lemma found_or_first_missing {V : Type} (d : gmap string V) (names : list string) :
  (exists entries, all_found d names entries)
  \/ (exists pre name post entries,
        names = (pre ++ name :: post)%list /\ all_found d pre entries /\ d !! name = None).
Proof.
  induction names as [|name names IH].
  - left. exists []. constructor.
  - destruct (d !! name) as [entry|] eqn:Hname.
    + destruct IH as [[entries Hall]|(pre & n & post & entries & -> & Hpre & Hn)].
      * left. exists (entry :: entries). constructor; assumption.
      * right. exists (name :: pre), n, post, (entry :: entries).
        split; [reflexivity|]. split; [constructor; assumption | exact Hn].
    + right. exists [], name, names, []. split; [reflexivity|].
      split; [constructor | exact Hname].
Qed.

Lemma calculate_total_cost_plan_missing {A : Type} `{Arith A}
    (self : GymMembershipManager A) (plan_name : string) (names : list string)
    (n : Z) (t : PremiumFeatureLevel) :
  membership_plans self !! plan_name = None ->
  calculate_total_cost plan_name names n t self = (Raises (KeyError plan_name), self).
Proof.
  intros Hp. unfold calculate_total_cost. apply bind_raises.
  apply calculate_base_cost_missing. exact Hp.
Qed.

Lemma calculate_total_cost_feature_missing {A : Type} `{Arith A}
    (self : GymMembershipManager A) (plan_name : string) (plan : MembershipPlan.t A)
    (pre : list string) (entries : list (AdditionalFeature.t A)) (name : string)
    (post : list string) (n : Z) (t : PremiumFeatureLevel) :
  membership_plans self !! plan_name = Some plan ->
  all_found (additional_features self) pre entries ->
  additional_features self !! name = None ->
  calculate_total_cost plan_name (pre ++ name :: post)%list n t self
  = (Raises (KeyError name), self).
Proof.
  intros Hp Hpre Hname. unfold calculate_total_cost.
  rewrite (bind_returns _ _ self self (MembershipPlan.base_cost plan))
    by (apply calculate_base_cost_found; exact Hp).
  apply bind_raises. unfold calculate_features_cost.
  apply (calculate_features_cost_loop_missing self pre entries); assumption.
Qed.

Lemma calculate_total_cost_returns_found {A : Type} `{Arith A}
    (self self' : GymMembershipManager A) (plan_name : string) (names : list string)
    (n : Z) (t : PremiumFeatureLevel) (r : A * Breakdown A) :
  calculate_total_cost plan_name names n t self = (Returns r, self') ->
  exists plan entries,
    membership_plans self !! plan_name = Some plan
    /\ all_found (additional_features self) names entries.
Proof.
  intros Hcall.
  destruct (membership_plans self !! plan_name) as [plan|] eqn:Hp.
  - destruct (found_or_first_missing (additional_features self) names)
      as [[entries Hall]|(pre & name & post & entries & -> & Hpre & Hname)].
    + exists plan, entries. split; [reflexivity | exact Hall].
    + rewrite (calculate_total_cost_feature_missing self plan_name plan pre entries
                 name post n t Hp Hpre Hname) in Hcall. discriminate Hcall.
  - rewrite (calculate_total_cost_plan_missing self plan_name names n t Hp) in Hcall.
    discriminate Hcall.
Qed.

(** X4.  [calculate_total_cost] fails fast on an unknown name and says which:
    an unknown plan raises [KeyError] of the plan name, whatever the
    features are; with a known plan, the first feature name that is no key
    raises [KeyError] of that name.  It returns exactly when the plan and
    every feature name are keys.  In each case the catalogs are left as they
    were. *)
Theorem total_cost_key_errors :
  forall (A : Type) (ar : Arith A) (self : GymMembershipManager A)
         (plan_name : string) (names : list string) (n : Z) (t : PremiumFeatureLevel),
    (membership_plans self !! plan_name = None ->
     calculate_total_cost plan_name names n t self = (Raises (KeyError plan_name), self))
    /\ (forall (plan : MembershipPlan.t A) (pre : list string) (name : string)
               (post : list string) (entries : list (AdditionalFeature.t A)),
          membership_plans self !! plan_name = Some plan ->
          names = (pre ++ name :: post)%list ->
          all_found (additional_features self) pre entries ->
          additional_features self !! name = None ->
          calculate_total_cost plan_name names n t self = (Raises (KeyError name), self))
    /\ ((exists r, calculate_total_cost plan_name names n t self = (Returns r, self))
        <-> is_Some (membership_plans self !! plan_name)
            /\ Forall (fun name => is_Some (additional_features self !! name)) names).
Proof.
  intros A ar self plan_name names n t. split; [|split].
  - apply calculate_total_cost_plan_missing.
  - intros plan pre name post entries Hp -> Hpre Hname.
    exact (calculate_total_cost_feature_missing self plan_name plan pre entries name post
             n t Hp Hpre Hname).
  - split.
    + intros [r Hcall].
      destruct (calculate_total_cost_returns_found self self plan_name names n t r Hcall)
        as (plan & entries & Hp & Hall).
      split; [rewrite Hp; eexists; reflexivity|].
      clear Hcall. induction Hall as [|name entry names entries Hname _ IH];
        constructor; [rewrite Hname; eexists; reflexivity | exact IH].
    + intros [[plan Hp] Hall].
      assert (Hentries : exists entries, all_found (additional_features self) names entries).
      { clear Hp. induction Hall as [|name names [entry Hname] _ [entries IH]].
        - exists []. constructor.
        - exists (entry :: entries). constructor; assumption. }
      destruct Hentries as [entries Hentries].
      destruct (calculate_total_cost_stages self plan_name names n t plan entries
                  Hp Hentries) as (bd & Hcall & _).
      eexists. exact Hcall.
Qed.

Lemma total_cost_key_errors_witness :
  calculate_total_cost (A:=float) "Gold" ["Yoga"] 1 NONE init
  = (Raises (KeyError "Gold"), init)
  /\ calculate_total_cost (A:=float) "Basic" ["Group Classes"; "Yoga"; "Sauna"] 1 NONE init
     = (Raises (KeyError "Yoga"), init).
Proof.
  destruct (total_cost_key_errors float _ init "Gold" ["Yoga"] 1%Z NONE) as [Hplan _].
  destruct (total_cost_key_errors float _ init "Basic" ["Group Classes"; "Yoga"; "Sauna"]
              1%Z NONE) as [_ [Hfeature _]].
  split; [apply Hplan; reflexivity|].
  apply (Hfeature (MembershipPlan.make "Basic" (lit 2999 2)
                     ["Access to gym equipment"; "Basic locker room access"] true)
                  ["Group Classes"] "Yoga" ["Sauna"]
                  [AdditionalFeature.make "Group Classes" (lit 3000 2) true]);
    try reflexivity.
  repeat constructor.
Defined.

(** X5.  [get_summary] fails exactly as [calculate_total_cost] does on the
    same arguments, with the same [KeyError], and, for a member count of at
    most 4300 digits, returns a report whenever that call returns: the loop
    over the feature lines raises nothing of its own. *)
Theorem summary_fails_like_total_cost :
  forall (A : Type) (ar : Arith A) (self : GymMembershipManager A)
         (plan_name : string) (names : list string) (n : Z) (t : PremiumFeatureLevel),
    (forall e : Exn,
        calculate_total_cost plan_name names n t self = (Raises e, self) ->
        get_summary plan_name names n t self = (Raises e, self))
    /\ (forall r : A * Breakdown A,
          printable n ->
          calculate_total_cost plan_name names n t self = (Returns r, self) ->
          exists text : string, get_summary plan_name names n t self = (Returns text, self)).
Proof.
  intros A ar self plan_name names n t. split.
  - intros e Hcall. unfold get_summary, summary_lines.
    apply bind_raises. apply bind_raises. exact Hcall.
  - intros [total bd] _ Hcall.
    destruct (calculate_total_cost_returns_found self self plan_name names n t _ Hcall)
      as (plan & entries & _ & Hall).
    pose proof (summary_lines_layout self plan_name names n t entries total bd Hall Hcall)
      as Hlines.
    eexists. unfold get_summary.
    rewrite (bind_returns _ _ self self _ Hlines). reflexivity.
Qed.

Lemma summary_fails_like_total_cost_witness :
  get_summary (A:=float) "Basic" ["Yoga"] 1 NONE init = (Raises (KeyError "Yoga"), init)
  /\ exists text : string,
       get_summary (A:=float) "Basic" ["Group Classes"] 1 NONE init = (Returns text, init).
Proof.
  destruct (summary_fails_like_total_cost float _ init "Basic" ["Yoga"] 1%Z NONE)
    as [Hfail _].
  destruct (summary_fails_like_total_cost float _ init "Basic" ["Group Classes"] 1%Z NONE)
    as [_ Hok].
  split; [apply Hfail; reflexivity|].
  eapply Hok; [vm_compute; reflexivity|]. vm_compute. reflexivity.
Defined.

(** ** The application: its prompts *)

Lemma ensures_bind {X Y : Type} (c : IO X) (k : X -> IO Y) (con : Console)
    (P : X -> Console -> Prop) (Q : Y -> Console -> Prop) (E : Raised -> Prop) :
  ensures c con P E ->
  (forall x con', P x con' -> ensures (k x) con' Q E) ->
  ensures (io_bind c k) con Q E.
Proof.
  unfold ensures, io_bind. intros Hc Hk.
  destruct (c con) as [[x|e] con']; [exact (Hk x con' Hc) | exact Hc].
Qed.

Lemma ensures_weaken {X : Type} (c : IO X) (con : Console)
    (P P' : X -> Console -> Prop) (E E' : Raised -> Prop) :
  ensures c con P E ->
  (forall x con', P x con' -> P' x con') ->
  (forall e, E e -> E' e) ->
  ensures c con P' E'.
Proof.
  unfold ensures. intros Hc HP HE.
  destruct (c con) as [[x|e] con']; [exact (HP _ _ Hc) | exact (HE _ Hc)].
Qed.

Lemma ensures_print (text : string) (con : Console) (E : Raised -> Prop) :
  ensures (print text) con (fun _ con' => stdin con' = stdin con) E.
Proof. reflexivity. Qed.

Lemma ensures_print_numbered (items : list (Z * string)) (con : Console)
    (E : Raised -> Prop) :
  ensures (print_numbered items) con (fun _ con' => stdin con' = stdin con) E.
Proof.
  revert con. induction items as [|[i item] rest IH]; intros con; [reflexivity|].
  cbn [print_numbered]. eapply ensures_bind; [apply ensures_print|].
  cbn beta. intros _ con' Hcon'. eapply ensures_weaken; [apply IH| |auto].
  cbn beta. intros _ con'' Hcon''. congruence.
Qed.

(** The loop of a prompt ends by returning what its body returned on some
    line, having read at least that line, or by raising: [EOFError] when
    the input runs out, or what the body raised. *)
Lemma prompt_loop_on_ensures {S X : Type} (before : S -> list string) (prompt : string)
    (body : S -> string -> Step S X) (L : string -> Prop) (I : S -> Prop) (P : X -> Prop)
    (E : Raised -> Prop) :
  (forall s line, I s -> L line ->
     match body s line with
     | Again s' _ => I s'
     | Leave x _ => P x
     | Fail e => E e
     end) ->
  forall (lines : list string) (s : S) (out : list Output),
    Forall L lines -> I s ->
    match prompt_loop_on before prompt body s lines out with
    | (Ok x, con') =>
        P x /\ Forall L (stdin con') /\ (length (stdin con') < length lines)%nat
    | (Err e, _) => e = EOFError \/ E e
    end.
Proof.
  intros Hbody lines. induction lines as [|line rest IH]; intros s out Hlines Hs.
  - cbn. left. reflexivity.
  - cbn [prompt_loop_on]. inversion Hlines as [|? ? Hline Hrest]; subst.
    specialize (Hbody s line Hs Hline).
    destruct (body s line) as [s' printed|x printed|e].
    + specialize (IH s' (out ++ map Print (before s) ++ [Prompt prompt]
                           ++ map Print printed)%list Hrest Hbody).
      rewrite <- !app_assoc.
      destruct (prompt_loop_on before prompt body s' rest _) as [[x|e] con'].
      * destruct IH as (HP & Hkb & Hlen). cbn [length]. repeat split; [exact HP|exact Hkb|lia].
      * exact IH.
    + cbn [stdin length]. repeat split; [exact Hbody|exact Hrest|lia].
    + right. exact Hbody.
Qed.

Lemma prompt_loop_ensures {S X : Type} (before : S -> list string) (prompt : string)
    (body : S -> string -> Step S X) (I : S -> Prop) (P : X -> Prop) (E : Raised -> Prop)
    (s : S) (con : Console) :
  (forall s line, I s -> Str.typed line = true ->
     match body s line with
     | Again s' _ => I s'
     | Leave x _ => P x
     | Fail e => E e
     end) ->
  keyboard (stdin con) -> I s ->
  ensures (prompt_loop before prompt body s) con
    (fun x con' =>
       P x /\ keyboard (stdin con') /\ (length (stdin con') < length (stdin con))%nat)
    (fun e => e = EOFError \/ E e).
Proof.
  intros Hbody Hlines Hs. unfold ensures, prompt_loop.
  exact (prompt_loop_on_ensures before prompt body _ I P E Hbody _ s (stdout con) Hlines Hs).
Qed.

Lemma mem_true_iff (x : string) (l : list string) : Str.mem x l = true <-> In x l.
Proof.
  unfold Str.mem. rewrite existsb_exists. split.
  - intros (y & Hin & Heq). apply String.eqb_eq in Heq. subst y. exact Hin.
  - intros Hin. exists x. split; [exact Hin | apply String.eqb_refl].
Qed.

Lemma in_remove (x y : string) (l : list string) : In y (Str.remove x l) -> In y l.
Proof.
  induction l as [|z rest IH]; cbn [Str.remove]; [auto|].
  destruct (String.eqb z x); cbn [In]; tauto.
Qed.

Lemma NoDup_remove (x : string) (l : list string) :
  List.NoDup l -> List.NoDup (Str.remove x l).
Proof.
  induction 1 as [|z rest Hnotin Hnodup IH]; cbn [Str.remove]; [constructor|].
  destruct (String.eqb z x); [exact Hnodup|].
  constructor; [|exact IH]. intros Hin. apply Hnotin. exact (in_remove _ _ _ Hin).
Qed.

Lemma NoDup_snoc (x : string) (l : list string) :
  List.NoDup l -> ~ In x l -> List.NoDup (l ++ [x]).
Proof.
  intros Hnodup Hnotin. apply NoDup_rev in Hnodup.
  rewrite <- (rev_involutive (l ++ [x])). apply NoDup_rev.
  rewrite rev_app_distr. cbn [rev app]. constructor; [|exact Hnodup].
  rewrite <- in_rev. exact Hnotin.
Qed.

Lemma nth_in_range (names : list string) (index : Z) :
  ((0 <=? index) && (index <? Z.of_nat (length names)))%Z = true ->
  In (nth (Z.to_nat index) names "") names.
Proof.
  intros Hrange. apply andb_true_iff in Hrange as [Hlo Hhi].
  apply Z.leb_le in Hlo. apply Z.ltb_lt in Hhi. apply nth_In. lia.
Qed.

Section Prompts.

Context {A : Type} `{Arith A} `{ToInt A}.

Lemma select_membership_plan_body_leaves (plan_names : list string) (s : unit)
    (line : string) :
  match select_membership_plan_body plan_names s line with
  | Again _ _ => True
  | Leave x _ => forall name, x = Some name -> In name plan_names
  | Fail _ => False
  end.
Proof.
  unfold select_membership_plan_body.
  destruct (String.eqb _ "cancel"); [discriminate|].
  destruct (Str.isdigit _).
  - destruct (_ && _)%bool eqn:Hrange; [|exact I].
    intros name [= <-]. exact (nth_in_range _ _ Hrange).
  - destruct (Str.mem _ _) eqn:Hmem; [|exact I].
    intros name [= <-]. apply mem_true_iff. exact Hmem.
Qed.

Lemma select_num_members_body_leaves (c : OrderedCatalogs A) (s : unit) (line : string) :
  match select_num_members_body c s line with
  | Again _ _ => True
  | Leave x _ => forall n, x = Some n -> (1 <= n <= 10)%Z
  | Fail _ => False
  end.
Proof.
  unfold select_num_members_body.
  destruct (String.eqb _ "cancel"); [discriminate|].
  destruct (Str.isdigit _); [|exact I].
  unfold call, validate_num_members. cbn [isinstance_int].
  destruct (_ <? 1)%Z eqn:Hlow; [exact I|].
  destruct (_ >? 10)%Z eqn:Hhigh; [exact I|].
  cbn. intros n [= <-]. apply Z.ltb_ge in Hlow. rewrite Z.gtb_ltb in Hhigh.
  apply Z.ltb_ge in Hhigh. lia.
Qed.

Lemma select_additional_features_body_leaves (feature_names selected : list string)
    (line : string) :
  List.NoDup selected ->
  Forall (fun name => In name feature_names) selected ->
  match select_additional_features_body feature_names selected line with
  | Again selected' _ =>
      List.NoDup selected' /\ Forall (fun name => In name feature_names) selected'
  | Leave x _ =>
      forall names, x = Some names ->
        List.NoDup names /\ Forall (fun name => In name feature_names) names
  | Fail _ => False
  end.
Proof.
  intros Hnodup Hlisted.
  assert (Htoggle : forall feature_name,
            In feature_name feature_names ->
            match (if Str.mem feature_name selected
                   then Again (X:=option (list string)) (Str.remove feature_name selected)
                          ["Removed: " ++ feature_name ++ Text.nl]
                   else Again (selected ++ [feature_name])%list
                          ["Added: " ++ feature_name ++ Text.nl]) with
            | Again selected' _ =>
                List.NoDup selected' /\ Forall (fun name => In name feature_names) selected'
            | Leave x _ =>
                forall names, x = Some names ->
                  List.NoDup names /\ Forall (fun name => In name feature_names) names
            | Fail _ => False
            end).
  { intros feature_name Hin. destruct (Str.mem feature_name selected) eqn:Hmem.
    - split; [exact (NoDup_remove _ _ Hnodup)|].
      rewrite List.Forall_forall in *. intros name Hname.
      apply Hlisted. exact (in_remove _ _ _ Hname).
    - split.
      + apply NoDup_snoc; [exact Hnodup|]. intros Hsel.
        apply mem_true_iff in Hsel. congruence.
      + apply Forall_app. split; [exact Hlisted|]. constructor; [exact Hin|constructor]. }
  unfold select_additional_features_body.
  destruct (String.eqb _ "done"); [intros names [= <-]; split; assumption|].
  destruct (String.eqb _ "cancel"); [discriminate|].
  destruct (Str.isdigit _).
  - destruct (_ && _)%bool eqn:Hrange.
    + apply Htoggle. exact (nth_in_range _ _ Hrange).
    + split; assumption.
  - destruct (Str.mem _ feature_names) eqn:Hmem.
    + apply Htoggle. apply mem_true_iff. exact Hmem.
    + split; assumption.
Qed.

Lemma select_premium_level_body_leaves (s : unit) (line : string) :
  match select_premium_level_body s line with
  | Again _ _ => True
  | Leave x _ => x <> None
  | Fail _ => False
  end.
Proof.
  unfold select_premium_level_body.
  repeat match goal with
         | |- context [if ?b then _ else _] => destruct b; [discriminate|]
         end.
  exact I.
Qed.

Lemma confirm_membership_body_leaves (s : unit) (line : string) :
  match confirm_membership_body s line with
  | Again _ _ => True
  | Leave _ _ => True
  | Fail _ => False
  end.
Proof.
  unfold confirm_membership_body.
  repeat match goal with
         | |- context [if ?b then _ else _] => destruct b; [exact I|]
         end.
  exact I.
Qed.

End Prompts.

(** ** The application: its functions *)

Lemma validate_features_loop_returns {A : Type} `{Arith A}
    (self : GymMembershipManager A) (names : list string) :
  validate_features_loop names self = (Returns (true, None), self)
  \/ exists msg, validate_features_loop names self = (Returns (false, Some msg), self).
Proof.
  induction names as [|name rest IH]; [left; reflexivity|].
  cbn [validate_features_loop]. unfold bind, attr, contains, getitem, ret.
  destruct (additional_features self !! name) as [entry|]; cbn.
  - destruct (AdditionalFeature.available entry); cbn; [exact IH|].
    right. eexists. reflexivity.
  - right. eexists. reflexivity.
Qed.

Lemma ensures_ret {X : Type} (x : X) (con : Console)
    (P : X -> Console -> Prop) (E : Raised -> Prop) :
  P x con -> ensures (io_ret x) con P E.
Proof. intros HP. exact HP. Qed.

Lemma ensures_raise {X : Type} (e : Raised) (con : Console)
    (P : X -> Console -> Prop) (E : Raised -> Prop) :
  E e -> ensures (io_raise e) con P E.
Proof. intros HE. exact HE. Qed.

Lemma ensures_seq {Y : Type} (c : IO unit) (k : unit -> IO Y) (con : Console)
    (Q : Y -> Console -> Prop) (E : Raised -> Prop) :
  ensures c con (fun _ con' => stdin con' = stdin con) E ->
  (forall con', stdin con' = stdin con -> ensures (k tt) con' Q E) ->
  ensures (io_bind c k) con Q E.
Proof.
  intros Hc Hk. eapply ensures_bind; [exact Hc|].
  cbn beta. intros [] con' Hcon'. exact (Hk con' Hcon').
Qed.

Lemma ensures_print_then (text : string) (con con0 : Console) (E : Raised -> Prop) :
  stdin con = stdin con0 ->
  ensures (print text) con (fun _ con' => stdin con' = stdin con0) E.
Proof. intros Hcon. exact Hcon. Qed.

Section Functions.

Context {A : Type} `{Arith A} `{ToInt A}.

Lemma ensures_io_call {X : Type} (m : Method (GymMembershipManager A) X)
    (c : OrderedCatalogs A) (con : Console) (x : X) (self' : GymMembershipManager A)
    (P : X -> Console -> Prop) (E : Raised -> Prop) :
  m (manager_of c) = (Returns x, self') ->
  P x con ->
  ensures (io_call m c) con P E.
Proof.
  intros Hm HP. unfold ensures, io_call, call. rewrite Hm. exact HP.
Qed.

Lemma ensures_display_welcome (con : Console) (E : Raised -> Prop) :
  ensures display_welcome con (fun _ con' => stdin con' = stdin con) E.
Proof.
  unfold display_welcome.
  apply ensures_seq; [apply ensures_print|]. intros con1 H1.
  apply ensures_seq; [apply ensures_print|]. intros con2 H2.
  apply ensures_print_then. congruence.
Qed.

Lemma ensures_display_membership_plans (c : OrderedCatalogs A) (con : Console)
    (E : Raised -> Prop) :
  ensures (display_membership_plans c) con (fun _ con' => stdin con' = stdin con) E.
Proof.
  unfold display_membership_plans.
  apply ensures_seq; [apply ensures_print|]. intros con1 H1.
  apply ensures_seq; [apply ensures_print|]. intros con2 H2. cbn zeta.
  apply ensures_seq; [apply ensures_print_numbered|]. intros con3 H3.
  apply ensures_print_then. congruence.
Qed.

Lemma ensures_display_additional_features (c : OrderedCatalogs A) (con : Console)
    (E : Raised -> Prop) :
  ensures (display_additional_features c) con (fun _ con' => stdin con' = stdin con) E.
Proof.
  unfold display_additional_features.
  apply ensures_seq; [apply ensures_print|]. intros con1 H1.
  apply ensures_seq; [apply ensures_print|]. intros con2 H2. cbn zeta.
  apply ensures_seq; [apply ensures_print_numbered|]. intros con3 H3.
  apply ensures_print_then. congruence.
Qed.

Lemma ensures_canceled (con : Console) (P : Z -> Console -> Prop) (E : Raised -> Prop) :
  (forall con', P (-1)%Z con') -> ensures canceled con P E.
Proof. intros HP. apply HP. Qed.

Lemma ensures_rejected (error_msg : option string) (con : Console)
    (P : Z -> Console -> Prop) (E : Raised -> Prop) :
  (forall con', P (-1)%Z con') -> ensures (rejected error_msg) con P E.
Proof. intros HP. apply HP. Qed.

Lemma select_membership_plan_asked (c : OrderedCatalogs A) :
  asked (select_membership_plan c)
    (fun r => forall name, r = Some name ->
                In name (map MembershipPlan.name (get_available_membership_plans c))).
Proof.
  intros con Hkb. unfold select_membership_plan.
  apply ensures_seq; [apply ensures_display_membership_plans|]. intros con1 H1. cbn zeta.
  eapply ensures_weaken.
  - apply (prompt_loop_ensures _ _ _ (fun _ => True)
             (fun r => forall name, r = Some name ->
                In name (map MembershipPlan.name (get_available_membership_plans c)))
             (fun _ => False)).
    + intros s line _ _.
      pose proof (select_membership_plan_body_leaves
                    (map MembershipPlan.name (get_available_membership_plans c)) s line)
        as Hbody.
      destruct (select_membership_plan_body _ s line); [exact I|exact Hbody|exact Hbody].
    + rewrite H1. exact Hkb.
    + exact I.
  - cbn beta. intros x con' (HP & Hk & Hlen). rewrite H1 in Hlen. auto.
  - cbn beta. intros e [He|[]]. exact He.
Qed.

Lemma select_num_members_asked (c : OrderedCatalogs A) :
  asked (select_num_members c) (fun r => forall n, r = Some n -> (1 <= n <= 10)%Z).
Proof.
  intros con Hkb. unfold select_num_members.
  eapply ensures_weaken.
  - apply (prompt_loop_ensures _ _ _ (fun _ => True)
             (fun r => forall n, r = Some n -> (1 <= n <= 10)%Z) (fun _ => False)).
    + intros s line _ _.
      pose proof (select_num_members_body_leaves c s line) as Hbody.
      destruct (select_num_members_body c s line); [exact I|exact Hbody|exact Hbody].
    + exact Hkb.
    + exact I.
  - cbn beta. auto.
  - cbn beta. intros e [He|[]]. exact He.
Qed.

Lemma select_additional_features_asked (c : OrderedCatalogs A) :
  asked (select_additional_features c)
    (fun r => forall names, r = Some names ->
                List.NoDup names
                /\ Forall (fun name =>
                             In name (map AdditionalFeature.name (get_available_features c)))
                     names).
Proof.
  intros con Hkb. unfold select_additional_features.
  apply ensures_seq; [apply ensures_display_additional_features|]. intros con1 H1. cbn zeta.
  eapply ensures_weaken.
  - apply (prompt_loop_ensures _ _ _
             (fun selected =>
                List.NoDup selected
                /\ Forall (fun name =>
                             In name (map AdditionalFeature.name (get_available_features c)))
                     selected)
             (fun r => forall names, r = Some names ->
                List.NoDup names
                /\ Forall (fun name =>
                             In name (map AdditionalFeature.name (get_available_features c)))
                     names)
             (fun _ => False)).
    + intros s line [Hnodup Hlisted] _.
      exact (select_additional_features_body_leaves _ s line Hnodup Hlisted).
    + rewrite H1. exact Hkb.
    + split; constructor.
  - cbn beta. intros x con' (HP & Hk & Hlen). rewrite H1 in Hlen. auto.
  - cbn beta. intros e [He|[]]. exact He.
Qed.

Lemma select_premium_level_asked :
  asked select_premium_level (fun r => r <> None).
Proof.
  intros con Hkb. unfold select_premium_level.
  do 6 (apply ensures_seq; [apply ensures_print|];
        let con' := fresh "con" in let Hcon' := fresh "Hcon" in intros con' Hcon').
  assert (Hstdin : stdin con5 = stdin con) by congruence.
  eapply ensures_weaken.
  - apply (prompt_loop_ensures _ _ _ (fun _ => True) (fun r => r <> None)
             (fun _ => False)).
    + intros s line _ _.
      pose proof (select_premium_level_body_leaves s line) as Hbody.
      destruct (select_premium_level_body s line); [exact I|exact Hbody|exact Hbody].
    + rewrite Hstdin. exact Hkb.
    + exact I.
  - cbn beta. intros x con' (HP & Hk & Hlen). rewrite Hstdin in Hlen. auto.
  - cbn beta. intros e [He|[]]. exact He.
Qed.

Lemma confirm_membership_asked (summary : string) :
  asked (confirm_membership summary) (fun _ => True).
Proof.
  intros con Hkb. unfold confirm_membership.
  apply ensures_seq; [apply ensures_print|]. intros con1 H1.
  eapply ensures_weaken.
  - apply (prompt_loop_ensures _ _ _ (fun _ => True) (fun _ => True) (fun _ => False)).
    + intros s line _ _.
      pose proof (confirm_membership_body_leaves s line) as Hbody.
      destruct (confirm_membership_body s line); [exact I|exact I|exact Hbody].
    + rewrite H1. exact Hkb.
    + exact I.
  - cbn beta. intros x con' (HP & Hk & Hlen). rewrite H1 in Hlen. auto.
  - cbn beta. intros e [He|[]]. exact He.
Qed.

Lemma ensures_display_potential_savings (c : OrderedCatalogs A) (plan_name : string)
    (plan : MembershipPlan.t A) (num_members : Z) (con : Console) (E : Raised -> Prop) :
  membership_plans (manager_of c) !! plan_name = Some plan ->
  ensures (display_potential_savings c plan_name num_members) con
    (fun _ con' => stdin con' = stdin con) E.
Proof.
  intros Hplan. unfold display_potential_savings.
  destruct (num_members >=? GROUP_DISCOUNT_THRESHOLD)%Z; [|reflexivity].
  destruct (calculate_total_cost_stages (manager_of c) plan_name [] (num_members - 1) NONE
              plan [] Hplan (List.Forall2_nil _)) as (bd1 & Hcall1 & _).
  destruct (calculate_total_cost_stages (manager_of c) plan_name [] num_members NONE
              plan [] Hplan (List.Forall2_nil _)) as (bd2 & Hcall2 & _).
  eapply ensures_bind.
  - eapply ensures_io_call with (P := fun _ con' => con' = con); [exact Hcall1|reflexivity].
  - cbn beta. intros _ con1 ->.
    eapply ensures_bind.
    + eapply ensures_io_call with (P := fun _ con' => con' = con); [exact Hcall2|reflexivity].
    + cbn beta. intros priced con2 ->. cbn zeta. apply ensures_print.
Qed.

End Functions.

Lemma asked_bind {X Y : Type} (c : IO X) (P : X -> Prop) (k : X -> IO Y) (con : Console)
    (Q : Y -> Console -> Prop) (E : Raised -> Prop) :
  asked c P ->
  keyboard (stdin con) ->
  E EOFError ->
  (forall x con',
      P x -> keyboard (stdin con') -> (length (stdin con') < length (stdin con))%nat ->
      ensures (k x) con' Q E) ->
  ensures (io_bind c k) con Q E.
Proof.
  intros Hc Hkb Heof Hk. eapply ensures_bind.
  - eapply ensures_weaken; [exact (Hc con Hkb)| |].
    + intros x con' HP. exact HP.
    + intros e ->. exact Heof.
  - cbn beta. intros x con' (HP & Hkb' & Hlen). exact (Hk x con' HP Hkb' Hlen).
Qed.

Section Run.

Context {A : Type} `{Arith A} `{ToInt A}.

Lemma ensures_io_call_bind {X Y : Type} (m : Method (GymMembershipManager A) X)
    (c : OrderedCatalogs A) (k : X -> IO Y) (con : Console) (x : X)
    (self' : GymMembershipManager A) (Q : Y -> Console -> Prop) (E : Raised -> Prop) :
  m (manager_of c) = (Returns x, self') ->
  ensures (k x) con Q E ->
  ensures (io_bind (io_call m c) k) con Q E.
Proof.
  intros Hm Hk. unfold ensures, io_bind, io_call, call in *. rewrite Hm. exact Hk.
Qed.

Lemma get_summary_returns (self : GymMembershipManager A) (plan_name : string)
    (names : list string) (n : Z) (t : PremiumFeatureLevel) (r : A * Breakdown A) :
  calculate_total_cost plan_name names n t self = (Returns r, self) ->
  exists text : string, get_summary plan_name names n t self = (Returns text, self).
Proof.
  destruct r as [total bd]. intros Hcall.
  destruct (calculate_total_cost_returns_found self self plan_name names n t _ Hcall)
    as (plan & entries & _ & Hall).
  pose proof (summary_lines_layout self plan_name names n t entries total bd Hall Hcall)
    as Hlines.
  eexists. unfold get_summary.
  rewrite (bind_returns _ _ self self _ Hlines). reflexivity.
Qed.

(** One pass of [run] ends with -1, with [int] of the total of a selection
    that passed both validations, or with [EOFError]; a pass that starts
    over has read five lines at least. *)
Lemma run_ensures (c : OrderedCatalogs A) (depth : nat) :
  forall con : Console,
    keyboard (stdin con) ->
    ensures (run depth c) con
      (fun final_cost _ => final_cost = (-1)%Z \/ confirmed_total c (Whole final_cost))
      (fun e => e = EOFError
                \/ (e = RecursionError /\ (5 * depth <= length (stdin con))%nat)
                \/ (e = OverflowError /\ confirmed_total c Infinite)
                \/ (e = ValueError /\ confirmed_total c NotANumber)).
Proof.
  induction depth as [|depth IH]; intros con Hkb.
  - apply ensures_raise. right. left. split; [reflexivity|cbn; lia].
  - cbn [run].
    apply ensures_seq; [apply ensures_display_welcome|]. intros con0 Hcon0.
    apply (asked_bind _ _ _ _ _ _ (select_membership_plan_asked c));
      [rewrite Hcon0; exact Hkb | left; reflexivity |].
    intros [plan_name|] con1 _ Hkb1 Hlen1;
      [|apply ensures_canceled; intros; left; reflexivity].
    pose proof (validate_membership_plan_by_lookup (manager_of c) plan_name) as Hplan.
    destruct (membership_plans (manager_of c) !! plan_name) as [plan|] eqn:Hlookup;
      [destruct (MembershipPlan.available plan) eqn:Havailable|];
      (eapply ensures_io_call_bind; [exact Hplan|]); cbn [fst snd negb];
      [|apply ensures_rejected; intros; left; reflexivity
       |apply ensures_rejected; intros; left; reflexivity].
    apply (asked_bind _ _ _ _ _ _ (select_num_members_asked c));
      [exact Hkb1 | left; reflexivity |].
    intros [num_members|] con2 Hrange Hkb2 Hlen2;
      [|apply ensures_canceled; intros; left; reflexivity].
    specialize (Hrange num_members eq_refl).
    apply (asked_bind _ _ _ _ _ _ (select_additional_features_asked c));
      [exact Hkb2 | left; reflexivity |].
    intros [feature_names|] con3 Hselected Hkb3 Hlen3;
      [|apply ensures_canceled; intros; left; reflexivity].
    destruct (Hselected feature_names eq_refl) as [Hnodup _].
    destruct (validate_features_loop_returns (manager_of c) feature_names)
      as [Hfeatures|[msg Hfeatures]];
      (eapply ensures_io_call_bind; [exact Hfeatures|]); cbn [fst snd negb];
      [|apply ensures_rejected; intros; left; reflexivity].
    apply ensures_seq;
      [apply (ensures_display_potential_savings c plan_name plan); exact Hlookup|].
    intros con4 Hcon4.
    apply (asked_bind _ _ _ _ _ _ select_premium_level_asked);
      [rewrite Hcon4; exact Hkb3 | left; reflexivity |].
    intros [premium_level|] con5 Hlevel Hkb5 Hlen5; [|contradiction].
    destruct (validate_features_loop_success _ _ Hfeatures) as [entries Hfound].
    destruct (calculate_total_cost_stages (manager_of c) plan_name feature_names
                num_members premium_level plan entries Hlookup Hfound)
      as (bd & Hcall & _).
    destruct (get_summary_returns _ _ _ _ _ _ Hcall) as [summary Hsummary].
    eapply ensures_io_call_bind; [exact Hsummary|].
    apply (asked_bind _ _ _ _ _ _ (confirm_membership_asked summary));
      [exact Hkb5 | left; reflexivity |].
    assert (Hconfirmed : forall r, py_int (bd_total_cost bd) = r -> confirmed_total c r).
    { intros r Hr. exists plan_name, feature_names, num_members, premium_level,
        (bd_total_cost bd), bd.
      repeat apply conj; try assumption; lia. }
    intros [|] con6 _ Hkb6 Hlen6; cbn [negb].
    + eapply ensures_io_call_bind; [exact Hcall|]. cbn zeta. cbn [fst].
      destruct (py_int (bd_total_cost bd)) as [final_cost| |] eqn:Hint.
      * apply ensures_seq; [apply ensures_print|]. intros con7 _.
        apply ensures_ret. right. apply Hconfirmed. reflexivity.
      * apply ensures_raise. right. right. left. split; [reflexivity|].
        apply Hconfirmed. reflexivity.
      * apply ensures_raise. right. right. right. split; [reflexivity|].
        apply Hconfirmed. reflexivity.
    + apply ensures_seq; [apply ensures_print|]. intros con7 Hcon7.
      eapply ensures_weaken; [apply IH; rewrite Hcon7; exact Hkb6| |].
      * cbn beta. auto.
      * cbn beta. intros e [He|[[He Hdepth]|He]]; [left; exact He| |right; right; exact He].
        right. left. split; [exact He|].
        rewrite Hcon7 in Hdepth. rewrite Hcon4, Hcon0 in *. lia.
Qed.

End Run.

(** ** The application: what the prompts hand to the manager *)

Lemma available_plan_validates {A : Type} `{Arith A} (c : OrderedCatalogs A)
    (plan_name : string) :
  keys_unique c ->
  keyed_by_name c ->
  In plan_name (map MembershipPlan.name (get_available_membership_plans c)) ->
  validate_membership_plan plan_name (manager_of c) = (Returns (true, None), manager_of c).
Proof.
  intros [Hnodup _] [Hkeyed _] Hin.
  apply validate_membership_plan_success_iff. cbn [manager_of membership_plans].
  unfold get_available_membership_plans in Hin.
  apply in_map_iff in Hin as (plan & Hname & Hin). apply filter_In in Hin as [Hin Havail].
  apply in_map_iff in Hin as ([key plan'] & Hsnd & Hin). cbn [snd] in Hsnd. subst plan'.
  exists plan. split; [|exact Havail].
  apply lookup_items; [exact Hnodup|].
  rewrite List.Forall_forall in Hkeyed. specialize (Hkeyed _ Hin). cbn [fst snd] in Hkeyed.
  rewrite <- Hname, Hkeyed. exact Hin.
Qed.

Lemma available_features_validate {A : Type} `{Arith A} (c : OrderedCatalogs A)
    (names : list string) :
  keys_unique c ->
  keyed_by_name c ->
  Forall (fun name => In name (map AdditionalFeature.name (get_available_features c)))
    names ->
  validate_features (PyList names) (manager_of c) = (Returns (true, None), manager_of c).
Proof.
  intros [_ Hnodup] [_ Hkeyed] Hlisted. rewrite List.Forall_forall in Hkeyed.
  unfold validate_features. cbn [isinstance_list].
  apply validate_features_loop_success_iff. apply forallb_forall.
  rewrite List.Forall_forall in Hlisted. intros name Hname. specialize (Hlisted name Hname).
  unfold feature_enabled, get_available_features in *.
  cbn [manager_of additional_features].
  apply in_map_iff in Hlisted as (entry & Hentry & Hin).
  apply filter_In in Hin as [Hin Havail].
  apply in_map_iff in Hin as ([key entry'] & Hsnd & Hin). cbn [snd] in Hsnd.
  subst entry'. pose proof (Hkeyed _ Hin) as Hkey. cbn [fst snd] in Hkey.
  rewrite Hentry in Hkey. subst key.
  apply lookup_items in Hin; [|exact Hnodup]. rewrite Hin. exact Havail.
Qed.

Lemma validate_num_members_in_range {A : Type} `{Arith A}
    (self : GymMembershipManager A) (n : Z) :
  (1 <= n <= 10)%Z ->
  validate_num_members (PyInt n) self = (Returns (true, None), self).
Proof.
  intros Hrange. unfold validate_num_members. cbn [isinstance_int].
  destruct (n <? 1)%Z eqn:Hlow; [apply Z.ltb_lt in Hlow; lia|].
  destruct (n >? 10)%Z eqn:Hhigh; [rewrite Z.gtb_ltb in Hhigh; apply Z.ltb_lt in Hhigh; lia|].
  reflexivity.
Qed.

(** X9.  For lines of ASCII text of at most 4300 characters and catalogs
    that store every entry under its own name, [select_membership_plan]
    hands back only [None] (on cancel) or the name of a plan that
    [validate_membership_plan] accepts, and raises nothing but [EOFError];
    so the plan check of [run] never fails. *)
Theorem selected_plan_is_valid :
  forall (A : Type) (ar : Arith A) (ti : ToInt A) (c : OrderedCatalogs A) (con : Console),
    keys_unique c ->
    keyed_by_name c ->
    keyboard (stdin con) ->
    match fst (select_membership_plan c con) with
    | Ok (Some plan_name) =>
        validate_membership_plan plan_name (manager_of c)
        = (Returns (true, None), manager_of c)
    | Ok None => True
    | Err e => e = EOFError
    end.
Proof.
  intros A ar ti c con Hunique Hkeyed Hkb.
  pose proof (select_membership_plan_asked c con Hkb) as Hasked. unfold ensures in Hasked.
  destruct (select_membership_plan c con) as [[[plan_name|]|e] con']; cbn [fst];
    [|exact I|exact Hasked].
  destruct Hasked as (Hlisted & _).
  exact (available_plan_validates c plan_name Hunique Hkeyed (Hlisted plan_name eq_refl)).
Qed.

Lemma selected_plan_is_valid_witness :
  match fst (select_membership_plan (A:=float) init_catalogs
               {| stdin := ["basic"; " 2 "; "Family"]; stdout := [] |}) with
  | Ok (Some plan_name) =>
      validate_membership_plan plan_name (manager_of (A:=float) init_catalogs)
      = (Returns (true, None), manager_of init_catalogs)
  | Ok None => True
  | Err e => e = EOFError
  end.
Proof.
  apply (selected_plan_is_valid float _ _ init_catalogs
           {| stdin := ["basic"; " 2 "; "Family"]; stdout := [] |}).
  - exact keys_unique_init_catalogs.
  - exact keyed_by_name_init_catalogs.
  - repeat constructor.
Defined.

(** X10.  For lines of ASCII text of at most 4300 characters
    [select_num_members] hands back only [None] (on cancel) or a number from
    1 to 10, which [validate_num_members] accepts, and raises nothing but
    [EOFError]. *)
Theorem selected_member_count_is_valid :
  forall (A : Type) (ar : Arith A) (ti : ToInt A) (c : OrderedCatalogs A) (con : Console),
    keyboard (stdin con) ->
    match fst (select_num_members c con) with
    | Ok (Some num_members) =>
        (1 <= num_members <= 10)%Z
        /\ validate_num_members (PyInt num_members) (manager_of c)
           = (Returns (true, None), manager_of c)
    | Ok None => True
    | Err e => e = EOFError
    end.
Proof.
  intros A ar ti c con Hkb.
  pose proof (select_num_members_asked c con Hkb) as Hasked. unfold ensures in Hasked.
  destruct (select_num_members c con) as [[[num_members|]|e] con']; cbn [fst];
    [|exact I|exact Hasked].
  destruct Hasked as (Hrange & _). specialize (Hrange num_members eq_refl).
  split; [exact Hrange | exact (validate_num_members_in_range _ _ Hrange)].
Qed.

Lemma selected_member_count_is_valid_witness :
  match fst (select_num_members (A:=float) init_catalogs
               {| stdin := ["0"; "eleven"; "11"; "007"]; stdout := [] |}) with
  | Ok (Some num_members) =>
      (1 <= num_members <= 10)%Z
      /\ validate_num_members (PyInt num_members) (manager_of (A:=float) init_catalogs)
         = (Returns (true, None), manager_of init_catalogs)
  | Ok None => True
  | Err e => e = EOFError
  end.
Proof.
  apply (selected_member_count_is_valid float _ _ init_catalogs
           {| stdin := ["0"; "eleven"; "11"; "007"]; stdout := [] |}).
  repeat constructor.
Defined.

(** X11.  For lines of ASCII text of at most 4300 characters and catalogs
    that store every entry under its own name, [select_additional_features]
    hands back only [None] (on cancel) or a list without repetition that
    [validate_features] accepts, and raises nothing but [EOFError]; so the
    feature check of [run] never fails. *)
Theorem selected_features_are_valid :
  forall (A : Type) (ar : Arith A) (ti : ToInt A) (c : OrderedCatalogs A) (con : Console),
    keys_unique c ->
    keyed_by_name c ->
    keyboard (stdin con) ->
    match fst (select_additional_features c con) with
    | Ok (Some feature_names) =>
        List.NoDup feature_names
        /\ validate_features (PyList feature_names) (manager_of c)
           = (Returns (true, None), manager_of c)
    | Ok None => True
    | Err e => e = EOFError
    end.
Proof.
  intros A ar ti c con Hunique Hkeyed Hkb.
  pose proof (select_additional_features_asked c con Hkb) as Hasked.
  unfold ensures in Hasked.
  destruct (select_additional_features c con) as [[[feature_names|]|e] con']; cbn [fst];
    [|exact I|exact Hasked].
  destruct Hasked as (Hselected & _).
  destruct (Hselected feature_names eq_refl) as [Hnodup Hlisted].
  split; [exact Hnodup|].
  exact (available_features_validate c feature_names Hunique Hkeyed Hlisted).
Qed.

Lemma selected_features_are_valid_witness :
  match fst (select_additional_features (A:=float) init_catalogs
               {| stdin := ["1"; "3"; "1"; "2"; "4"; "done"]; stdout := [] |}) with
  | Ok (Some feature_names) =>
      List.NoDup feature_names
      /\ validate_features (PyList feature_names) (manager_of (A:=float) init_catalogs)
         = (Returns (true, None), manager_of init_catalogs)
  | Ok None => True
  | Err e => e = EOFError
  end.
Proof.
  apply (selected_features_are_valid float _ _ init_catalogs
           {| stdin := ["1"; "3"; "1"; "2"; "4"; "done"]; stdout := [] |}).
  - exact keys_unique_init_catalogs.
  - exact keyed_by_name_init_catalogs.
  - repeat constructor.
Defined.

Lemma lower_char_idempotent (a : ascii) :
  Str.lower_char (Str.lower_char a) = Str.lower_char a.
Proof. destruct a as [[] [] [] [] [] [] [] []]; reflexivity. Qed.

Lemma lower_idempotent (s : string) : Str.lower (Str.lower s) = Str.lower s.
Proof.
  induction s as [|a rest IH]; [reflexivity|].
  cbn [Str.lower]. rewrite lower_char_idempotent, IH. reflexivity.
Qed.

Lemma select_additional_features_body_by_name (feature_names : list string)
    (line : string) :
  Forall (fun name => Str.lower name <> name) feature_names ->
  Str.isdigit (Str.lower (Str.strip line)) = false ->
  match select_additional_features_body feature_names [] line with
  | Again selected _ => selected = []
  | Leave x _ => x = Some [] \/ x = None
  | Fail _ => False
  end.
Proof.
  intros Hcapital Hword. unfold select_additional_features_body.
  destruct (String.eqb _ "done"); [left; reflexivity|].
  destruct (String.eqb _ "cancel"); [right; reflexivity|].
  rewrite Hword.
  destruct (Str.mem _ feature_names) eqn:Hmem; [|reflexivity].
  exfalso. apply mem_true_iff in Hmem. rewrite List.Forall_forall in Hcapital.
  exact (Hcapital _ Hmem (lower_idempotent _)).
Qed.

(** X12.  [select_additional_features] lowers the line before it looks it
    up among the feature names.  So when every listed name has a capital
    letter, as in the class tables, a feature can be picked by its number
    only: whatever words are typed, the selection stays empty. *)
Theorem features_cannot_be_chosen_by_name :
  forall (A : Type) (ar : Arith A) (ti : ToInt A) (c : OrderedCatalogs A) (con : Console),
    Forall (fun name => Str.lower name <> name)
      (map AdditionalFeature.name (get_available_features c)) ->
    keyboard (stdin con) ->
    Forall (fun line => Str.isdigit (Str.lower (Str.strip line)) = false) (stdin con) ->
    match fst (select_additional_features c con) with
    | Ok (Some feature_names) => feature_names = []
    | Ok None => True
    | Err e => e = EOFError
    end.
Proof.
  intros A ar ti c con Hcapital _ Hwords.
  unfold select_additional_features.
  pose proof (ensures_display_additional_features c con (fun _ => False)) as Hshow.
  unfold ensures in Hshow. unfold io_bind.
  destruct (display_additional_features c con) as [[[]|e] con1]; [|contradiction].
  cbn zeta. unfold prompt_loop. rewrite Hshow.
  pose proof (prompt_loop_on_ensures currently_selected
                "Enter feature name/number to add/remove, or 'done' to continue: "
                (select_additional_features_body
                   (map AdditionalFeature.name (get_available_features c)))
                (fun line => Str.isdigit (Str.lower (Str.strip line)) = false)
                (fun selected => selected = [])
                (fun x => x = Some [] \/ x = None)
                (fun _ => False)) as Hloop.
  specialize (Hloop ltac:(intros s line -> Hword;
                          exact (select_additional_features_body_by_name _ line
                                   Hcapital Hword))
                (stdin con) [] (stdout con1) Hwords eq_refl).
  destruct (prompt_loop_on _ _ _ _ _ _) as [[[feature_names|]|e] con2]; cbn [fst].
  - destruct Hloop as ([[= ->]|[=]] & _). reflexivity.
  - exact I.
  - destruct Hloop as [He|[]]. exact He.
Qed.

Lemma features_cannot_be_chosen_by_name_witness :
  match fst (select_additional_features (A:=float) init_catalogs
               {| stdin := ["Personal Training"; "group classes"; "all"; "done"];
                  stdout := [] |}) with
  | Ok (Some feature_names) => feature_names = []
  | Ok None => True
  | Err e => e = EOFError
  end.
Proof.
  apply (features_cannot_be_chosen_by_name float _ _ init_catalogs
           {| stdin := ["Personal Training"; "group classes"; "all"; "done"];
              stdout := [] |}).
  - repeat constructor; intros Heq; lazy in Heq; discriminate Heq.
  - repeat constructor.
  - repeat constructor.
Defined.

(** ** The application: [run] *)

(** X13.  For lines of ASCII text of at most 4300 characters, [run] ends in
    one of these ways only: it returns
    -1; it returns [int] of the total of a selection that passed both
    validations, has no feature twice and 1 to 10 members; it raises
    [EOFError] because the input ran out; it raises what [int] raises on
    such a total that is infinite or not a number; or the nesting of its
    restarts exceeds [depth], which takes five lines of input for each
    restart.  No [KeyError] of the manager escapes. *)
Theorem run_outcomes :
  forall (A : Type) (ar : Arith A) (ti : ToInt A) (c : OrderedCatalogs A)
         (depth : nat) (con : Console),
    keyboard (stdin con) ->
    match fst (run depth c con) with
    | Ok final_cost => final_cost = (-1)%Z \/ confirmed_total c (Whole final_cost)
    | Err EOFError => True
    | Err RecursionError => (5 * depth <= length (stdin con))%nat
    | Err OverflowError => confirmed_total c Infinite
    | Err ValueError => confirmed_total c NotANumber
    | Err (FromManager _) => False
    end.
Proof.
  intros A ar ti c depth con Hkb.
  pose proof (run_ensures c depth con Hkb) as Hrun. unfold ensures in Hrun.
  destruct (run depth c con) as [[final_cost|e] con']; cbn [fst]; [exact Hrun|].
  destruct e; destruct Hrun as [He|[[He Hdepth]|[[He Hint]|[He Hint]]]];
    solve [discriminate He | exact I | assumption].
Qed.

Lemma run_outcomes_witness :
  match fst (run (A:=float) 2 init_catalogs
               {| stdin := ["Premium"; "2"; "3"; "done"; "2"; "no";
                            "1"; "1"; "done"; "none"; "yes"];
                  stdout := [] |}) with
  | Ok final_cost =>
      final_cost = (-1)%Z \/ confirmed_total (A:=float) init_catalogs (Whole final_cost)
  | Err EOFError => True
  | Err RecursionError => (5 * 2 <= 11)%nat
  | Err OverflowError => confirmed_total (A:=float) init_catalogs Infinite
  | Err ValueError => confirmed_total (A:=float) init_catalogs NotANumber
  | Err (FromManager _) => False
  end.
Proof.
  apply (run_outcomes float _ _ init_catalogs 2
           {| stdin := ["Premium"; "2"; "3"; "done"; "2"; "no";
                        "1"; "1"; "done"; "none"; "yes"];
              stdout := [] |}).
  repeat constructor.
Defined.

(** ** The application on the class tables, in binary64 *)

Lemma seed_plan_names (plan_name : string) :
  validate_membership_plan plan_name (manager_of (A:=float) init_catalogs)
  = (Returns (true, None), manager_of init_catalogs) ->
  In plan_name ["Basic"; "Premium"; "Family"].
Proof.
  intros Hvalid. apply validate_membership_plan_success in Hvalid as (plan & Hlookup & _).
  cbn [manager_of membership_plans] in Hlookup.
  apply lookup_items in Hlookup; [|apply keys_unique_init_catalogs].
  cbn [init_catalogs plan_items MEMBERSHIP_PLANS_items In] in Hlookup.
  destruct Hlookup as [[= <- _]|[[= <- _]|[[= <- _]|[]]]]; cbn [In]; auto.
Qed.

Lemma seed_feature_names (names : list string) :
  validate_features (PyList names) (manager_of (A:=float) init_catalogs)
  = (Returns (true, None), manager_of init_catalogs) ->
  Forall (fun name => In name ["Personal Training"; "Group Classes";
                               "Nutritional Consulting"]) names.
Proof.
  unfold validate_features. cbn [isinstance_list]. intros Hvalid.
  apply validate_features_loop_success in Hvalid as [entries Hfound].
  induction Hfound as [|name entry names entries Hlookup _ IH]; constructor; [|exact IH].
  cbn [manager_of additional_features] in Hlookup.
  apply lookup_items in Hlookup; [|apply keys_unique_init_catalogs].
  cbn [init_catalogs feature_items ADDITIONAL_FEATURES_items In] in Hlookup.
  destruct Hlookup as [[= <- _]|[[= <- _]|[[= <- _]|[]]]]; cbn [In]; auto.
Qed.

(** The lists without repetition over the three feature names. *)
Lemma seed_feature_lists (names : list string) :
  List.NoDup names ->
  Forall (fun name => In name ["Personal Training"; "Group Classes";
                               "Nutritional Consulting"]) names ->
  In names
    [[];
     ["Personal Training"]; ["Group Classes"]; ["Nutritional Consulting"];
     ["Personal Training"; "Group Classes"]; ["Personal Training"; "Nutritional Consulting"];
     ["Group Classes"; "Personal Training"]; ["Group Classes"; "Nutritional Consulting"];
     ["Nutritional Consulting"; "Personal Training"];
     ["Nutritional Consulting"; "Group Classes"];
     ["Personal Training"; "Group Classes"; "Nutritional Consulting"];
     ["Personal Training"; "Nutritional Consulting"; "Group Classes"];
     ["Group Classes"; "Personal Training"; "Nutritional Consulting"];
     ["Group Classes"; "Nutritional Consulting"; "Personal Training"];
     ["Nutritional Consulting"; "Personal Training"; "Group Classes"];
     ["Nutritional Consulting"; "Group Classes"; "Personal Training"]].
Proof.
  intros Hnodup Hlisted.
  assert (Hlen : (length names <= 3)%nat).
  { apply (NoDup_incl_length Hnodup
             (l' := ["Personal Training"; "Group Classes"; "Nutritional Consulting"])).
    intros name Hname. rewrite List.Forall_forall in Hlisted. exact (Hlisted name Hname). }
  destruct names as [|x1 [|x2 [|x3 [|x4 rest]]]]; cbn [length] in Hlen; try lia.
  all: repeat match goal with
              | H : Forall _ (_ :: _) |- _ => inversion H; subst; clear H
              end.
  all: repeat match goal with
              | H : In _ (_ :: _) |- _ => destruct H as [<-|H]
              | H : In _ [] |- _ => destruct H
              end.
  all: try solve [cbn [In]; repeat (first [left; reflexivity | right])].
  all: exfalso;
    repeat match goal with
           | H : List.NoDup (_ :: _) |- _ => inversion H; subst; clear H
           end;
    match goal with
    | Hn : ~ In _ _ |- _ => solve [apply Hn; cbn [In]; auto 10]
    end.
Qed.

Lemma seed_prices_checked :
  forallb
    (fun selection : string * (list string * (Z * PremiumFeatureLevel)) =>
       match calculate_total_cost (A:=float) (fst selection) (fst (snd selection))
               (fst (snd (snd selection))) (snd (snd (snd selection)))
               (manager_of init_catalogs) with
       | (Returns (total_cost, _), _) =>
           match py_int total_cost with
           | Whole final_cost => (26 <=? final_cost)%Z && (final_cost <=? 229)%Z
           | _ => false
           end
       | _ => false
       end)
    (list_prod ["Basic"; "Premium"; "Family"]
       (list_prod
          [[];
           ["Personal Training"]; ["Group Classes"]; ["Nutritional Consulting"];
           ["Personal Training"; "Group Classes"];
           ["Personal Training"; "Nutritional Consulting"];
           ["Group Classes"; "Personal Training"];
           ["Group Classes"; "Nutritional Consulting"];
           ["Nutritional Consulting"; "Personal Training"];
           ["Nutritional Consulting"; "Group Classes"];
           ["Personal Training"; "Group Classes"; "Nutritional Consulting"];
           ["Personal Training"; "Nutritional Consulting"; "Group Classes"];
           ["Group Classes"; "Personal Training"; "Nutritional Consulting"];
           ["Group Classes"; "Nutritional Consulting"; "Personal Training"];
           ["Nutritional Consulting"; "Personal Training"; "Group Classes"];
           ["Nutritional Consulting"; "Group Classes"; "Personal Training"]]
          (list_prod [1; 2; 3; 4; 5; 6; 7; 8; 9; 10]%Z
             [NONE; EXCLUSIVE_FACILITIES; SPECIALIZED_TRAINING])))
  = true.
Proof. vm_compute. reflexivity. Qed.

Lemma seed_confirmed_total (priced : Truncated) :
  confirmed_total (A:=float) init_catalogs priced ->
  exists final_cost : Z, priced = Whole final_cost /\ (26 <= final_cost <= 229)%Z.
Proof.
  intros (plan_name & feature_names & num_members & premium_level & total_cost & breakdown
          & Hplan & Hfeatures & Hnodup & Hrange & Hcall & Hint).
  pose proof seed_prices_checked as Hchecked. rewrite forallb_forall in Hchecked.
  specialize (Hchecked (plan_name, (feature_names, (num_members, premium_level)))).
  cbn [fst snd] in Hchecked. rewrite Hcall, Hint in Hchecked.
  assert (Hin : In (plan_name, (feature_names, (num_members, premium_level)))
                  (list_prod ["Basic"; "Premium"; "Family"]
       (list_prod
          [[];
           ["Personal Training"]; ["Group Classes"]; ["Nutritional Consulting"];
           ["Personal Training"; "Group Classes"];
           ["Personal Training"; "Nutritional Consulting"];
           ["Group Classes"; "Personal Training"];
           ["Group Classes"; "Nutritional Consulting"];
           ["Nutritional Consulting"; "Personal Training"];
           ["Nutritional Consulting"; "Group Classes"];
           ["Personal Training"; "Group Classes"; "Nutritional Consulting"];
           ["Personal Training"; "Nutritional Consulting"; "Group Classes"];
           ["Group Classes"; "Personal Training"; "Nutritional Consulting"];
           ["Group Classes"; "Nutritional Consulting"; "Personal Training"];
           ["Nutritional Consulting"; "Personal Training"; "Group Classes"];
           ["Nutritional Consulting"; "Group Classes"; "Personal Training"]]
          (list_prod [1; 2; 3; 4; 5; 6; 7; 8; 9; 10]%Z
             [NONE; EXCLUSIVE_FACILITIES; SPECIALIZED_TRAINING])))).
  { apply in_prod; [exact (seed_plan_names _ Hplan)|].
    apply in_prod; [exact (seed_feature_lists _ Hnodup (seed_feature_names _ Hfeatures))|].
    apply in_prod.
    - cbn [In]. lia.
    - destruct premium_level; cbn [In]; auto. }
  specialize (Hchecked Hin).
  destruct priced as [final_cost| |]; [|discriminate|discriminate].
  exists final_cost. split; [reflexivity|].
  apply andb_true_iff in Hchecked as [Hlow Hhigh].
  apply Z.leb_le in Hlow. apply Z.leb_le in Hhigh. lia.
Qed.

(** X14.  On lines of ASCII text of at most 4300 characters, [main] in
    binary64 returns -1 or a whole number from 26 to 229, the confirmed total
    truncated, and raises nothing but [EOFError], or [RecursionError] after
    more restarts than [depth], each of which takes five lines. *)
Theorem main_result_range :
  forall (depth : nat) (con : Console),
    keyboard (stdin con) ->
    match fst (main (A:=float) depth con) with
    | Ok final_cost => final_cost = (-1)%Z \/ (26 <= final_cost <= 229)%Z
    | Err e =>
        e = EOFError
        \/ (e = RecursionError /\ (5 * depth <= length (stdin con))%nat)
    end.
Proof.
  intros depth con Hkb. unfold main.
  pose proof (run_ensures (A:=float) init_catalogs depth con Hkb) as Hrun.
  unfold ensures in Hrun.
  destruct (run depth init_catalogs con) as [[final_cost|e] con']; cbn [fst].
  - destruct Hrun as [Hcancel|Hconfirmed]; [left; exact Hcancel|].
    apply seed_confirmed_total in Hconfirmed as (v & [= <-] & Hrange).
    right. exact Hrange.
  - destruct Hrun as [He|[Hdepth|[[_ Hint]|[_ Hint]]]]; [left; exact He|right; exact Hdepth| |];
      apply seed_confirmed_total in Hint as (v & Habs & _); discriminate Habs.
Qed.

Lemma main_result_range_witness :
  match fst (main (A:=float) 1
               {| stdin := ["3"; "1"; "1"; "2"; "3"; "done"; "3"; "y"]; stdout := [] |}) with
  | Ok final_cost => final_cost = (-1)%Z \/ (26 <= final_cost <= 229)%Z
  | Err e => e = EOFError \/ (e = RecursionError /\ (5 * 1 <= 8)%nat)
  end.
Proof.
  apply (main_result_range 1
           {| stdin := ["3"; "1"; "1"; "2"; "3"; "done"; "3"; "y"]; stdout := [] |}).
  repeat constructor.
Defined.

(** ** The application: savings message and premium level *)

(** X15.  [display_potential_savings] prices the plan alone: below two
    members it writes nothing; from two members on it raises the manager's
    [KeyError] for an unknown plan, and for a known plan and a member count
    of at most 4300 digits it writes one line whose amount is a tenth of the
    plan's base cost, whatever features have been selected; it reads no
    input. *)
Theorem potential_savings_ignore_features :
  forall (A : Type) (ar : Arith A) (ti : ToInt A) (c : OrderedCatalogs A)
         (plan_name : string) (num_members : Z) (con : Console),
    ((num_members < 2)%Z ->
     display_potential_savings c plan_name num_members con = (Ok tt, con))
    /\ ((2 <= num_members)%Z ->
        membership_plans (manager_of c) !! plan_name = None ->
        display_potential_savings c plan_name num_members con
        = (Err (FromManager (KeyError plan_name)), con))
    /\ (forall plan : MembershipPlan.t A,
          (2 <= num_members)%Z ->
          printable num_members ->
          membership_plans (manager_of c) !! plan_name = Some plan ->
          let savings :=
            mul (add (MembershipPlan.base_cost plan) (lit 0 1)) GROUP_DISCOUNT_PERCENTAGE in
          display_potential_savings c plan_name num_members con
          = (Ok tt,
             {| stdin := stdin con;
                stdout := (stdout con
                           ++ [Print (Text.nl ++ "💰 GROUP SAVINGS: Save $" ++ fmt2f savings
                                        ++ " with " ++ Text.str_of_int num_members
                                        ++ " members (10% discount)!" ++ Text.nl)])%list |})).
Proof.
  intros A ar ti c plan_name num_members con.
  unfold display_potential_savings, GROUP_DISCOUNT_THRESHOLD.
  repeat apply conj.
  - intros Hsingle. destruct (num_members >=? 2)%Z eqn:Htest; [|reflexivity].
    apply Z.geb_le in Htest. lia.
  - intros Hgroup Hmissing.
    destruct (num_members >=? 2)%Z eqn:Htest; [|rewrite Z.geb_leb in Htest;
                                                 apply Z.leb_gt in Htest; lia].
    unfold io_bind, io_call, call.
    rewrite (calculate_total_cost_plan_missing _ _ _ _ _ Hmissing). reflexivity.
  - intros plan Hgroup _ Hfound. cbn zeta.
    destruct (num_members >=? 2)%Z eqn:Htest; [|rewrite Z.geb_leb in Htest;
                                                 apply Z.leb_gt in Htest; lia].
    destruct (calculate_total_cost_stages (manager_of c) plan_name [] (num_members - 1) NONE
                plan [] Hfound (List.Forall2_nil _)) as (bd1 & Hcall1 & _).
    destruct (calculate_total_cost_stages (manager_of c) plan_name [] num_members NONE
                plan [] Hfound (List.Forall2_nil _))
      as (bd2 & Hcall2 & Hbase & Hfeatures & Hsubtotal & Hdiscount & _).
    rewrite (calculate_group_discount_from _ _ _ Hgroup) in Hdiscount.
    injection Hdiscount as _ Hsavings.
    unfold io_bind, io_call, call. rewrite Hcall1, Hcall2. cbn [fst snd].
    unfold print. cbn zeta.
    rewrite <- Hsavings, Hsubtotal, Hbase, Hfeatures. reflexivity.
Qed.

Lemma potential_savings_ignore_features_witness :
  display_potential_savings (A:=float) init_catalogs "Family" 1
    {| stdin := ["done"]; stdout := [] |}
  = (Ok tt, {| stdin := ["done"]; stdout := [] |})
  /\ display_potential_savings (A:=float) init_catalogs "Gold" 2
       {| stdin := ["done"]; stdout := [] |}
     = (Err (FromManager (KeyError "Gold")), {| stdin := ["done"]; stdout := [] |})
  /\ display_potential_savings (A:=float) init_catalogs "Family" 4
       {| stdin := ["done"]; stdout := [] |}
     = (Ok tt,
        {| stdin := ["done"];
           stdout := [Print (Text.nl ++ "💰 GROUP SAVINGS: Save $10.00 with 4 members (10% discount)!"
                               ++ Text.nl)] |}).
Proof.
  destruct (potential_savings_ignore_features float _ _ init_catalogs "Family" 1%Z
              {| stdin := ["done"]; stdout := [] |}) as (Hsingle & _ & _).
  destruct (potential_savings_ignore_features float _ _ init_catalogs "Gold" 2%Z
              {| stdin := ["done"]; stdout := [] |}) as (_ & Hmissing & _).
  destruct (potential_savings_ignore_features float _ _ init_catalogs "Family" 4%Z
              {| stdin := ["done"]; stdout := [] |}) as (_ & _ & Hfound).
  repeat apply conj.
  - apply Hsingle. lia.
  - apply Hmissing; [lia | reflexivity].
  - exact (Hfound (MembershipPlan.make "Family" (lit 9999 2)
                     ["Up to 4 family members"; "All Premium benefits";
                      "Family lounge access"] true)
             ltac:(lia) ltac:(vm_compute; reflexivity) eq_refl).
Defined.

(** X16.  For typed lines [select_premium_level] always hands back a
    level, never [None], and raises nothing but [EOFError]: the
    cancellation that [run] tests for after it cannot happen. *)
Theorem premium_level_is_always_chosen :
  forall con : Console,
    keyboard (stdin con) ->
    match fst (select_premium_level con) with
    | Ok (Some _) => True
    | Ok None => False
    | Err e => e = EOFError
    end.
Proof.
  intros con Hkb.
  pose proof (select_premium_level_asked con Hkb) as Hasked. unfold ensures in Hasked.
  destruct (select_premium_level con) as [[[level|]|e] con']; cbn [fst];
    [exact I| |exact Hasked].
  destruct Hasked as (Hsome & _). apply Hsome. reflexivity.
Qed.

Lemma premium_level_is_always_chosen_witness :
  match fst (select_premium_level
               {| stdin := ["cancel"; ""; "4"; " NONE "]; stdout := [] |}) with
  | Ok (Some _) => True
  | Ok None => False
  | Err e => e = EOFError
  end.
Proof.
  apply (premium_level_is_always_chosen
           {| stdin := ["cancel"; ""; "4"; " NONE "]; stdout := [] |}).
  repeat constructor.
Defined.

(** ** Binary64 on the class tables: order of the features, group size, bounds *)

Lemma mem_permutation (x : string) (l l' : list string) :
  Permutation l l' -> Str.mem x l = Str.mem x l'.
Proof.
  intros Hperm. destruct (Str.mem x l') eqn:Hmem'.
  - apply mem_true_iff. apply mem_true_iff in Hmem'.
    exact (Permutation_in x (Permutation_sym Hperm) Hmem').
  - destruct (Str.mem x l) eqn:Hmem; [|reflexivity].
    apply mem_true_iff in Hmem. apply (Permutation_in x Hperm) in Hmem.
    apply mem_true_iff in Hmem. congruence.
Qed.

(** On the class tables the cost of a selection without repetition is the
    sum of whole numbers, whatever the order. *)
Lemma seed_features_cost (names : list string) :
  List.NoDup names ->
  Forall (fun name => In name ["Personal Training"; "Group Classes";
                               "Nutritional Consulting"]) names ->
  calculate_features_cost (A:=float) names init
  = (Returns (of_int ((if Str.mem "Personal Training" names then 50 else 0)
                      + (if Str.mem "Group Classes" names then 30 else 0)
                      + (if Str.mem "Nutritional Consulting" names then 40 else 0))),
     init).
Proof.
  intros Hnodup Hlisted. pose proof (seed_feature_lists names Hnodup Hlisted) as Hcases.
  cbn [In] in Hcases.
  repeat (destruct Hcases as [<-|Hcases]; [vm_compute; reflexivity|]).
  destruct Hcases.
Qed.

(** The member count matters only through the test of the group size. *)
Lemma total_cost_by_group_test {A : Type} `{Arith A} (self : GymMembershipManager A)
    (plan_name : string) (names : list string) (n : Z) (t : PremiumFeatureLevel) :
  calculate_total_cost plan_name names n t self
  = calculate_total_cost plan_name names (if (n <? 2)%Z then 1 else 2) t self.
Proof.
  unfold calculate_total_cost, calculate_group_discount, GROUP_DISCOUNT_THRESHOLD.
  destruct (n <? 2)%Z; reflexivity.
Qed.

(** X6.  In binary64 the order in which the features are named can change
    the price: with features priced 40.27, 68.09 and 31.65 on the "Premium"
    plan, one order gives a subtotal above 200 and a total of 180.00, another
    a subtotal of 200 and a total of 200.00.  On the class tables, whose
    feature prices are whole numbers, a selection without repetition that
    passed validation is priced the same in every order. *)
Theorem binary64_feature_order :
  (exists (total total' : float) (bd bd' : Breakdown float),
      calculate_total_cost "Premium"
        ["Personal Training"; "Group Classes"; "Nutritional Consulting"] 1 NONE
        uneven_prices
      = (Returns (total, bd), uneven_prices)
      /\ calculate_total_cost "Premium"
           ["Personal Training"; "Nutritional Consulting"; "Group Classes"] 1 NONE
           uneven_prices
         = (Returns (total', bd'), uneven_prices)
      /\ fmt2f total = "180.00"
      /\ fmt2f total' = "200.00")
  /\
  (forall (plan_name : string) (names names' : list string) (n : Z)
          (t : PremiumFeatureLevel),
      validate_features (A:=float) (PyList names) init = (Returns (true, None), init) ->
      List.NoDup names ->
      Permutation names names' ->
      calculate_total_cost (A:=float) plan_name names n t init
      = calculate_total_cost plan_name names' n t init).
Proof.
  split.
  - do 4 eexists. split; [vm_compute; reflexivity|]. split; [vm_compute; reflexivity|].
    split; vm_compute; reflexivity.
  - intros plan_name names names' n t Hvalid Hnodup Hperm.
    pose proof (seed_feature_names names Hvalid) as Hlisted.
    assert (Hnodup' : List.NoDup names') by exact (Permutation_NoDup Hperm Hnodup).
    assert (Hlisted' : Forall (fun name => In name ["Personal Training"; "Group Classes";
                                                    "Nutritional Consulting"]) names')
      by exact (Permutation_Forall Hperm Hlisted).
    pose proof (seed_features_cost names Hnodup Hlisted) as Hcost.
    pose proof (seed_features_cost names' Hnodup' Hlisted') as Hcost'.
    rewrite <- !(mem_permutation _ names names' Hperm) in Hcost'.
    unfold calculate_total_cost, bind.
    destruct (calculate_base_cost plan_name init) as [[base|e] self1] eqn:Hbase;
      [|reflexivity].
    assert (Hself : self1 = init).
    { pose proof (unchanged_calculate_base_cost (A:=float) plan_name init) as Hu.
      rewrite Hbase in Hu. exact Hu. }
    subst self1. rewrite Hcost, Hcost'. reflexivity.
Qed.

Lemma binary64_feature_order_witness :
  calculate_total_cost (A:=float) "Family" ["Group Classes"; "Personal Training"] 2
    SPECIALIZED_TRAINING init
  = calculate_total_cost "Family" ["Personal Training"; "Group Classes"] 2
      SPECIALIZED_TRAINING init.
Proof.
  destruct binary64_feature_order as [_ Hseed].
  apply Hseed.
  - reflexivity.
  - repeat constructor; cbn [In]; intros Hin;
      repeat (destruct Hin as [Hin|Hin]; [discriminate Hin|]); exact Hin.
  - apply perm_swap.
Defined.

Lemma seed_selection_listed (plan_name : string) (names : list string)
    (t : PremiumFeatureLevel) :
  validate_membership_plan (A:=float) plan_name init = (Returns (true, None), init) ->
  validate_features (A:=float) (PyList names) init = (Returns (true, None), init) ->
  List.NoDup names ->
  In (plan_name, (names, t))
    (list_prod ["Basic"; "Premium"; "Family"]
       (list_prod
          [[];
           ["Personal Training"]; ["Group Classes"]; ["Nutritional Consulting"];
           ["Personal Training"; "Group Classes"];
           ["Personal Training"; "Nutritional Consulting"];
           ["Group Classes"; "Personal Training"];
           ["Group Classes"; "Nutritional Consulting"];
           ["Nutritional Consulting"; "Personal Training"];
           ["Nutritional Consulting"; "Group Classes"];
           ["Personal Training"; "Group Classes"; "Nutritional Consulting"];
           ["Personal Training"; "Nutritional Consulting"; "Group Classes"];
           ["Group Classes"; "Personal Training"; "Nutritional Consulting"];
           ["Group Classes"; "Nutritional Consulting"; "Personal Training"];
           ["Nutritional Consulting"; "Personal Training"; "Group Classes"];
           ["Nutritional Consulting"; "Group Classes"; "Personal Training"]]
          [NONE; EXCLUSIVE_FACILITIES; SPECIALIZED_TRAINING])).
Proof.
  intros Hplan Hfeatures Hnodup.
  apply in_prod; [exact (seed_plan_names _ Hplan)|].
  apply in_prod; [exact (seed_feature_lists _ Hnodup (seed_feature_names _ Hfeatures))|].
  destruct t; cbn [In]; auto.
Qed.

Lemma seed_group_checked :
  forallb
    (fun selection : string * (list string * PremiumFeatureLevel) =>
       match calculate_total_cost (A:=float) (fst selection) (fst (snd selection)) 2
               (snd (snd selection)) init,
             calculate_total_cost (A:=float) (fst selection) (fst (snd selection)) 1
               (snd (snd selection)) init with
       | (Returns (group_total, _), _), (Returns (single_total, _), _) =>
           PrimFloat.ltb group_total single_total
       | _, _ => false
       end)
    (list_prod ["Basic"; "Premium"; "Family"]
       (list_prod
          [[];
           ["Personal Training"]; ["Group Classes"]; ["Nutritional Consulting"];
           ["Personal Training"; "Group Classes"];
           ["Personal Training"; "Nutritional Consulting"];
           ["Group Classes"; "Personal Training"];
           ["Group Classes"; "Nutritional Consulting"];
           ["Nutritional Consulting"; "Personal Training"];
           ["Nutritional Consulting"; "Group Classes"];
           ["Personal Training"; "Group Classes"; "Nutritional Consulting"];
           ["Personal Training"; "Nutritional Consulting"; "Group Classes"];
           ["Group Classes"; "Personal Training"; "Nutritional Consulting"];
           ["Group Classes"; "Nutritional Consulting"; "Personal Training"];
           ["Nutritional Consulting"; "Personal Training"; "Group Classes"];
           ["Nutritional Consulting"; "Group Classes"; "Personal Training"]]
          [NONE; EXCLUSIVE_FACILITIES; SPECIALIZED_TRAINING]))
  = true.
Proof. vm_compute. reflexivity. Qed.

(** X7.  On the class tables in binary64 a group pays less than a single
    member: for a plan and a selection of features without repetition that
    passed validation, and for every tier, the total with two or more
    members is below the total with fewer than two, although the
    special-offer discount may be lost on the way. *)
Theorem binary64_group_pays_less :
  forall (plan_name : string) (names : list string) (n n' : Z) (t : PremiumFeatureLevel),
    validate_membership_plan (A:=float) plan_name init = (Returns (true, None), init) ->
    validate_features (A:=float) (PyList names) init = (Returns (true, None), init) ->
    List.NoDup names ->
    (2 <= n)%Z ->
    (n' < 2)%Z ->
    exists (total total' : float) (bd bd' : Breakdown float),
      calculate_total_cost plan_name names n t init = (Returns (total, bd), init)
      /\ calculate_total_cost plan_name names n' t init = (Returns (total', bd'), init)
      /\ PrimFloat.ltb total total' = true.
Proof.
  intros plan_name names n n' t Hplan Hfeatures Hnodup Hgroup Hsingle.
  pose proof seed_group_checked as Hchecked. rewrite forallb_forall in Hchecked.
  specialize (Hchecked (plan_name, (names, t))
                (seed_selection_listed plan_name names t Hplan Hfeatures Hnodup)).
  cbn [fst snd] in Hchecked.
  rewrite (total_cost_by_group_test init plan_name names n t).
  rewrite (total_cost_by_group_test init plan_name names n' t).
  apply Z.ltb_ge in Hgroup. apply Z.ltb_lt in Hsingle. rewrite Hgroup, Hsingle.
  destruct (calculate_total_cost plan_name names 2 t init) as [[[total bd]|e] self2]
    eqn:Hcall2; [|discriminate Hchecked].
  destruct (calculate_total_cost plan_name names 1 t init) as [[[total' bd']|e] self1]
    eqn:Hcall1; [|discriminate Hchecked].
  pose proof (unchanged_calculate_total_cost (A:=float) plan_name names 2 t init) as Hu2.
  pose proof (unchanged_calculate_total_cost (A:=float) plan_name names 1 t init) as Hu1.
  rewrite Hcall2 in Hu2. rewrite Hcall1 in Hu1. cbn [snd] in Hu1, Hu2. subst self1 self2.
  exists total, total', bd, bd'.
  split; [reflexivity|]. split; [reflexivity | exact Hchecked].
Qed.

Lemma binary64_group_pays_less_witness :
  exists (total total' : float) (bd bd' : Breakdown float),
    calculate_total_cost "Family" all_features 2 NONE init = (Returns (total, bd), init)
    /\ calculate_total_cost "Family" all_features 1 NONE init = (Returns (total', bd'), init)
    /\ PrimFloat.ltb total total' = true.
Proof.
  apply (binary64_group_pays_less "Family" all_features 2%Z 1%Z NONE).
  - reflexivity.
  - reflexivity.
  - repeat constructor; cbn [In]; intros Hin;
      repeat (destruct Hin as [Hin|Hin]; [discriminate Hin|]); exact Hin.
  - lia.
  - lia.
Defined.

Lemma seed_bounds_checked :
  forallb
    (fun selection : string * (list string * PremiumFeatureLevel) =>
       forallb
         (fun n : Z =>
            match calculate_total_cost (A:=float) (fst selection) (fst (snd selection)) n
                    (snd (snd selection)) init with
            | (Returns (_, bd), _) =>
                PrimFloat.leb 0 (bd_group_discount bd)
                && PrimFloat.leb (bd_group_discount bd) (bd_subtotal bd)
                && (PrimFloat.eqb (bd_special_offer_discount bd) 0
                    || PrimFloat.eqb (bd_special_offer_discount bd) (of_int 20))
                && PrimFloat.ltb 0 (bd_after_special_discount bd)
                && PrimFloat.leb (bd_after_special_discount bd) (bd_subtotal bd)
                && PrimFloat.leb 0 (bd_premium_surcharge bd)
                && PrimFloat.leb (bd_premium_surcharge bd) (bd_after_special_discount bd)
                && PrimFloat.leb (bd_after_special_discount bd) (bd_total_cost bd)
                && PrimFloat.leb (bd_total_cost bd) (of_int 230)
            | _ => false
            end)
         [1; 2]%Z)
    (list_prod ["Basic"; "Premium"; "Family"]
       (list_prod
          [[];
           ["Personal Training"]; ["Group Classes"]; ["Nutritional Consulting"];
           ["Personal Training"; "Group Classes"];
           ["Personal Training"; "Nutritional Consulting"];
           ["Group Classes"; "Personal Training"];
           ["Group Classes"; "Nutritional Consulting"];
           ["Nutritional Consulting"; "Personal Training"];
           ["Nutritional Consulting"; "Group Classes"];
           ["Personal Training"; "Group Classes"; "Nutritional Consulting"];
           ["Personal Training"; "Nutritional Consulting"; "Group Classes"];
           ["Group Classes"; "Personal Training"; "Nutritional Consulting"];
           ["Group Classes"; "Nutritional Consulting"; "Personal Training"];
           ["Nutritional Consulting"; "Personal Training"; "Group Classes"];
           ["Nutritional Consulting"; "Group Classes"; "Personal Training"]]
          [NONE; EXCLUSIVE_FACILITIES; SPECIALIZED_TRAINING]))
  = true.
Proof. vm_compute. reflexivity. Qed.

(** X8.  On the class tables in binary64 every amount of the breakdown stays
    within bounds, for a plan and a selection of features without repetition
    that passed validation, every member count and every tier: the group
    discount lies between 0 and the subtotal, the special-offer discount is
    0 or 20 (never 50), the amount after both discounts is above 0 and at
    most the subtotal, the surcharge lies between 0 and that amount, and the
    total lies between that amount and 230. *)
Theorem binary64_breakdown_bounds :
  forall (plan_name : string) (names : list string) (n : Z) (t : PremiumFeatureLevel),
    validate_membership_plan (A:=float) plan_name init = (Returns (true, None), init) ->
    validate_features (A:=float) (PyList names) init = (Returns (true, None), init) ->
    List.NoDup names ->
    exists (total : float) (bd : Breakdown float),
      calculate_total_cost plan_name names n t init = (Returns (total, bd), init)
      /\ PrimFloat.leb 0 (bd_group_discount bd) = true
      /\ PrimFloat.leb (bd_group_discount bd) (bd_subtotal bd) = true
      /\ (PrimFloat.eqb (bd_special_offer_discount bd) 0 = true
          \/ PrimFloat.eqb (bd_special_offer_discount bd) (of_int 20) = true)
      /\ PrimFloat.ltb 0 (bd_after_special_discount bd) = true
      /\ PrimFloat.leb (bd_after_special_discount bd) (bd_subtotal bd) = true
      /\ PrimFloat.leb 0 (bd_premium_surcharge bd) = true
      /\ PrimFloat.leb (bd_premium_surcharge bd) (bd_after_special_discount bd) = true
      /\ PrimFloat.leb (bd_after_special_discount bd) (bd_total_cost bd) = true
      /\ PrimFloat.leb (bd_total_cost bd) (of_int 230) = true.
Proof.
  intros plan_name names n t Hplan Hfeatures Hnodup.
  pose proof seed_bounds_checked as Hchecked. rewrite forallb_forall in Hchecked.
  specialize (Hchecked (plan_name, (names, t))
                (seed_selection_listed plan_name names t Hplan Hfeatures Hnodup)).
  cbn [fst snd] in Hchecked. rewrite forallb_forall in Hchecked.
  specialize (Hchecked (if (n <? 2)%Z then 1 else 2)%Z
                ltac:(destruct (n <? 2)%Z; cbn [In]; auto)).
  rewrite (total_cost_by_group_test init plan_name names n t).
  destruct (calculate_total_cost plan_name names (if (n <? 2)%Z then 1 else 2) t init)
    as [[[total bd]|e] self1] eqn:Hcall; [|discriminate Hchecked].
  pose proof (unchanged_calculate_total_cost (A:=float) plan_name names
                (if (n <? 2)%Z then 1 else 2) t init) as Hu.
  rewrite Hcall in Hu. cbn [snd] in Hu. subst self1.
  exists total, bd. split; [reflexivity|].
  apply andb_true_iff in Hchecked as [Hchecked Htotal].
  apply andb_true_iff in Hchecked as [Hchecked Hpays].
  apply andb_true_iff in Hchecked as [Hchecked Hsurcharge].
  apply andb_true_iff in Hchecked as [Hchecked Hsurcharge0].
  apply andb_true_iff in Hchecked as [Hchecked Hafter].
  apply andb_true_iff in Hchecked as [Hchecked Hafter0].
  apply andb_true_iff in Hchecked as [Hchecked Hspecial].
  apply andb_true_iff in Hchecked as [Hgroup0 Hgroup].
  apply orb_true_iff in Hspecial.
  repeat apply conj; assumption.
Qed.

Lemma binary64_breakdown_bounds_witness :
  exists (total : float) (bd : Breakdown float),
    calculate_total_cost "Family" all_features 2 EXCLUSIVE_FACILITIES init
    = (Returns (total, bd), init)
    /\ PrimFloat.leb 0 (bd_group_discount bd) = true
    /\ PrimFloat.leb (bd_group_discount bd) (bd_subtotal bd) = true
    /\ (PrimFloat.eqb (bd_special_offer_discount bd) 0 = true
        \/ PrimFloat.eqb (bd_special_offer_discount bd) (of_int 20) = true)
    /\ PrimFloat.ltb 0 (bd_after_special_discount bd) = true
    /\ PrimFloat.leb (bd_after_special_discount bd) (bd_subtotal bd) = true
    /\ PrimFloat.leb 0 (bd_premium_surcharge bd) = true
    /\ PrimFloat.leb (bd_premium_surcharge bd) (bd_after_special_discount bd) = true
    /\ PrimFloat.leb (bd_after_special_discount bd) (bd_total_cost bd) = true
    /\ PrimFloat.leb (bd_total_cost bd) (of_int 230) = true.
Proof.
  apply (binary64_breakdown_bounds "Family" all_features 2%Z EXCLUSIVE_FACILITIES).
  - reflexivity.
  - reflexivity.
  - repeat constructor; cbn [In]; intros Hin;
      repeat (destruct Hin as [Hin|Hin]; [discriminate Hin|]); exact Hin.
Defined.
